(** * Fuel-exports ETL: transformation, validation and file tracking

    A shallow embedding of [plugins/data_processor.py]: the classes
    [DataProcessor] (static methods [transform_for_postgres] and
    [validate_data]) and [FileTracker] ([get_processed_files]).

    Modelling conventions.
    - A pandas [DataFrame] is an ordered list of labelled columns; a column
      is the list of its cells, and a cell is a Python object ([value]).
      Column labels are taken to be distinct, as in a frame read from a
      parquet file.
    - pandas calls are modelled cell by cell on Python objects (the semantics
      of an object column): [Series.apply], [Series.astype(bool)],
      [DataFrame.fillna], [Series.duplicated] and the comparison operators.
      [pd.to_numeric] is modelled on the column, because what it does to a
      boolean or a timestamp depends on the other cells of the column.
    - pandas releases differ on a fill value [None].  From pandas 3 on it is
      accepted and fills nothing: a missing cell keeps its marker; this is
      the reading of [fillna] and of [transform_for_postgres].  Before
      pandas 3, [fillna] rejects it with a [ValueError] as soon as the column
      it is meant for exists; this is the reading of [Pandas2.fillna] and
      [Pandas2.transform_for_postgres].  Which marker, [None] or [NaN], a
      missing cell carries after [Series.apply] depends on the inferred
      column type, which is not represented: statements about missing cells
      say [isna].
    - A timestamp is an instant, read in UTC; the zone a zone-aware
      timestamp carries, and with it the local day [.dt.date] reports for
      [arrival_date], is not represented.  [pd.to_datetime] is read cell by
      cell: the format pandas infers from the first string of a column and
      imposes on the others is not represented.
    - The cells of a frame are the Python objects [value]; a numpy array, as
      the parquet reader delivers for a list column, is not one of them and
      appears only in [pyobject], for the services rule.
    - Numbers are exact rationals: rounding to a 64-bit float and the width
      chosen by [downcast="integer"] are not represented; infinities are left
      out.  The missing-value markers [None], [NaN] and [NaT] are distinct
      objects.
    - The textual grammars of [pd.to_numeric] and [pd.to_datetime] belong to
      pandas; they are parameters of the transformer.  Reference parsers for
      plain decimal literals and ISO dates instantiate them in the examples.
    - A Python exception is an explicit [Raise] result.  Only exceptions of
      class [Exception] are modelled.
    - [logging] calls do not influence control flow; the validator's
      diagnostics are kept as a list, the others are dropped. *)

From Stdlib Require Import List String Ascii Bool Arith ZArith QArith Lia.
Import ListNotations.

Set Warnings "-register-all".

Local Open Scope string_scope.
Local Open Scope list_scope.

(** ** Python objects and exceptions *)

Inductive value : Type :=
| VNone
| VNaN
| VNaT
| VBool (b : bool)
| VNum (q : Q)
| VStr (s : string)
| VList (l : list value)
| VDict (d : list (string * value))
| VTimestamp (ns : Z)
| VDate (days : Z).

Inductive exn : Type :=
| TypeError
| ValueError
| IndexError
| KeyError
| ReferenceError
| OperationalError.

Inductive result (A : Type) : Type :=
| Ok (a : A)
| Raise (e : exn).

Arguments Ok {A} a.
Arguments Raise {A} e.

Definition bind {A B : Type} (r : result A) (k : A -> result B) : result B :=
  match r with
  | Ok a => k a
  | Raise e => Raise e
  end.

Notation "'let*' x ':=' r 'in' k" := (bind r (fun x => k))
  (at level 10, x name, r at level 100, k at level 200).

Definition is_ok {A : Type} (r : result A) : bool :=
  match r with Ok _ => true | Raise _ => false end.

(** Evaluating [f] on every element, left to right, stopping at the first
    exception. *)
Fixpoint map_result {A B : Type} (f : A -> result B) (l : list A)
  : result (list B) :=
  match l with
  | [] => Ok []
  | x :: l' =>
      let* y := f x in
      let* ys := map_result f l' in
      Ok (y :: ys)
  end.

(** [isna]: the cells pandas regards as missing. *)
Definition isna (v : value) : bool :=
  match v with
  | VNone | VNaN | VNaT => true
  | _ => false
  end.

(** Python truthiness, [bool(x)]. *)
Definition truthy (v : value) : bool :=
  match v with
  | VNone => false
  | VNaN => true
  | VNaT => true
  | VBool b => b
  | VNum q => negb (Qeq_bool q 0)
  | VStr s => negb (String.eqb s "")
  | VList l => match l with [] => false | _ :: _ => true end
  | VDict d => match d with [] => false | _ :: _ => true end
  | VTimestamp _ => true
  | VDate _ => true
  end.

Definition is_bool (v : value) : bool :=
  match v with VBool _ => true | _ => false end.

(** A boolean as a number. *)
Definition Q_of_bool (b : bool) : Q := if b then 1%Q else 0%Q.

(** [d.get(k)] on a dict: the entry, or [None] when the key is absent. *)
Fixpoint dict_lookup (d : list (string * value)) (k : string) : option value :=
  match d with
  | [] => None
  | (k', v) :: d' => if String.eqb k k' then Some v else dict_lookup d' k
  end.

Definition dict_get (d : list (string * value)) (k : string) : value :=
  match dict_lookup d k with
  | Some v => v
  | None => VNone
  end.

(** [sep.join(l)]: every element must be a [str]. *)
Fixpoint str_join (sep : string) (l : list value) : result string :=
  match l with
  | [] => Ok ""
  | VStr s :: l' =>
      match l' with
      | [] => Ok s
      | _ :: _ =>
          let* rest := str_join sep l' in
          Ok (s ++ sep ++ rest)%string
      end
  | _ :: _ => Raise TypeError
  end.

(** ** Data frames *)

Definition Series := list value.
Definition DataFrame := list (string * Series).

Definition columns (df : DataFrame) : list string := map fst df.

(** [c in df.columns] *)
Definition has_column (c : string) (df : DataFrame) : bool :=
  existsb (String.eqb c) (columns df).

(** [df[c]] *)
Fixpoint get_column (c : string) (df : DataFrame) : option Series :=
  match df with
  | [] => None
  | (c', s) :: df' => if String.eqb c c' then Some s else get_column c df'
  end.

(** [df[c] = s]: an existing column is replaced where it stands, a new one
    is appended. *)
Fixpoint set_column (c : string) (s : Series) (df : DataFrame) : DataFrame :=
  match df with
  | [] => [(c, s)]
  | (c', s') :: df' =>
      if String.eqb c c' then (c', s) :: df'
      else (c', s') :: set_column c s df'
  end.

(** [df.drop(c, axis=1)] on a frame that has the column. *)
Definition drop_column (c : string) (df : DataFrame) : DataFrame :=
  filter (fun cs => negb (String.eqb c (fst cs))) df.

(** [df[c] = f(df[c])] guarded by [if c in df.columns], for a conversion
    that may raise. *)
Definition update_column (c : string) (f : Series -> result Series)
  (df : DataFrame) : result DataFrame :=
  match get_column c df with
  | Some s => let* s' := f s in Ok (set_column c s' df)
  | None => Ok df
  end.

(** [df.fillna({c: v})] for one entry of the dict: keys that are not
    columns are skipped, and a fill value [None] fills nothing. *)
Definition fill_cell (v x : value) : value :=
  if isna x then match v with VNone => x | _ => v end else x.

Definition fillna_column (c : string) (v : value) (df : DataFrame) : DataFrame :=
  match get_column c df with
  | Some s => set_column c (map (fill_cell v) s) df
  | None => df
  end.

Definition fillna (fills : list (string * value)) (df : DataFrame) : DataFrame :=
  fold_left (fun d cv => fillna_column (fst cv) (snd cv) d) fills df.

(** The column a conversion leaves behind, when there is one to convert. *)
Definition converted (f : Series -> result Series) (o : option Series)
  : option Series :=
  match o with
  | Some s => match f s with Ok s' => Some s' | Raise _ => None end
  | None => None
  end.

(** Every cell of column [c], when the frame has it, passes the test. *)
Definition column_ok (p : value -> bool) (c : string) (df : DataFrame) : bool :=
  match get_column c df with
  | Some s => forallb p s
  | None => true
  end.

(** ** The transformer: [DataProcessor.transform_for_postgres] *)

Definition ns_per_day : Z := 86400000000000.

(** What the text of a cell denotes for [pd.to_datetime]. *)
Inductive instant : Type :=
| NaT
| At (ns : Z).

Definition value_of_instant (i : instant) : value :=
  match i with
  | NaT => VNaT
  | At ns => VTimestamp ns
  end.

Definition decimal_columns : list string := ["price_per_unit"; "total_cost"].
Definition float_columns : list string := ["fuel_units"; "coords_x"; "coords_y"].
Definition int_columns : list string := ["station_id"].
Definition bool_columns : list string := ["is_emergency"].

Definition fill_defaults : list (string * value) :=
  [("dock_bay", VNone); ("dock_level", VNone);
   ("services", VStr ""); ("is_emergency", VBool false)].

(** [lambda x: x.get(k) if isinstance(x, dict) else None] *)
Definition dock_field (k : string) (x : value) : value :=
  match x with
  | VDict d => dict_get d k
  | _ => VNone
  end.

(** [lambda x: ",".join(x) if isinstance(x, list) and x else ""] *)
Definition join_services (x : value) : result value :=
  match x with
  | VList (y :: l) => let* s := str_join "," (y :: l) in Ok (VStr s)
  | _ => Ok (VStr "")
  end.

(** A cell as the services rule meets it.  The cells of a list column come
    out of [pq.read_table(...).to_pandas()] as numpy arrays, which are
    sequences but not instances of [list]. *)
Inductive pyobject : Type :=
| Plain (v : value)
| NdArray (items : list value).

(** The same lambda on such a cell: [isinstance(x, list)] is false of an
    array, so the cell becomes [""] and its items are not looked at. *)
Definition services_rule (x : pyobject) : result value :=
  match x with
  | Plain v => join_services v
  | NdArray _ => Ok (VStr "")
  end.

(** [df["services"].apply(...)] on a column of such cells. *)
Definition apply_services_rule (s : list pyobject) : result Series :=
  map_result services_rule s.

(** A cell of a list column as [read_parquet_file] delivers it. *)
Definition read_cell (v : value) : pyobject :=
  match v with
  | VList items => NdArray items
  | _ => Plain v
  end.

(** [.dt.date] on a converted cell: the day of the instant, which is the
    day the column reports when its timestamps carry no zone, or UTC. *)
Definition dt_date (x : value) : value :=
  match x with
  | VTimestamp ns => VDate (ns / ns_per_day)
  | _ => x
  end.

(** [df[c] = f(df[c])] under [if c in df.columns], for a total [f]. *)
Definition convert_column (f : value -> value) (df : DataFrame) (c : string)
  : DataFrame :=
  match get_column c df with
  | Some s => set_column c (map f s) df
  | None => df
  end.

(** The same for a conversion [g] of the whole column. *)
Definition assign_column (g : Series -> Series) (df : DataFrame) (c : string)
  : DataFrame :=
  match get_column c df with
  | Some s => set_column c (g s) df
  | None => df
  end.

(** A datetime column (of timestamps without a zone): not empty, and every
    cell a timestamp or NaT. *)
Definition is_datetime_series (s : Series) : bool :=
  match s with
  | [] => false
  | _ :: _ =>
      forallb
        (fun x => match x with VTimestamp _ | VNaT => true | _ => false end) s
  end.

(** The 64-bit integer behind a cell of a datetime column: the nanoseconds
    of a timestamp, the least integer for NaT. *)
Definition epoch_cell (x : value) : value :=
  match x with
  | VTimestamp ns => VNum (inject_Z ns)
  | _ => VNum (inject_Z (- 2 ^ 63))
  end.

(** The dock rule: two new columns from the struct, then the struct goes.
    The struct column is read once here; the object-level reading below
    reads it before each assignment, as the source does. *)
Definition extract_dock (df : DataFrame) : DataFrame :=
  match get_column "dock" df with
  | Some dock =>
      let df := set_column "dock_bay" (map (dock_field "bay") dock) df in
      let df := set_column "dock_level" (map (dock_field "level") dock) df in
      drop_column "dock" df
  | None => df
  end.

Section Transformer.

(** The grammars of pandas: which strings are numbers, which strings are
    dates, and which numbers are epoch offsets within range. *)
Variable parse_number : string -> option Q.
Variable parse_datetime : string -> option instant.
Variable epoch_datetime : Q -> option Z.

(** One cell of [pd.to_numeric(..., errors="coerce")] in a column of
    objects: a boolean counts as 1 or 0, a string is parsed, and whatever is
    not a number becomes NaN. *)
Definition to_numeric_cell (x : value) : value :=
  match x with
  | VBool b => VNum (Q_of_bool b)
  | VNum q => VNum q
  | VStr s =>
      match parse_number s with
      | Some q => VNum q
      | None => VNaN
      end
  | _ => VNaN
  end.

(** [pd.to_numeric(s, errors="coerce")] on a column: a datetime column is
    viewed as its epoch integers, a column of booleans is numeric already
    and is kept, any other column is coerced cell by cell. *)
Definition to_numeric_series (s : Series) : Series :=
  if is_datetime_series s then map epoch_cell s
  else if forallb is_bool s then s
  else map to_numeric_cell s.

(** One cell of [pd.to_datetime(...)] with the default [errors="raise"].
    An instant carries no zone, so [utc=True] changes nothing here. *)
Definition to_datetime_cell (x : value) : result value :=
  match x with
  | VNone | VNaN | VNaT => Ok VNaT
  | VTimestamp ns => Ok (VTimestamp ns)
  | VDate d => Ok (VTimestamp (d * ns_per_day))
  | VStr s =>
      match parse_datetime s with
      | Some i => Ok (value_of_instant i)
      | None => Raise ValueError
      end
  | VNum q =>
      match epoch_datetime q with
      | Some ns => Ok (VTimestamp ns)
      | None => Raise ValueError
      end
  | VBool _ | VList _ | VDict _ => Raise TypeError
  end.

Definition to_datetime (s : Series) : result Series :=
  map_result to_datetime_cell s.

Definition to_date (s : Series) : result Series :=
  let* ts := to_datetime s in Ok (map dt_date ts).

Definition to_numeric (df : DataFrame) (cols : list string) : DataFrame :=
  fold_left (assign_column to_numeric_series) cols df.

Definition astype_bool (df : DataFrame) (cols : list string) : DataFrame :=
  fold_left (convert_column (fun x => VBool (truthy x))) cols df.

(** The transformer as a function from frame to frame.  The working copy
    made by [df.copy()] is the argument itself here; the object-level
    reading, with the copy and the in-place assignments, is
    [Heap.transform_for_postgres] below. *)
Definition transform_for_postgres (df : DataFrame) : result DataFrame :=
  let df := extract_dock df in
  let* df := update_column "services" (map_result join_services) df in
  let* df := update_column "visited_at" to_datetime df in
  let* df := update_column "arrival_date" to_date df in
  let df := to_numeric df decimal_columns in
  let df := to_numeric df float_columns in
  let df := to_numeric df int_columns in
  let df := astype_bool df bool_columns in
  Ok (fillna fill_defaults df).

(** The cells [join] and [pd.to_datetime] accept. *)
Definition joinable (x : value) : bool := is_ok (join_services x).
Definition datetime_like (x : value) : bool := is_ok (to_datetime_cell x).

(** The last four rules and the defaults, which cannot raise. *)
Definition coerce_and_fill (df : DataFrame) : DataFrame :=
  let df := to_numeric df decimal_columns in
  let df := to_numeric df float_columns in
  let df := to_numeric df int_columns in
  let df := astype_bool df bool_columns in
  fillna fill_defaults df.

End Transformer.

(** ** Reference grammars *)

Definition digit_value (c : ascii) : option Z :=
  let n := nat_of_ascii c in
  if ((48 <=? n) && (n <=? 57))%nat then Some (Z.of_nat (n - 48)) else None.

(** Reads a run of digits, returning the accumulated number, how many digits
    were read and what follows them. *)
Fixpoint read_digits (s : string) (acc : Z) (n : nat) : Z * nat * string :=
  match s with
  | EmptyString => (acc, n, s)
  | String c s' =>
      match digit_value c with
      | Some d => read_digits s' (10 * acc + d)%Z (S n)
      | None => (acc, n, s)
      end
  end.

Definition parse_unsigned (s : string) : option Q :=
  let '(ip, ni, rest) := read_digits s 0%Z 0%nat in
  match rest with
  | EmptyString => if (0 <? ni)%nat then Some (inject_Z ip) else None
  | String "."%char frac =>
      let '(m, nf, rest') := read_digits frac ip 0%nat in
      match rest' with
      | EmptyString =>
          if (0 <? ni + nf)%nat
          then Some (Qred (Qmake m (Z.to_pos (10 ^ Z.of_nat nf))))
          else None
      | _ => None
      end
  | _ => None
  end.

(** Plain decimal literals: an optional sign, digits, an optional
    fraction. *)
Definition parse_decimal (s : string) : option Q :=
  match s with
  | String "-"%char s' => option_map Qopp (parse_unsigned s')
  | String "+"%char s' => parse_unsigned s'
  | _ => parse_unsigned s
  end.

(** Days from 1970-01-01 to a civil date of the proleptic Gregorian
    calendar. *)
Definition days_from_civil (y m d : Z) : Z :=
  let y' := (if m <=? 2 then y - 1 else y)%Z in
  let era := (y' / 400)%Z in
  let yoe := (y' - era * 400)%Z in
  let mp := (if m <=? 2 then m + 9 else m - 3)%Z in
  let doy := ((153 * mp + 2) / 5 + d - 1)%Z in
  let doe := (yoe * 365 + yoe / 4 - yoe / 100 + doy)%Z in
  (era * 146097 + doe - 719468)%Z.

(** Dates written [YYYY-MM-DD]; the empty string is a missing date. *)
Definition parse_iso_date (s : string) : option instant :=
  match s with
  | EmptyString => Some NaT
  | _ =>
      let '(y, ny, r1) := read_digits s 0%Z 0%nat in
      match r1 with
      | String "-"%char s2 =>
          let '(m, nm, r2) := read_digits s2 0%Z 0%nat in
          match r2 with
          | String "-"%char s3 =>
              let '(d, nd, r3) := read_digits s3 0%Z 0%nat in
              match r3 with
              | EmptyString =>
                  if ((ny =? 4) && (nm =? 2) && (nd =? 2))%nat
                     && ((1 <=? m) && (m <=? 12) && (1 <=? d) && (d <=? 31))%Z
                  then Some (At (days_from_civil y m d * ns_per_day))
                  else None
              | _ => None
              end
          | _ => None
          end
      | _ => None
      end
  end.

(** Whole numbers are nanoseconds since the epoch. *)
Definition epoch_ns (q : Q) : option Z :=
  if (Zpos (Qden (Qred q)) =? 1)%Z then Some (Qnum (Qred q)) else None.

(** The transformer with the reference grammars. *)
Definition transform : DataFrame -> result DataFrame :=
  transform_for_postgres parse_decimal parse_iso_date epoch_ns.

(** ** The transformer before pandas 3

    [DataFrame.fillna] with a dict walks the entries in order, skips a key
    that is not a column, and calls [Series.fillna] with the value of the
    entry; before pandas 3 that call rejects the value [None]. *)

Module Pandas2.

Definition fillna_column (c : string) (v : value) (df : DataFrame)
  : result DataFrame :=
  match get_column c df with
  | Some s =>
      match v with
      | VNone => Raise ValueError
      | _ => Ok (set_column c (map (fill_cell v) s) df)
      end
  | None => Ok df
  end.

Fixpoint fillna (fills : list (string * value)) (df : DataFrame)
  : result DataFrame :=
  match fills with
  | [] => Ok df
  | (c, v) :: fills' =>
      let* df := fillna_column c v df in
      fillna fills' df
  end.

Section Transformer.

Variable parse_number : string -> option Q.
Variable parse_datetime : string -> option instant.
Variable epoch_datetime : Q -> option Z.

Definition transform_for_postgres (df : DataFrame) : result DataFrame :=
  let df := extract_dock df in
  let* df := update_column "services" (map_result join_services) df in
  let* df := update_column "visited_at"
               (to_datetime parse_datetime epoch_datetime) df in
  let* df := update_column "arrival_date"
               (to_date parse_datetime epoch_datetime) df in
  let df := to_numeric parse_number df decimal_columns in
  let df := to_numeric parse_number df float_columns in
  let df := to_numeric parse_number df int_columns in
  let df := astype_bool df bool_columns in
  fillna fill_defaults df.

End Transformer.

Definition transform : DataFrame -> result DataFrame :=
  transform_for_postgres parse_decimal parse_iso_date epoch_ns.

End Pandas2.

(** The frame has a column that the [None] defaults are meant for when
    [fillna] runs: [dock], which the dock rule turns into the two, or one of
    the two itself. *)
Definition has_dock_columns (df : DataFrame) : bool :=
  has_column "dock" df || has_column "dock_bay" df
  || has_column "dock_level" df.

(** ** The validator: [DataProcessor.validate_data] *)

Inductive level : Type := ERROR | WARNING | INFO.

Definition log : Type := list (level * string).

Definition required_columns : list string :=
  ["transaction_id"; "station_id"; "ship_name"; "fuel_type"; "visited_at"].

(** [df[c]] as an expression: a missing label is a [KeyError]. *)
Definition getitem (c : string) (df : DataFrame) : result Series :=
  match get_column c df with
  | Some s => Ok s
  | None => Raise KeyError
  end.

(** Cells that can be hashed: lists and dicts cannot. *)
Definition hashable (v : value) : bool :=
  match v with
  | VList _ | VDict _ => false
  | _ => true
  end.

(** When two hashable cells are the same key: Python equality, with the
    missing-value markers each equal to itself. *)
Definition py_eqb (a b : value) : bool :=
  match a, b with
  | VNone, VNone => true
  | VNaN, VNaN => true
  | VNaT, VNaT => true
  | VBool x, VBool y => Bool.eqb x y
  | VNum p, VNum q => Qeq_bool p q
  | VBool x, VNum q => Qeq_bool (Q_of_bool x) q
  | VNum p, VBool y => Qeq_bool p (Q_of_bool y)
  | VStr s, VStr t => String.eqb s t
  | VTimestamp m, VTimestamp n => Z.eqb m n
  | VDate m, VDate n => Z.eqb m n
  | _, _ => false
  end.

(** When two cells are the same value for [Series.duplicated]: an object
    that cannot be hashed is still compared, a list with a list element by
    element, a dict with a dict entry by entry.  Object identity is not
    represented: a missing-value marker inside a list or dict is taken to
    be the one shared object of its kind. *)
Fixpoint key_eqb (a b : value) {struct a} : bool :=
  match a, b with
  | VList l1, VList l2 =>
      (fix items (l1 l2 : list value) {struct l1} : bool :=
         match l1, l2 with
         | [], [] => true
         | x :: l1', y :: l2' => key_eqb x y && items l1' l2'
         | _, _ => false
         end) l1 l2
  | VDict d1, VDict d2 =>
      (fix entries (d : list (string * value)) {struct d} : bool :=
         match d with
         | [] => true
         | (k, v) :: d' =>
             match dict_lookup d2 k with
             | Some v' => key_eqb v v'
             | None => false
             end && entries d'
         end) d1
      && forallb
           (fun kv => match dict_lookup d1 (fst kv) with
                      | Some _ => true
                      | None => false
                      end) d2
  | VList _, _ | VDict _, _ => false
  | _, VList _ | _, VDict _ => false
  | _, _ => py_eqb a b
  end.

(** [Series.duplicated()] with the default [keep="first"]: a cell is marked
    when an equal one stands before it. *)
Fixpoint duplicated_from (seen : list value) (s : Series) : list bool :=
  match s with
  | [] => []
  | x :: s' =>
      existsb (fun earlier => key_eqb earlier x) seen
      :: duplicated_from (x :: seen) s'
  end.

Definition duplicated (s : Series) : list bool := duplicated_from [] s.

(** [Series.any()] on a boolean series. *)
Definition any (marks : list bool) : bool := existsb (fun b => b) marks.

Definition as_number (v : value) : option Q :=
  match v with
  | VNum q => Some q
  | VBool b => Some (Q_of_bool b)
  | _ => None
  end.

Definition Qlt_bool (a b : Q) : bool := negb (Qle_bool b a).
Definition Qgt_bool (a b : Q) : bool := negb (Qle_bool a b).

(** One cell of [series < bound] or [series > bound]: a missing cell
    compares false, a cell that is not a number is a [TypeError]. *)
Definition compare_cell (op : Q -> Q -> bool) (bound : Q) (v : value)
  : result bool :=
  if isna v then Ok false
  else match as_number v with
       | Some q => Ok (op q bound)
       | None => Raise TypeError
       end.

Definition compare_series (op : Q -> Q -> bool) (bound : Q) (s : Series)
  : result (list bool) :=
  map_result (compare_cell op bound) s.

(** [(s < lo).any() or (s > hi).any()] *)
Definition outside_range (lo hi : Q) (s : Series) : result bool :=
  let* below := compare_series Qlt_bool lo s in
  if any below then Ok true
  else let* above := compare_series Qgt_bool hi s in Ok (any above).

(** One of the two soft checks: the warning, if any, that it logs. *)
Definition range_check (c : string) (lo hi : Q) (msg : string) (df : DataFrame)
  : result log :=
  if has_column c df then
    let* s := getitem c df in
    let* out := outside_range lo hi s in
    Ok (if out then [(WARNING, msg)] else [])
  else Ok [].

Definition validate_data (df : DataFrame) : result (bool * log) :=
  let missing_columns :=
    filter (fun col => negb (has_column col df)) required_columns in
  match missing_columns with
  | _ :: _ => Ok (false, [(ERROR, "Missing required columns")])
  | [] =>
      let* ids := getitem "transaction_id" df in
      let marks := duplicated ids in
      if any marks then Ok (false, [(ERROR, "Found duplicate transaction IDs")])
      else
        let* w1 := range_check "fuel_units" 0 10000
                     "Found fuel_units outside expected range [0, 10000]" df in
        let* w2 := range_check "station_id" 1000 9999
                     "Found station_id outside expected range [1000, 9999]" df in
        Ok (true,
            w1 ++ w2 ++ [(INFO, "Data validation completed successfully")])
  end.

(** ** The tracker: [FileTracker.get_processed_files] *)

(** A row returned by the storage collaborator, a tuple of fields. *)
Definition record : Type := list value.

(** The collaborator: its answer to a query, rows or an exception. *)
Record PostgresHook : Type := {
  get_records : string -> result (list record)
}.

(** A Python set of hashable objects, kept without repetition. *)
Definition pyset : Type := list value.

Definition set_member (x : value) (s : pyset) : bool := existsb (py_eqb x) s.

Definition set_add (x : value) (s : pyset) : result pyset :=
  if hashable x then Ok (if set_member x s then s else s ++ [x])
  else Raise TypeError.

(** [record[0]] *)
Definition first_field (r : record) : result value :=
  match r with
  | x :: _ => Ok x
  | [] => Raise IndexError
  end.

(** [{record[0] for record in records}] *)
Fixpoint first_fields (acc : pyset) (records : list record) : result pyset :=
  match records with
  | [] => Ok acc
  | r :: records' =>
      let* x := first_field r in
      let* acc' := set_add x acc in
      first_fields acc' records'
  end.

(** [try: ... except Exception: return set()] *)
Definition get_processed_files (hook : PostgresHook) : result pyset :=
  let attempt :=
    let* records := get_records hook "SELECT filename FROM processed_files" in
    first_fields [] records in
  match attempt with
  | Ok s => Ok s
  | Raise _ => Ok []
  end.

(** ** The transformer on objects

    Frames live in a store and are named by references.  [df.copy()],
    [df.drop(...)] and [df.fillna(...)] build a new object; [df[c] = s]
    changes the object in place. *)

Module Heap.

Definition ref : Type := nat.
Definition heap : Type := list DataFrame.

Definition M (A : Type) : Type := heap -> result A * heap.

Definition ret {A : Type} (a : A) : M A := fun h => (Ok a, h).

Definition raise {A : Type} (e : exn) : M A := fun h => (Raise e, h).

Definition mbind {A B : Type} (m : M A) (k : A -> M B) : M B :=
  fun h =>
    match m h with
    | (Ok a, h') => k a h'
    | (Raise e, h') => (Raise e, h')
    end.

Definition lift {A : Type} (r : result A) : M A := fun h => (r, h).

Notation "x <- m ;; k" := (mbind m (fun x => k))
  (at level 61, m at next level, right associativity).
Notation "m ;; k" := (mbind m (fun _ => k))
  (at level 61, right associativity).

Fixpoint update_nth {A : Type} (n : nat) (a : A) (l : list A) : list A :=
  match l, n with
  | [], _ => []
  | _ :: l', O => a :: l'
  | x :: l', S n' => x :: update_nth n' a l'
  end.

Definition deref (r : ref) : M DataFrame :=
  fun h =>
    match nth_error h r with
    | Some df => (Ok df, h)
    | None => (Raise ReferenceError, h)
    end.

Definition alloc (df : DataFrame) : M ref :=
  fun h => (Ok (List.length h), h ++ [df]).

Definition store (r : ref) (df : DataFrame) : M unit :=
  fun h => (Ok tt, update_nth r df h).

(** [df.copy()] *)
Definition copy (r : ref) : M ref :=
  df <- deref r ;; alloc df.

(** [c in df.columns] *)
Definition contains (r : ref) (c : string) : M bool :=
  df <- deref r ;; ret (has_column c df).

(** [df[c]] *)
Definition getitem (r : ref) (c : string) : M Series :=
  df <- deref r ;; lift (getitem c df).

(** [df[c] = s] *)
Definition setitem (r : ref) (c : string) (s : Series) : M unit :=
  df <- deref r ;; store r (set_column c s df).

(** [df.drop(c, axis=1)] *)
Definition drop (r : ref) (c : string) : M ref :=
  df <- deref r ;;
  if has_column c df then alloc (drop_column c df) else raise KeyError.

(** [df.fillna(fills)] *)
Definition fillna (r : ref) (fills : list (string * value)) : M ref :=
  df <- deref r ;; alloc (fillna fills df).

(** [for x in l: body(x)] *)
Fixpoint for_each {A : Type} (l : list A) (body : A -> M unit) : M unit :=
  match l with
  | [] => ret tt
  | x :: l' => body x ;; for_each l' body
  end.

Section Transformer.

Variable parse_number : string -> option Q.
Variable parse_datetime : string -> option instant.
Variable epoch_datetime : Q -> option Z.

(** [if c in df.columns: df[c] = f(df[c])] *)
Definition convert_in_place (df : ref) (f : Series -> result Series)
  (c : string) : M unit :=
  present <- contains df c ;;
  if present then
    s <- getitem df c ;;
    s' <- lift (f s) ;;
    setitem df c s'
  else ret tt.

Definition transform_for_postgres (df : ref) : M ref :=
  df_transformed <- copy df ;;
  has_dock <- contains df_transformed "dock" ;;
  df_transformed <-
    (if has_dock then
       dock <- getitem df_transformed "dock" ;;
       setitem df_transformed "dock_bay" (map (dock_field "bay") dock) ;;
       dock <- getitem df_transformed "dock" ;;
       setitem df_transformed "dock_level" (map (dock_field "level") dock) ;;
       drop df_transformed "dock"
     else ret df_transformed) ;;
  convert_in_place df_transformed (map_result join_services) "services" ;;
  convert_in_place df_transformed
    (to_datetime parse_datetime epoch_datetime) "visited_at" ;;
  convert_in_place df_transformed
    (to_date parse_datetime epoch_datetime) "arrival_date" ;;
  for_each decimal_columns
    (convert_in_place df_transformed
       (fun s => Ok (to_numeric_series parse_number s))) ;;
  for_each float_columns
    (convert_in_place df_transformed
       (fun s => Ok (to_numeric_series parse_number s))) ;;
  for_each int_columns
    (convert_in_place df_transformed
       (fun s => Ok (to_numeric_series parse_number s))) ;;
  for_each bool_columns
    (convert_in_place df_transformed
       (fun s => Ok (map (fun x => VBool (truthy x)) s))) ;;
  fillna df_transformed fill_defaults.

(** The part of [transform_for_postgres] that follows the dock rule,
    from the services rule to [fillna], as a procedure on the working
    copy. *)
Definition typed_rules (df_transformed : ref) : M ref :=
  convert_in_place df_transformed (map_result join_services) "services" ;;
  convert_in_place df_transformed
    (to_datetime parse_datetime epoch_datetime) "visited_at" ;;
  convert_in_place df_transformed
    (to_date parse_datetime epoch_datetime) "arrival_date" ;;
  for_each decimal_columns
    (convert_in_place df_transformed
       (fun s => Ok (to_numeric_series parse_number s))) ;;
  for_each float_columns
    (convert_in_place df_transformed
       (fun s => Ok (to_numeric_series parse_number s))) ;;
  for_each int_columns
    (convert_in_place df_transformed
       (fun s => Ok (to_numeric_series parse_number s))) ;;
  for_each bool_columns
    (convert_in_place df_transformed
       (fun s => Ok (map (fun x => VBool (truthy x)) s))) ;;
  fillna df_transformed fill_defaults.

End Transformer.

(** The store [h] still holds every object of [h0] as it was. *)
Definition preserves (h0 h : heap) : Prop :=
  (List.length h0 <= List.length h)%nat /\
  forall l, (l < List.length h0)%nat -> nth_error h l = nth_error h0 l.

(** [r] names an object made after [h0], with contents [df]. *)
Definition fresh_at (h0 h : heap) (r : ref) (df : DataFrame) : Prop :=
  preserves h0 h /\ (List.length h0 <= r)%nat /\ nth_error h r = Some df.

End Heap.


(** ** Notions used in the statements *)

(** The six columns coerced by [pd.to_numeric]. *)
Definition numeric_columns : list string :=
  decimal_columns ++ float_columns ++ int_columns.

(** The eleven columns a rule of the transformer names. *)
Definition rule_columns : list string :=
  ["dock"; "services"; "visited_at"; "arrival_date"] ++ numeric_columns
  ++ bool_columns.

(** The string cells of a joined services value. *)
Definition all_strings (l : list value) : bool :=
  forallb (fun v => match v with VStr _ => true | _ => false end) l.

(** A dock cell that is a key-value structure. *)
Definition is_dict (x : value) : bool :=
  match x with VDict _ => true | _ => false end.

(** Example frames. *)
Definition priced_frame : DataFrame :=
  [("price_per_unit", [VStr "12.5"; VStr "abc"])].

Definition docked_frame : DataFrame :=
  [("transaction_id", [VStr "t1"; VStr "t2"; VStr "t3"]);
   ("dock", [VDict [("bay", VStr "A"); ("level", VNum 2)]; VNone;
             VDict [("bay", VStr "B")]]);
   ("services", [VList [VStr "fuel"; VStr "repair"]; VList []; VNone])].

Definition dock_and_bay_frame : DataFrame :=
  [("dock", [VNone]); ("dock_bay", [VStr "A"])].

Definition undocked_frame : DataFrame :=
  [("transaction_id", [VStr "t1"])].



Definition mixed_services_frame : DataFrame :=
  [("services", [VList [VStr "fuel"; VNone]])].

Definition services_frame : DataFrame :=
  [("services", [VList [VStr "fuel"; VStr "repair"]])].

Definition joined_services_frame : DataFrame :=
  [("services", [VStr "fuel,repair"])].

Definition emergency_frame : DataFrame :=
  [("is_emergency", [VBool true; VNaN; VNone])].

(** What a second run does to a frame the transformer produced: the
    services column, if any, is blanked. *)
Definition blank_services (df : DataFrame) : DataFrame :=
  convert_column (fun _ => VStr "") df "services".

(** The shape of a cell of column [c] in a frame the transformer produced. *)
Definition normal_cell (c : string) (x : value) : bool :=
  if String.eqb c "is_emergency" then is_bool x
  else if String.eqb c "services"
  then match x with VStr _ => true | _ => false end
  else if existsb (String.eqb c) numeric_columns
  then match x with VBool _ | VNum _ | VNaN => true | _ => false end
  else if String.eqb c "arrival_date"
  then match x with VDate _ | VNaT => true | _ => false end
  else if String.eqb c "visited_at"
  then match x with VTimestamp _ | VNaT => true | _ => false end
  else true.

(** A numeric column [pd.to_numeric] leaves as it is: booleans only, or
    numbers and NaN only. *)
Definition numeric_series (s : Series) : bool :=
  forallb is_bool s
  || forallb (fun x => match x with VNum _ | VNaN => true | _ => false end) s.

(** Already-normalized input: no [dock] column, every cell in the shape of
    its column, and every numeric column of one kind. *)
Definition normalized (df : DataFrame) : Prop :=
  get_column "dock" df = None /\
  (forall c s, get_column c df = Some s ->
     Forall (fun x => normal_cell c x = true) s) /\
  (forall c s, In c numeric_columns -> get_column c df = Some s ->
     numeric_series s = true).

(** A value occurs twice in the series. *)
Definition has_duplicate (s : Series) : Prop :=
  exists i j x y,
    (i < j)%nat /\ nth_error s i = Some x /\ nth_error s j = Some y /\
    py_eqb x y = true.

(** An equal cell stands before a cell of the series, as
    [Series.duplicated] compares them. *)
Definition has_repeated (s : Series) : Prop :=
  exists i j x y,
    (i < j)%nat /\ nth_error s i = Some x /\ nth_error s j = Some y /\
    key_eqb x y = true.

(** Cells a range check can compare with a number: numbers and missing
    values. *)
Definition comparable (x : value) : bool :=
  isna x || match as_number x with Some _ => true | None => false end.

Definition valid_frame : DataFrame :=
  [("transaction_id", [VStr "t1"; VStr "t2"]);
   ("station_id", [VNum 1001; VNum 42]);
   ("ship_name", [VStr "Nostromo"; VStr "Rocinante"]);
   ("fuel_type", [VStr "deuterium"; VStr "helium3"]);
   ("visited_at", [VTimestamp 0; VTimestamp 1]);
   ("fuel_units", [VNum 20000; VNaN])].


Definition text_station_frame : DataFrame :=
  [("transaction_id", [VStr "t1"]);
   ("station_id", [VStr "abc"]);
   ("ship_name", [VStr "Nostromo"]);
   ("fuel_type", [VStr "deuterium"]);
   ("visited_at", [VTimestamp 0])].

(** The query the tracker sends. *)
Definition processed_files_query : string :=
  "SELECT filename FROM processed_files".

(** A row with a first field that can be a set element. *)
Definition has_filename (r : record) : Prop :=
  exists x, nth_error r 0 = Some x /\ hashable x = true.

(** Collaborators for the examples: one that answers, one that fails. *)
Definition answering_hook : PostgresHook :=
  {| get_records := fun _ =>
       Ok [[VStr "a.parquet"]; [VStr "b.parquet"]; [VStr "a.parquet"]] |}.

Definition failing_hook : PostgresHook :=
  {| get_records := fun _ => Raise OperationalError |}.


(** ** Rows and labels of a frame *)

(** [len(df)]: the rows of the first column. *)
Definition nrows (df : DataFrame) : nat :=
  match df with
  | [] => 0%nat
  | (_, s) :: _ => List.length s
  end.

(** Every column has [n] rows. *)
Definition rectangular (n : nat) (df : DataFrame) : Prop :=
  Forall (fun cs => List.length (snd cs) = n) df.

(** The labels after [df[c] = ...]: a new label goes last. *)
Definition add_label (c : string) (labels : list string) : list string :=
  if existsb (String.eqb c) labels then labels else labels ++ [c].


(** ** The validator's diagnostics *)

Definition fuel_units_warning : level * string :=
  (WARNING, "Found fuel_units outside expected range [0, 10000]").

Definition station_id_warning : level * string :=
  (WARNING, "Found station_id outside expected range [1000, 9999]").

(** Some cell of the series is a number below [lo] or above [hi]. *)
Definition out_of_range (lo hi : Q) (s : Series) : Prop :=
  exists x q, In x s /\ as_number x = Some q /\ (q < lo \/ hi < q)%Q.

(** ** The loader: [PostgreSQLLoader.insert_dataframe] *)

(** Row [i] of [df.values]: one field per column, in column order.  The
    array has the common type of the columns, so a field can be the cell
    converted to that type (an integer next to a column of floats comes as
    a float); the conversion is not represented, and only the shape of the
    rows is relied on. *)
Definition row_at (df : DataFrame) (i : nat) : record :=
  map (fun cs => nth i (snd cs) VNaN) df.

(** [[tuple(row) for row in df.values]] *)
Definition values (df : DataFrame) : list record :=
  map (row_at df) (seq 0 (nrows df)).

(** The storage collaborator of the loader: [insert_rows(table, rows,
    target_fields, commit_every)]. *)
Record LoaderHook : Type := {
  insert_rows : string -> list record -> list string -> nat -> result unit
}.

Record PostgreSQLLoader : Type := {
  loader_hook : LoaderHook;
  table_name : string
}.

Definition default_batch_size : nat := 1000.

(** [try: ... insert_rows(...) except Exception: ... raise] *)
Definition insert_dataframe (self : PostgreSQLLoader) (df : DataFrame)
  (batch_size : nat) : result unit :=
  let data_tuples := values df in
  match insert_rows (loader_hook self) (table_name self) data_tuples
          (columns df) batch_size with
  | Ok u => Ok u
  | Raise e => Raise e
  end.

(** ** The tracker on a store: [FileTracker.mark_file_processed] *)

(** The statement of [mark_file_processed], as the source writes it. *)
Definition mark_processed_query : string :=
  "
            INSERT INTO processed_files (filename, processed_at)
            VALUES (%s, %s)
            ON CONFLICT (filename) DO NOTHING
            ".

(** A storage collaborator with a state of type [db]: [run] may change the
    state, [get_records] reads it. *)
Record StoreHook (db : Type) : Type := {
  store_run : string -> list value -> db -> result unit * db;
  store_records : string -> db -> result (list record)
}.

Arguments store_run {db} s _ _ _.
Arguments store_records {db} s _ _.

(** The collaborator as [get_processed_files] sees it in state [s]. *)
Definition hook_at {db : Type} (hook : StoreHook db) (s : db) : PostgresHook :=
  {| get_records := fun query => store_records hook query s |}.

(** [try: run(query, parameters=(filename, utcnow())) except Exception:
    ... raise], with the clock reading [now] made explicit. *)
Definition mark_file_processed {db : Type} (hook : StoreHook db)
  (filename : string) (now : value) (s : db) : result unit * db :=
  match store_run hook mark_processed_query [VStr filename; now] s with
  | (Ok u, s') => (Ok u, s')
  | (Raise e, s') => (Raise e, s')
  end.

(** What the two statements of the tracker ask of the store: the select
    returns one row per recorded filename, and the insert records a filename
    unless it is recorded already. [files] reads the recorded filenames off
    a state. *)
Definition insert_or_ignore {db : Type} (hook : StoreHook db)
  (files : db -> list string) : Prop :=
  (forall s,
     store_records hook processed_files_query s
     = Ok (map (fun f => [VStr f]) (files s))) /\
  (forall s f t,
     exists s',
       store_run hook mark_processed_query [VStr f; t] s = (Ok tt, s') /\
       files s' = if existsb (String.eqb f) (files s) then files s
                  else files s ++ [f]).

(** A store for the examples: the table [processed_files] as a list of
    (filename, processed_at) rows; any other statement is an error. *)
Definition table_store : StoreHook (list (string * value)) :=
  {| store_run := fun query params rows =>
       if String.eqb query mark_processed_query then
         match params with
         | [VStr f; t] =>
             (Ok tt,
              if existsb (String.eqb f) (map fst rows) then rows
              else rows ++ [(f, t)])
         | _ => (Raise TypeError, rows)
         end
       else (Raise OperationalError, rows);
     store_records := fun query rows =>
       if String.eqb query processed_files_query
       then Ok (map (fun r => [VStr (fst r)]) rows)
       else Raise OperationalError |}.

(** ** When the transformer returns *)

(** A services cell that does not stop the join: anything but a list with
    an element that is not a string. *)
Definition services_cell_ok (x : value) : bool :=
  match x with
  | VList l => all_strings l
  | _ => true
  end.

(** A cell the date rules can convert: a missing value, a timestamp, a date,
    a string of the date grammar, a number that is an epoch offset. *)
Definition date_cell_ok
  (parse_datetime : string -> option instant)
  (epoch_datetime : Q -> option Z) (x : value) : bool :=
  match x with
  | VStr s => match parse_datetime s with Some _ => true | None => false end
  | VNum q => match epoch_datetime q with Some _ => true | None => false end
  | VBool _ | VList _ | VDict _ => false
  | _ => true
  end.

Definition bad_date_frame : DataFrame :=
  [("visited_at", [VStr "2024-03-01"; VStr "yesterday"]);
   ("price_per_unit", [VStr "1.5"; VStr "abc"])].

Definition dated_frame : DataFrame :=
  [("visited_at", [VStr "2024-03-01"; VNone; VDate 1]);
   ("arrival_date", [VTimestamp 86400000000001; VNaN; VStr "1970-01-02"]);
   ("is_emergency", [VStr "False"; VNum 0; VStr ""])].

(** A raw batch of three rows, the third repeating the first id. *)
Definition raw_batch_frame : DataFrame :=
  [("transaction_id", [VStr "t1"; VStr "t2"; VStr "t1"]);
   ("station_id", [VStr "1001"; VStr "n/a"; VNum 1003]);
   ("ship_name", [VStr "Nostromo"; VStr "Rocinante"; VStr "Nostromo"]);
   ("fuel_type", [VStr "deuterium"; VStr "helium3"; VStr "deuterium"]);
   ("visited_at", [VStr "2024-03-01"; VStr "2024-03-02"; VStr "2024-03-03"]);
   ("fuel_units", [VStr "12.5"; VStr ""; VNum 30]);
   ("dock", [VDict [("bay", VStr "A"); ("level", VNum 2)]; VNone; VNone]);
   ("services", [VList [VStr "fuel"]; VList []; VNone])].

(** A collaborator whose answer has a row without fields. *)
Definition ragged_hook : PostgresHook :=
  {| get_records := fun _ => Ok [[VStr "a.parquet"]; []; [VStr "b.parquet"]] |}.

(** A collaborator for the examples that accepts batches of a table it
    knows and fails otherwise. *)
Definition fuel_loader : PostgreSQLLoader :=
  {| loader_hook :=
       {| insert_rows := fun table rows fields commit_every =>
            if String.eqb table "fuel_exports" then Ok tt
            else Raise OperationalError |};
     table_name := "fuel_exports" |}.
(** * Properties *)

(** ** Results *)

Lemma bind_ok_inv {A B : Type} (r : result A) (k : A -> result B) (b : B) :
  bind r k = Ok b -> exists a, r = Ok a /\ k a = Ok b.
Proof.
  destruct r as [a | e]; simpl; intros H; [exists a; auto | discriminate].
Qed.

Lemma is_ok_bind {A B : Type} (r : result A) (k : A -> result B) :
  is_ok (bind r k) =
  match r with Ok a => is_ok (k a) | Raise _ => false end.
Proof. destruct r; reflexivity. Qed.


Lemma map_result_is_ok {A B : Type} (f : A -> result B) (l : list A) :
  is_ok (map_result f l) = forallb (fun x => is_ok (f x)) l.
Proof.
  induction l as [| x l IH]; simpl; [reflexivity |].
  destruct (f x) as [y | e]; simpl; [| reflexivity].
  rewrite <- IH. destruct (map_result f l); reflexivity.
Qed.

Lemma map_result_length {A B : Type} (f : A -> result B) (l : list A) l' :
  map_result f l = Ok l' -> List.length l' = List.length l.
Proof.
  revert l'. induction l as [| x l IH]; simpl; intros l' H.
  - injection H as <-. reflexivity.
  - destruct (f x) as [y | e]; simpl in H; [| discriminate].
    destruct (map_result f l) as [ys | e]; simpl in H; [| discriminate].
    injection H as <-. simpl. f_equal. apply IH. reflexivity.
Qed.

Lemma map_result_nth {A B : Type} (f : A -> result B) (l : list A) l' i x :
  map_result f l = Ok l' -> nth_error l i = Some x ->
  exists y, f x = Ok y /\ nth_error l' i = Some y.
Proof.
  revert l' i. induction l as [| a l IH]; simpl; intros l' i H Hn.
  - destruct i; discriminate.
  - destruct (f a) as [y | e] eqn:Ha; simpl in H; [| discriminate].
    destruct (map_result f l) as [ys | e]; simpl in H; [| discriminate].
    injection H as <-. destruct i as [| i]; simpl in *.
    + injection Hn as <-. eauto.
    + eapply IH; eauto.
Qed.

Lemma map_result_total {A B : Type} (f : A -> B) (l : list A) :
  map_result (fun x => Ok (f x)) l = Ok (map f l).
Proof. induction l as [| x l IH]; simpl; [| rewrite IH]; reflexivity. Qed.

(** A conversion that leaves every cell of [l] as it is leaves [l] as it
    is. *)
Lemma map_result_fixed {A : Type} (f : A -> result A) (l : list A) :
  Forall (fun x => f x = Ok x) l -> map_result f l = Ok l.
Proof.
  induction 1 as [| x l Hx _ IH]; simpl; [reflexivity |].
  rewrite Hx, IH. reflexivity.
Qed.

Lemma map_fixed {A : Type} (f : A -> A) (l : list A) :
  Forall (fun x => f x = x) l -> map f l = l.
Proof.
  induction 1 as [| x l Hx _ IH]; simpl; [reflexivity |].
  rewrite Hx, IH. reflexivity.
Qed.

Lemma map_result_Forall {A B : Type} (f : A -> result B) (P : B -> Prop) l l' :
  map_result f l = Ok l' ->
  (forall x y, f x = Ok y -> P y) -> Forall P l'.
Proof.
  revert l'. induction l as [| a l IH]; simpl; intros l' H HP.
  - injection H as <-. constructor.
  - destruct (f a) as [y | e] eqn:Ha; simpl in H; [| discriminate].
    destruct (map_result f l) as [ys | e]; simpl in H; [| discriminate].
    injection H as <-. constructor; eauto.
Qed.

(** ** Frames *)

Lemma has_column_get c df :
  has_column c df =
  match get_column c df with Some _ => true | None => false end.
Proof.
  unfold has_column, columns.
  induction df as [| [c' s] df IH]; simpl; [reflexivity |].
  destruct (String.eqb c c'); simpl; auto.
Qed.

Lemma get_set_column c c' s df :
  get_column c (set_column c' s df) =
  if String.eqb c c' then Some s else get_column c df.
Proof.
  induction df as [| [c0 s0] df IH]; simpl.
  - destruct (String.eqb c c'); reflexivity.
  - destruct (String.eqb_spec c' c0) as [-> | Hne]; simpl.
    + destruct (String.eqb c c0); reflexivity.
    + destruct (String.eqb_spec c c0) as [-> | Hne'].
      * destruct (String.eqb_spec c0 c'); [congruence | reflexivity].
      * exact IH.
Qed.

Lemma get_drop_column c c' df :
  get_column c (drop_column c' df) =
  if String.eqb c c' then None else get_column c df.
Proof.
  unfold drop_column.
  induction df as [| [c0 s0] df IH]; simpl.
  - destruct (String.eqb c c'); reflexivity.
  - destruct (String.eqb_spec c' c0) as [-> | Hne]; simpl.
    + rewrite IH. destruct (String.eqb c c0); reflexivity.
    + rewrite IH. destruct (String.eqb_spec c c0) as [-> | Hne'].
      * destruct (String.eqb_spec c0 c'); [congruence | reflexivity].
      * reflexivity.
Qed.

Lemma set_column_same c s df :
  get_column c df = Some s -> set_column c s df = df.
Proof.
  induction df as [| [c0 s0] df IH]; simpl; [discriminate |].
  destruct (String.eqb c c0); intros H.
  - injection H as ->. reflexivity.
  - rewrite IH; auto.
Qed.

Lemma set_column_twice c s s' df :
  set_column c s (set_column c s' df) = set_column c s df.
Proof.
  induction df as [| [c0 s0] df IH]; simpl.
  - rewrite String.eqb_refl. reflexivity.
  - destruct (String.eqb c c0) eqn:E; simpl; rewrite E; [| rewrite IH];
      reflexivity.
Qed.

Lemma get_convert_column f c c' df :
  get_column c (convert_column f df c') =
  if String.eqb c c' then option_map (map f) (get_column c df)
  else get_column c df.
Proof.
  unfold convert_column.
  destruct (String.eqb_spec c c') as [-> | Hne].
  - destruct (get_column c' df) as [s |] eqn:E; simpl.
    + rewrite get_set_column, String.eqb_refl. reflexivity.
    + exact E.
  - destruct (get_column c' df) as [s |]; [| reflexivity].
    rewrite get_set_column.
    destruct (String.eqb_spec c c'); [contradiction | reflexivity].
Qed.

Lemma get_assign_column g c c' df :
  get_column c (assign_column g df c') =
  if String.eqb c c' then option_map g (get_column c df)
  else get_column c df.
Proof.
  unfold assign_column.
  destruct (String.eqb_spec c c') as [-> | Hne].
  - destruct (get_column c' df) as [s |] eqn:E; simpl.
    + rewrite get_set_column, String.eqb_refl. reflexivity.
    + exact E.
  - destruct (get_column c' df) as [s |]; [| reflexivity].
    rewrite get_set_column.
    destruct (String.eqb_spec c c'); [contradiction | reflexivity].
Qed.

Lemma fill_none_cell x : fill_cell VNone x = x.
Proof. unfold fill_cell. destruct (isna x); reflexivity. Qed.

Lemma map_fill_none s : map (fill_cell VNone) s = s.
Proof.
  induction s as [| x s IH]; simpl; [reflexivity |].
  rewrite fill_none_cell, IH. reflexivity.
Qed.

Lemma get_fillna_column c c' v df :
  get_column c (fillna_column c' v df) =
  if String.eqb c c' then option_map (map (fill_cell v)) (get_column c df)
  else get_column c df.
Proof. exact (get_convert_column (fill_cell v) c c' df). Qed.

Lemma get_update_column c c' f df df' :
  update_column c' f df = Ok df' ->
  get_column c df' =
  if String.eqb c c' then converted f (get_column c df) else get_column c df.
Proof.
  unfold update_column, converted. intros H.
  destruct (String.eqb_spec c c') as [-> | Hne].
  - destruct (get_column c' df) as [s |] eqn:E.
    + destruct (f s) as [s' | e]; simpl in H; [| discriminate].
      injection H as <-. rewrite get_set_column, String.eqb_refl. reflexivity.
    + injection H as <-. exact E.
  - destruct (get_column c' df) as [s |] eqn:E.
    + destruct (f s) as [s' | e]; simpl in H; [| discriminate].
      injection H as <-. rewrite get_set_column.
      destruct (String.eqb_spec c c'); [contradiction | reflexivity].
    + injection H as <-. reflexivity.
Qed.

Lemma is_ok_update_column c f df :
  is_ok (update_column c f df) =
  match get_column c df with Some s => is_ok (f s) | None => true end.
Proof.
  unfold update_column. destruct (get_column c df) as [s |]; [| reflexivity].
  destruct (f s); reflexivity.
Qed.

Lemma get_extract_dock c df :
  get_column c (extract_dock df) =
  match get_column "dock" df with
  | Some dock =>
      if String.eqb c "dock" then None
      else if String.eqb c "dock_level"
           then Some (map (dock_field "level") dock)
           else if String.eqb c "dock_bay"
                then Some (map (dock_field "bay") dock)
                else get_column c df
  | None => get_column c df
  end.
Proof.
  unfold extract_dock.
  destruct (get_column "dock" df) as [dock |] eqn:E; [| reflexivity].
  cbv zeta. rewrite get_drop_column, !get_set_column. reflexivity.
Qed.

(** ** The transformer, step by step *)

Section TransformerSteps.

Variable parse_number : string -> option Q.
Variable parse_datetime : string -> option instant.
Variable epoch_datetime : Q -> option Z.

Local Abbreviation tfp :=
  (transform_for_postgres parse_number parse_datetime epoch_datetime).
Local Abbreviation num := (to_numeric_cell parse_number).
Local Abbreviation datetime := (to_datetime parse_datetime epoch_datetime).
Local Abbreviation date := (to_date parse_datetime epoch_datetime).

Lemma transform_inv df df' :
  tfp df = Ok df' ->
  exists d1 d2 d3,
    update_column "services" (map_result join_services) (extract_dock df)
      = Ok d1 /\
    update_column "visited_at" datetime d1 = Ok d2 /\
    update_column "arrival_date" date d2 = Ok d3 /\
    df' = coerce_and_fill parse_number d3.
Proof.
  unfold transform_for_postgres. intros H.
  apply bind_ok_inv in H as (d1 & H1 & H).
  apply bind_ok_inv in H as (d2 & H2 & H).
  apply bind_ok_inv in H as (d3 & H3 & H).
  injection H as <-. exists d1, d2, d3. auto.
Qed.

Lemma get_coerce_and_fill c df :
  get_column c (coerce_and_fill parse_number df) =
  if String.eqb c "is_emergency"
  then option_map (map (fun x => fill_cell (VBool false) (VBool (truthy x))))
         (get_column c df)
  else if String.eqb c "services"
  then option_map (map (fill_cell (VStr ""))) (get_column c df)
  else if String.eqb c "dock_level" || String.eqb c "dock_bay"
  then option_map (map (fill_cell VNone)) (get_column c df)
  else if existsb (String.eqb c)
            (decimal_columns ++ float_columns ++ int_columns)
  then option_map (to_numeric_series parse_number) (get_column c df)
  else get_column c df.
Proof.
  unfold coerce_and_fill, fillna, astype_bool, to_numeric. simpl fold_left.
  rewrite !get_fillna_column, !get_convert_column, !get_assign_column.
  repeat match goal with
  | |- context [String.eqb c ?n] =>
      destruct (String.eqb_spec c n) as [-> | ?]; simpl;
      try (destruct (get_column _ df); simpl; try rewrite map_map; reflexivity)
  end.
Qed.

Lemma get_raising_steps c df d1 d2 d3 :
  update_column "services" (map_result join_services) (extract_dock df)
    = Ok d1 ->
  update_column "visited_at" datetime d1 = Ok d2 ->
  update_column "arrival_date" date d2 = Ok d3 ->
  get_column c d3 =
  if String.eqb c "arrival_date" then converted date (get_column c df)
  else if String.eqb c "visited_at"
  then converted datetime (get_column c df)
  else if String.eqb c "services"
  then converted (map_result join_services) (get_column c df)
  else get_column c (extract_dock df).
Proof.
  intros H1 H2 H3.
  rewrite (get_update_column c _ _ _ _ H3).
  destruct (String.eqb_spec c "arrival_date") as [-> | ?].
  { rewrite (get_update_column _ _ _ _ _ H2), (get_update_column _ _ _ _ _ H1).
    simpl. rewrite get_extract_dock. simpl.
    destruct (get_column "dock" df); reflexivity. }
  rewrite (get_update_column c _ _ _ _ H2).
  destruct (String.eqb_spec c "visited_at") as [-> | ?].
  { rewrite (get_update_column _ _ _ _ _ H1).
    simpl. rewrite get_extract_dock. simpl.
    destruct (get_column "dock" df); reflexivity. }
  rewrite (get_update_column c _ _ _ _ H1).
  destruct (String.eqb_spec c "services") as [-> | ?]; [| reflexivity].
  rewrite get_extract_dock. simpl.
  destruct (get_column "dock" df); reflexivity.
Qed.

Lemma is_ok_to_date s : is_ok (date s) = is_ok (datetime s).
Proof. unfold to_date. destruct (datetime s); reflexivity. Qed.

Lemma is_ok_update_map c g df :
  is_ok (update_column c (map_result g) df) =
  column_ok (fun x => is_ok (g x)) c df.
Proof.
  rewrite is_ok_update_column. unfold column_ok.
  destruct (get_column c df); [apply map_result_is_ok | reflexivity].
Qed.

Lemma is_ok_update_date c df :
  is_ok (update_column c date df) =
  column_ok (datetime_like parse_datetime epoch_datetime) c df.
Proof.
  rewrite is_ok_update_column. unfold column_ok.
  destruct (get_column c df); [| reflexivity].
  rewrite is_ok_to_date. apply map_result_is_ok.
Qed.

Lemma column_ok_ext p c df df' :
  get_column c df = get_column c df' -> column_ok p c df = column_ok p c df'.
Proof. unfold column_ok. intros ->. reflexivity. Qed.

(** The transformer returns exactly when every services cell can be joined
    and every cell of the two date columns can be converted; nothing else
    in the frame matters. *)
Lemma transform_is_ok df :
  is_ok (tfp df) =
  column_ok joinable "services" df
  && column_ok (datetime_like parse_datetime epoch_datetime) "visited_at" df
  && column_ok (datetime_like parse_datetime epoch_datetime)
       "arrival_date" df.
Proof.
  assert (E : forall c, String.eqb c "dock" = false ->
              String.eqb c "dock_level" = false ->
              String.eqb c "dock_bay" = false ->
              get_column c (extract_dock df) = get_column c df).
  { intros c E1 E2 E3. rewrite get_extract_dock, E1, E2, E3.
    destruct (get_column "dock" df); reflexivity. }
  unfold transform_for_postgres.
  pose proof (is_ok_update_map "services" join_services (extract_dock df))
    as O1.
  rewrite (column_ok_ext _ _ _ df) in O1 by (apply E; reflexivity).
  fold joinable in O1. rewrite <- O1. clear O1.
  rewrite is_ok_bind.
  destruct (update_column "services" _ (extract_dock df)) as [d1 | e] eqn:H1;
    [| reflexivity].
  pose proof (get_update_column "visited_at" _ _ _ _ H1) as G1.
  pose proof (get_update_column "arrival_date" _ _ _ _ H1) as G1'.
  simpl in G1, G1'. rewrite E in G1, G1' by reflexivity.
  pose proof (is_ok_update_map "visited_at"
                (to_datetime_cell parse_datetime epoch_datetime) d1) as O2.
  rewrite (column_ok_ext _ _ _ df) in O2 by exact G1.
  fold (datetime_like parse_datetime epoch_datetime) in O2.
  rewrite <- O2. clear O2. fold datetime.
  rewrite is_ok_bind.
  destruct (update_column "visited_at" _ d1) as [d2 | e] eqn:H2;
    [| reflexivity].
  pose proof (get_update_column "arrival_date" _ _ _ _ H2) as G2.
  simpl in G2. rewrite G1' in G2.
  pose proof (is_ok_update_date "arrival_date" d2) as O3.
  rewrite (column_ok_ext _ _ _ df) in O3 by exact G2.
  rewrite <- O3. clear O3.
  rewrite is_ok_bind.
  destruct (update_column "arrival_date" _ d2); reflexivity.
Qed.


(** The column [c] of the output, for a column no raising step names. *)
Lemma get_transform_plain c df df' :
  tfp df = Ok df' ->
  String.eqb c "arrival_date" = false ->
  String.eqb c "visited_at" = false ->
  String.eqb c "services" = false ->
  get_column c df' =
  get_column c (coerce_and_fill parse_number (extract_dock df)).
Proof.
  intros H E1 E2 E3.
  destruct (transform_inv _ _ H) as (d1 & d2 & d3 & H1 & H2 & H3 & ->).
  pose proof (get_raising_steps c _ _ _ _ H1 H2 H3) as G.
  rewrite E1, E2, E3 in G.
  rewrite !get_coerce_and_fill, G. reflexivity.
Qed.

Lemma get_transform_numeric c df df' :
  tfp df = Ok df' -> In c numeric_columns ->
  get_column c df' =
  option_map (to_numeric_series parse_number) (get_column c df).
Proof.
  intros H Hc.
  rewrite (get_transform_plain c df df' H), get_coerce_and_fill,
    get_extract_dock;
    simpl in Hc; intuition subst; try reflexivity;
    simpl; destruct (get_column "dock" df); reflexivity.
Qed.


End TransformerSteps.

(** ** The two readings of the [None] defaults *)

Lemma pandas2_fillna_defaults df :
  Pandas2.fillna fill_defaults df =
  match get_column "dock_bay" df, get_column "dock_level" df with
  | None, None => Ok (fillna fill_defaults df)
  | _, _ => Raise ValueError
  end.
Proof.
  unfold fill_defaults, fillna.
  cbn [Pandas2.fillna fold_left fst snd].
  unfold Pandas2.fillna_column at 1.
  destruct (get_column "dock_bay" df) as [b |] eqn:Eb; [reflexivity |].
  cbn [bind]. unfold Pandas2.fillna_column at 1.
  destruct (get_column "dock_level" df) as [l |] eqn:El; [reflexivity |].
  cbn [bind].
  assert (F1 : fillna_column "dock_bay" VNone df = df)
    by (unfold fillna_column; rewrite Eb; reflexivity).
  rewrite F1.
  assert (F2 : fillna_column "dock_level" VNone df = df)
    by (unfold fillna_column; rewrite El; reflexivity).
  rewrite F2.
  unfold Pandas2.fillna_column at 1. unfold fillna_column at 2.
  destruct (get_column "services" df) as [s |]; cbn [bind];
    unfold Pandas2.fillna_column, fillna_column;
    match goal with
    | |- context [get_column "is_emergency" ?d] =>
        destruct (get_column "is_emergency" d); reflexivity
    end.
Qed.

Section Releases.

Variable parse_number : string -> option Q.
Variable parse_datetime : string -> option instant.
Variable epoch_datetime : Q -> option Z.

Local Abbreviation tfp :=
  (transform_for_postgres parse_number parse_datetime epoch_datetime).
Local Abbreviation tfp2 :=
  (Pandas2.transform_for_postgres parse_number parse_datetime epoch_datetime).

(** Before pandas 3 the transformer stops at [fillna] with a [ValueError]
    exactly on the frames with a [dock], [dock_bay] or [dock_level] column
    that pass the earlier rules; on every other frame the two readings
    agree. *)
Lemma pandas2_transform df :
  tfp2 df =
  match tfp df with
  | Ok df' => if has_dock_columns df then Raise ValueError else Ok df'
  | Raise e => Raise e
  end.
Proof.
  unfold Pandas2.transform_for_postgres, transform_for_postgres.
  destruct (update_column "services" _ (extract_dock df)) as [d1 | e] eqn:H1;
    cbn [bind]; [| reflexivity].
  destruct (update_column "visited_at" _ d1) as [d2 | e] eqn:H2;
    cbn [bind]; [| reflexivity].
  destruct (update_column "arrival_date" _ d2) as [d3 | e] eqn:H3;
    cbn [bind]; [| reflexivity].
  rewrite pandas2_fillna_defaults.
  unfold astype_bool, to_numeric. simpl fold_left.
  rewrite !get_convert_column, !get_assign_column.
  rewrite (get_raising_steps _ _ "dock_bay" _ _ _ _ H1 H2 H3).
  rewrite (get_raising_steps _ _ "dock_level" _ _ _ _ H1 H2 H3).
  simpl. rewrite !get_extract_dock. simpl.
  unfold has_dock_columns. rewrite !has_column_get.
  destruct (get_column "dock" df), (get_column "dock_bay" df),
    (get_column "dock_level" df); reflexivity.
Qed.

Lemma pandas2_returns df df' :
  tfp2 df = Ok df' -> tfp df = Ok df' /\ has_dock_columns df = false.
Proof.
  rewrite pandas2_transform. destruct (tfp df) as [d | e]; [| discriminate].
  destruct (has_dock_columns df); [discriminate |].
  intros H. injection H as <-. split; reflexivity.
Qed.


End Releases.

(** ** Numeric coercion *)

Lemma nth_error_map_some {A B : Type} (f : A -> B) l i x :
  nth_error l i = Some x -> nth_error (map f l) i = Some (f x).
Proof. intros H. rewrite nth_error_map, H. reflexivity. Qed.



Lemma to_numeric_series_length parse_number s :
  List.length (to_numeric_series parse_number s) = List.length s.
Proof.
  unfold to_numeric_series.
  destruct (is_datetime_series s); [apply length_map |].
  destruct (forallb is_bool s); [reflexivity | apply length_map].
Qed.




(** With the reference grammar, ["12.5"] becomes 12.5 and ["abc"] a missing
    value. *)
Example numeric_coercion_example :
  transform priced_frame = Ok [("price_per_unit", [VNum (25 # 2); VNaN])].
Proof. reflexivity. Qed.

(** ** Columns that no rule names *)

Section Passthrough.

Variable parse_number : string -> option Q.
Variable parse_datetime : string -> option instant.
Variable epoch_datetime : Q -> option Z.

Local Abbreviation tfp :=
  (transform_for_postgres parse_number parse_datetime epoch_datetime).

Lemma not_rule_column c :
  ~ In c rule_columns ->
  String.eqb c "dock" = false /\ String.eqb c "services" = false /\
  String.eqb c "visited_at" = false /\ String.eqb c "arrival_date" = false /\
  String.eqb c "is_emergency" = false /\
  existsb (String.eqb c) numeric_columns = false.
Proof.
  intros H. unfold rule_columns, numeric_columns, decimal_columns,
    float_columns, int_columns, bool_columns in *. simpl in *.
  repeat match goal with
  | |- context [String.eqb c ?n] =>
      destruct (String.eqb_spec c n) as [-> | ?]; [exfalso; tauto |]
  end.
  repeat split; reflexivity.
Qed.

Lemma get_transform_other c df df' :
  tfp df = Ok df' -> ~ In c rule_columns ->
  get_column c df' =
  if String.eqb c "dock_level" || String.eqb c "dock_bay"
  then option_map (map (fill_cell VNone)) (get_column c (extract_dock df))
  else get_column c df.
Proof.
  intros H Hc.
  destruct (not_rule_column c Hc) as (E1 & E2 & E3 & E4 & E5 & E6).
  rewrite (get_transform_plain _ _ _ c df df' H E4 E3 E2).
  rewrite get_coerce_and_fill, E5, E2.
  unfold numeric_columns in E6. rewrite E6.
  destruct (String.eqb c "dock_level" || String.eqb c "dock_bay") eqn:E;
    [reflexivity |].
  apply orb_false_elim in E as [Ea Eb].
  rewrite get_extract_dock, E1, Ea, Eb.
  destruct (get_column "dock" df); reflexivity.
Qed.

(** The two dock columns of the output. *)
Lemma get_transform_dock_field c k df df' :
  tfp df = Ok df' ->
  (c, k) = ("dock_bay", "bay") \/ (c, k) = ("dock_level", "level") ->
  get_column c df' =
  match get_column "dock" df with
  | Some dock => Some (map (fun x => fill_cell VNone (dock_field k x)) dock)
  | None => option_map (map (fill_cell VNone)) (get_column c df)
  end.
Proof.
  intros H [E | E]; injection E as -> ->;
    (rewrite (get_transform_other _ df df' H);
     [| unfold rule_columns; simpl; intuition discriminate]);
    simpl; rewrite get_extract_dock; simpl;
    destruct (get_column "dock" df); simpl;
    rewrite ?map_map; reflexivity.
Qed.

Lemma get_transform_dock df df' :
  tfp df = Ok df' -> get_column "dock" df' = None.
Proof.
  intros H.
  rewrite (get_transform_plain _ _ _ "dock" df df' H) by reflexivity.
  rewrite get_coerce_and_fill. simpl. rewrite get_extract_dock. simpl.
  destruct (get_column "dock" df); reflexivity.
Qed.

Lemma dock_columns_of_output df df' dock :
  tfp df = Ok df' -> get_column "dock" df = Some dock ->
  get_column "dock_bay" df'
  = Some (map (fun x => fill_cell VNone (dock_field "bay" x)) dock) /\
  get_column "dock_level" df'
  = Some (map (fun x => fill_cell VNone (dock_field "level" x)) dock).
Proof.
  intros H Hd.
  rewrite (get_transform_dock_field "dock_bay" "bay" df df' H
             (or_introl eq_refl)).
  rewrite (get_transform_dock_field "dock_level" "level" df df' H
             (or_intror eq_refl)).
  rewrite Hd. split; reflexivity.
Qed.

End Passthrough.

Lemma nth_error_map_inv {A B : Type} (f : A -> B) l i y :
  nth_error (map f l) i = Some y -> exists x, nth_error l i = Some x /\ y = f x.
Proof.
  rewrite nth_error_map. destruct (nth_error l i) as [x |]; simpl; intros H;
    [injection H as <-; eauto | discriminate].
Qed.

(** C10, as amended.  When the transformer returns, a column that is not one
    of the eleven named by a rule, and is not [dock_bay] or [dock_level],
    is in the output exactly as it is in the input (and absent if it was
    absent).  When the input has no [dock] column this extends to [dock_bay]
    and [dock_level] up to the marker of a missing value: a cell that is not
    missing is unchanged, a missing cell stays missing. *)
Theorem C10_other_columns_kept
  (parse_number : string -> option Q)
  (parse_datetime : string -> option instant)
  (epoch_datetime : Q -> option Z)
  (df df' : DataFrame) (c : string) :
  transform_for_postgres parse_number parse_datetime epoch_datetime df
    = Ok df' ->
  ~ In c rule_columns ->
  (c <> "dock_bay" -> c <> "dock_level" ->
   get_column c df' = get_column c df) /\
  (get_column "dock" df = None ->
   forall s, get_column c df = Some s ->
     exists s', get_column c df' = Some s' /\
       List.length s' = List.length s /\
       forall i x, nth_error s i = Some x ->
         exists y, nth_error s' i = Some y /\
           (isna x = false -> y = x) /\ (isna x = true -> isna y = true)).
Proof.
  intros H Hc.
  pose proof (get_transform_other _ _ _ c df df' H Hc) as G.
  split.
  - intros Hb Hl.
    destruct (String.eqb_spec c "dock_level"); [contradiction |].
    destruct (String.eqb_spec c "dock_bay"); [contradiction |].
    exact G.
  - intros Hd s Hs.
    assert (E : get_column c (extract_dock df) = Some s).
    { rewrite get_extract_dock, Hd. exact Hs. }
    rewrite E, Hs in G.
    destruct (String.eqb c "dock_level" || String.eqb c "dock_bay").
    + exists (map (fill_cell VNone) s). split; [exact G |].
      split; [apply length_map |].
      intros i x Hx. exists (fill_cell VNone x).
      split; [apply nth_error_map_some; exact Hx |].
      rewrite fill_none_cell. split; auto.
    + exists s. split; [exact G |]. split; [reflexivity |].
      intros i x Hx. exists x. split; [exact Hx |]. split; auto.
Qed.

Lemma C10_other_columns_kept_witness :
  transform undocked_frame = Ok undocked_frame /\
  ~ In "transaction_id" rule_columns /\
  get_column "transaction_id" undocked_frame
  = get_column "transaction_id" undocked_frame.
Proof.
  assert (H : transform undocked_frame = Ok undocked_frame) by reflexivity.
  assert (Hc : ~ In "transaction_id" rule_columns).
  { unfold rule_columns. simpl. intuition discriminate. }
  split; [exact H |]. split; [exact Hc |].
  refine (proj1 (C10_other_columns_kept parse_decimal parse_iso_date epoch_ns
                   undocked_frame undocked_frame "transaction_id" H Hc) _ _);
    discriminate.
Defined.

(** C10 as stated fails: [dock_bay] is not one of the eleven names, yet its
    cells are overwritten when the frame also has a [dock] column. *)
Lemma C10_counterexample :
  ~ In "dock_bay" rule_columns /\
  get_column "dock_bay" dock_and_bay_frame = Some [VStr "A"] /\
  transform dock_and_bay_frame
  = Ok [("dock_bay", [VNone]); ("dock_level", [VNone])] /\
  ~ (forall df df' c,
       transform df = Ok df' -> ~ In c rule_columns ->
       get_column c df' = get_column c df).
Proof.
  assert (Hc : ~ In "dock_bay" rule_columns).
  { unfold rule_columns. simpl. intuition discriminate. }
  split; [exact Hc |]. split; [reflexivity |]. split; [reflexivity |].
  intros K.
  specialize (K dock_and_bay_frame _ "dock_bay" eq_refl Hc).
  discriminate K.
Qed.

(** ** The dock rule *)

(** C5.  Before pandas 3 the transformer has no output for a frame with a
    [dock] column: the dock rule makes [dock_bay] and [dock_level], and
    [fillna] then rejects the default [None] given for them.  The call
    raises on every such frame, and the exception is the [ValueError] of
    [fillna] whenever the rules before it pass. *)
Theorem C5_none_default_rejected
  (parse_number : string -> option Q)
  (parse_datetime : string -> option instant)
  (epoch_datetime : Q -> option Z)
  (df : DataFrame) :
  has_column "dock" df = true ->
  is_ok (Pandas2.transform_for_postgres parse_number parse_datetime
           epoch_datetime df) = false /\
  (is_ok (transform_for_postgres parse_number parse_datetime epoch_datetime
            df) = true ->
   Pandas2.transform_for_postgres parse_number parse_datetime epoch_datetime
     df = Raise ValueError).
Proof.
  intros Hd. rewrite pandas2_transform.
  unfold has_dock_columns. rewrite Hd. simpl.
  destruct (transform_for_postgres _ _ _ df) as [df' | e]; simpl.
  - split; reflexivity.
  - split; [reflexivity | discriminate].
Qed.

Lemma C5_none_default_rejected_witness :
  has_column "dock" docked_frame = true /\
  is_ok (transform docked_frame) = true /\
  Pandas2.transform docked_frame = Raise ValueError.
Proof.
  assert (Hd : has_column "dock" docked_frame = true) by reflexivity.
  assert (Hr : is_ok (transform docked_frame) = true) by reflexivity.
  split; [exact Hd |]. split; [exact Hr |].
  exact (proj2 (C5_none_default_rejected parse_decimal parse_iso_date
                  epoch_ns docked_frame Hd) Hr).
Defined.

(** X18.  The dock rule from pandas 3 on, where [fillna] accepts the
    [None] defaults.  For a frame with a [dock] column on which the
    transformer returns: the output has no [dock] column; it has [dock_bay]
    and [dock_level] columns with the rows of [dock]; where the dock cell is
    a dict, the two cells hold its ["bay"] and ["level"] entries, an absent
    or missing entry giving a missing value; where the dock cell is not a
    dict, [None] included, both cells are missing values. *)
Theorem dock_extraction
  (parse_number : string -> option Q)
  (parse_datetime : string -> option instant)
  (epoch_datetime : Q -> option Z)
  (df df' : DataFrame) (dock : Series) :
  transform_for_postgres parse_number parse_datetime epoch_datetime df
    = Ok df' ->
  get_column "dock" df = Some dock ->
  get_column "dock" df' = None /\
  exists bay level,
    get_column "dock_bay" df' = Some bay /\
    get_column "dock_level" df' = Some level /\
    List.length bay = List.length dock /\
    List.length level = List.length dock /\
    forall i x, nth_error dock i = Some x ->
      exists b l,
        nth_error bay i = Some b /\ nth_error level i = Some l /\
        (forall d, x = VDict d ->
           (forall v, dict_lookup d "bay" = Some v -> isna v = false -> b = v) /\
           (forall v, dict_lookup d "level" = Some v -> isna v = false -> l = v) /\
           (forall v, dict_lookup d "bay" = Some v -> isna v = true ->
              isna b = true) /\
           (forall v, dict_lookup d "level" = Some v -> isna v = true ->
              isna l = true) /\
           (dict_lookup d "bay" = None -> isna b = true) /\
           (dict_lookup d "level" = None -> isna l = true)) /\
        (is_dict x = false -> isna b = true /\ isna l = true).
Proof.
  intros H Hd. split; [eapply get_transform_dock; eauto |].
  destruct (dock_columns_of_output parse_number parse_datetime
              epoch_datetime df df' dock H Hd) as (Gb & Gl).
  eexists _, _. split; [exact Gb |]. split; [exact Gl |].
  split; [apply length_map |]. split; [apply length_map |].
  intros i x Hx.
  eexists _, _.
  split; [apply (nth_error_map_some _ _ _ _ Hx) |].
  split; [apply (nth_error_map_some _ _ _ _ Hx) |].
  rewrite !fill_none_cell.
  split.
  - intros d ->. unfold dock_field, dict_get.
    repeat split; intros;
      repeat match goal with
      | E : dict_lookup _ _ = _ |- _ => rewrite E; clear E
      end; auto.
  - destruct x; simpl; intros; try discriminate; auto.
Qed.

Lemma dock_extraction_witness :
  exists df' bay level b,
    transform docked_frame = Ok df' /\
    get_column "dock" df' = None /\
    get_column "dock_bay" df' = Some bay /\
    get_column "dock_level" df' = Some level /\
    nth_error bay 0 = Some (VStr "A") /\
    nth_error level 0 = Some (VNum 2) /\
    nth_error bay 1 = Some b /\ isna b = true.
Proof.
  assert (E : exists out, transform docked_frame = Ok out)
    by (eexists; reflexivity).
  destruct E as (out & E).
  destruct (dock_extraction parse_decimal parse_iso_date epoch_ns
              docked_frame out _ E eq_refl)
    as (Hd & bay & level & Gb & Gl & _ & _ & Hrows).
  destruct (Hrows 0%nat _ eq_refl) as (b0 & l0 & Hb0 & Hl0 & Hdict & _).
  destruct (Hdict _ eq_refl) as (Kb & Kl & _).
  destruct (Hrows 1%nat _ eq_refl) as (b1 & l1 & Hb1 & Hl1 & _ & Hnon).
  exists out, bay, level, b1.
  split; [exact E |]. split; [exact Hd |]. split; [exact Gb |].
  split; [exact Gl |].
  split; [rewrite Hb0; f_equal; exact (Kb (VStr "A") eq_refl eq_refl) |].
  split; [rewrite Hl0; f_equal; exact (Kl (VNum 2) eq_refl eq_refl) |].
  split; [exact Hb1 |]. exact (proj1 (Hnon eq_refl)).
Defined.

(** C7, as amended.  When the input has a [dock] column and the transformer
    returns, the output has [dock_bay] and [dock_level] columns, and they
    hold a missing value in every row whose dock cell is not a dict.  When
    the input has no [dock] column the transformer adds neither column: each
    is in the output exactly when it is in the input. *)
Theorem C7_dock_columns
  (parse_number : string -> option Q)
  (parse_datetime : string -> option instant)
  (epoch_datetime : Q -> option Z)
  (df df' : DataFrame) :
  transform_for_postgres parse_number parse_datetime epoch_datetime df
    = Ok df' ->
  (forall dock, get_column "dock" df = Some dock ->
     exists bay level,
       get_column "dock_bay" df' = Some bay /\
       get_column "dock_level" df' = Some level /\
       forall i x, nth_error dock i = Some x -> is_dict x = false ->
         exists b l,
           nth_error bay i = Some b /\ nth_error level i = Some l /\
           isna b = true /\ isna l = true) /\
  (get_column "dock" df = None ->
   forall c, c = "dock_bay" \/ c = "dock_level" ->
     (get_column c df' = None <-> get_column c df = None)).
Proof.
  intros H. split.
  - intros dock Hd.
    destruct (dock_columns_of_output parse_number parse_datetime
                epoch_datetime df df' dock H Hd) as (Gb & Gl).
    eexists _, _. split; [exact Gb |]. split; [exact Gl |].
    intros i x Hx Hn.
    eexists _, _.
    split; [apply (nth_error_map_some _ _ _ _ Hx) |].
    split; [apply (nth_error_map_some _ _ _ _ Hx) |].
    rewrite !fill_none_cell.
    destruct x; try discriminate; split; reflexivity.
  - intros Hd c Hc.
    assert (G : get_column c df'
                = option_map (map (fill_cell VNone)) (get_column c df)).
    { destruct Hc as [-> | ->].
      - rewrite (get_transform_dock_field _ _ _ "dock_bay" "bay" df df' H
                   (or_introl eq_refl)), Hd. reflexivity.
      - rewrite (get_transform_dock_field _ _ _ "dock_level" "level" df df' H
                   (or_intror eq_refl)), Hd. reflexivity. }
    rewrite G. destruct (get_column c df); simpl; split; intros E;
      try discriminate E; reflexivity.
Qed.

Lemma C7_dock_columns_witness :
  (exists df' bay level b l,
     transform docked_frame = Ok df' /\
     get_column "dock_bay" df' = Some bay /\
     get_column "dock_level" df' = Some level /\
     nth_error bay 1 = Some b /\ nth_error level 1 = Some l /\
     isna b = true /\ isna l = true) /\
  transform undocked_frame = Ok undocked_frame /\
  (get_column "dock_bay" undocked_frame = None <->
   get_column "dock_bay" undocked_frame = None).
Proof.
  split.
  - assert (E : exists out, transform docked_frame = Ok out)
      by (eexists; reflexivity).
    destruct E as (out & E).
    destruct (proj1 (C7_dock_columns parse_decimal parse_iso_date epoch_ns
                       docked_frame out E) _ eq_refl)
      as (bay & level & Gb & Gl & Hrows).
    destruct (Hrows 1%nat VNone eq_refl eq_refl)
      as (b & l & Hb & Hl & Nb & Nl).
    exists out, bay, level, b, l.
    repeat (split; [assumption |]). assumption.
  - assert (H : transform undocked_frame = Ok undocked_frame) by reflexivity.
    split; [exact H |].
    exact (proj2 (C7_dock_columns parse_decimal parse_iso_date epoch_ns
                    undocked_frame undocked_frame H)
             eq_refl "dock_bay" (or_introl eq_refl)).
Defined.

(** C7 as stated fails: a frame without a [dock] column comes out without
    [dock_bay] and [dock_level] columns. *)
Lemma C7_counterexample :
  get_column "dock" undocked_frame = None /\
  transform undocked_frame = Ok undocked_frame /\
  get_column "dock_bay" undocked_frame = None /\
  get_column "dock_level" undocked_frame = None /\
  ~ (forall df df',
       transform df = Ok df' ->
       exists bay level,
         get_column "dock_bay" df' = Some bay /\
         get_column "dock_level" df' = Some level).
Proof.
  repeat (split; [reflexivity |]).
  intros K. destruct (K undocked_frame _ eq_refl) as (bay & level & E & _).
  discriminate E.
Qed.

(** ** The services rule *)

Lemma str_join_strings sep strs :
  str_join sep (map VStr strs) = Ok (String.concat sep strs).
Proof.
  induction strs as [| t strs IH]; simpl; [reflexivity |].
  destruct strs as [| t' strs]; [reflexivity |].
  change (map VStr (t' :: strs)) with (VStr t' :: map VStr strs) in *.
  cbv beta iota. rewrite IH. reflexivity.
Qed.

Lemma str_join_not_strings sep l :
  all_strings l = false -> str_join sep l = Raise TypeError.
Proof.
  induction l as [| x l IH]; simpl; [discriminate |].
  destruct x; simpl; try reflexivity.
  intros H. destruct l as [| x' l]; [discriminate |].
  rewrite (IH H). reflexivity.
Qed.

Lemma all_strings_map l :
  all_strings l = true -> exists strs, l = map VStr strs.
Proof.
  induction l as [| a m IH]; [exists []; reflexivity |].
  simpl. destruct a; try discriminate.
  intros E. destruct (IH E) as [strs ->]. exists (s :: strs). reflexivity.
Qed.

Lemma join_services_raises x e :
  join_services x = Raise e -> e = TypeError.
Proof.
  destruct x as [ | | | | | | l | | | ]; try (simpl; discriminate).
  destruct l as [| y l]; [simpl; discriminate |].
  unfold join_services.
  destruct (all_strings (y :: l)) eqn:E.
  - destruct (all_strings_map _ E) as [strs ->].
    rewrite str_join_strings. discriminate.
  - rewrite (str_join_not_strings _ _ E). simpl. congruence.
Qed.

Lemma join_services_is_str x y :
  join_services x = Ok y -> exists t, y = VStr t.
Proof.
  destruct x as [ | | | | | | l | | | ];
    try (simpl; intros H; injection H as <-; eauto; fail).
  destruct l as [| a l]; [simpl; intros H; injection H as <-; eauto |].
  unfold join_services.
  destruct (str_join "," (a :: l)); simpl; intros H;
    [injection H as <-; eauto | discriminate].
Qed.

Lemma join_services_cell x y :
  join_services x = Ok y ->
  (forall strs, x = VList (map VStr strs) -> strs <> [] ->
     y = VStr (String.concat "," strs)) /\
  ((forall l, x = VList l -> l = []) -> y = VStr "").
Proof.
  intros Hy. split.
  - intros strs -> Hne. destruct strs as [| t strs]; [contradiction |].
    change (VList (map VStr (t :: strs)))
      with (VList (VStr t :: map VStr strs)) in Hy.
    unfold join_services in Hy.
    change (VStr t :: map VStr strs) with (map VStr (t :: strs)) in Hy.
    rewrite str_join_strings in Hy. unfold bind in Hy.
    injection Hy as <-. reflexivity.
  - intros Hl. destruct x as [ | | | | | | l | | | ];
      try (simpl in Hy; congruence).
    rewrite (Hl l eq_refl) in Hy. simpl in Hy. congruence.
Qed.

Lemma map_result_raises {A B : Type} (f : A -> result B) l x e :
  In x l -> f x = Raise e ->
  (forall a e', f a = Raise e' -> e' = e) ->
  map_result f l = Raise e.
Proof.
  intros Hin Hx Hall. induction l as [| a l IH]; [contradiction |].
  simpl. destruct (f a) as [b | e'] eqn:Ea; simpl.
  - destruct Hin as [-> | Hin]; [congruence |].
    rewrite (IH Hin). reflexivity.
  - f_equal. eauto.
Qed.

(** C6, the failing input.  A services cell that is a numpy array, as
    [read_parquet_file] delivers the cells of a list column, is a non-empty
    sequence of strings and still becomes the empty string: the lambda asks
    for an instance of [list].  So every cell of a services column that
    comes from the reader is blanked, where the transformer joins the same
    items when they stand in a Python list.  And a list with an element that
    is not a string does not become the empty string either: the join raises
    [TypeError]. *)
Theorem C6_array_services_blanked :
  (forall items, services_rule (NdArray items) = Ok (VStr "")) /\
  services_rule (read_cell (VList [VStr "fuel"; VStr "repair"]))
  = Ok (VStr "") /\
  services_rule (Plain (VList [VStr "fuel"; VStr "repair"]))
  = Ok (VStr "fuel,repair") /\
  (forall s,
     apply_services_rule (map read_cell s) = Ok (map (fun _ => VStr "") s)) /\
  transform services_frame = Ok joined_services_frame /\
  transform mixed_services_frame = Raise TypeError.
Proof.
  split; [reflexivity |]. split; [reflexivity |]. split; [reflexivity |].
  split; [| split; reflexivity].
  unfold apply_services_rule.
  induction s as [| v s IH]; [reflexivity |].
  cbn [map map_result]. rewrite IH.
  destruct v; reflexivity.
Qed.

(** X19.  The services rule on Python objects.  For a frame with a
    [services] column: when the transformer returns, a cell that is a
    non-empty list of strings has become their join with [","], and a cell
    that is an empty list, missing or not a list has become the empty
    string; and when some cell is a non-empty list with an element that is
    not a string, the transformer raises [TypeError]. *)
Theorem services_join_rule
  (parse_number : string -> option Q)
  (parse_datetime : string -> option instant)
  (epoch_datetime : Q -> option Z)
  (df : DataFrame) (s : Series) :
  get_column "services" df = Some s ->
  (forall df',
     transform_for_postgres parse_number parse_datetime epoch_datetime df
       = Ok df' ->
     exists out,
       get_column "services" df' = Some out /\
       List.length out = List.length s /\
       forall i x, nth_error s i = Some x ->
         exists y, nth_error out i = Some y /\
           (forall strs, x = VList (map VStr strs) -> strs <> [] ->
              y = VStr (String.concat "," strs)) /\
           ((forall l, x = VList l -> l = []) -> y = VStr "")) /\
  ((exists l, In (VList l) s /\ l <> [] /\ all_strings l = false) ->
   transform_for_postgres parse_number parse_datetime epoch_datetime df
     = Raise TypeError).
Proof.
  intros Hs. split.
  - intros df' H.
    destruct (transform_inv _ _ _ _ _ H) as (d1 & d2 & d3 & H1 & H2 & H3 & ->).
    pose proof (get_raising_steps _ _ "services" _ _ _ _ H1 H2 H3) as G.
    simpl in G. rewrite Hs in G. unfold converted in G.
    pose proof (f_equal is_ok H1) as O1.
    rewrite is_ok_update_column, get_extract_dock in O1. simpl in O1.
    assert (E : get_column "services" df = Some s) by exact Hs.
    destruct (get_column "dock" df); rewrite E in O1;
      destruct (map_result join_services s) as [out |] eqn:J;
      try discriminate O1.
    all: exists out; rewrite get_coerce_and_fill, G; simpl.
    all: assert (F : map (fill_cell (VStr "")) out = out)
      by (apply map_fixed;
          apply (map_result_Forall _ _ _ _ J);
          intros x y Hxy; destruct (join_services_is_str _ _ Hxy) as [t ->];
          reflexivity).
    all: rewrite F; split; [reflexivity |].
    all: split; [apply (map_result_length _ _ _ J) |].
    all: intros i x Hx;
      destruct (map_result_nth _ _ _ _ _ J Hx) as (y & Hy & Hn);
      exists y; split; [exact Hn | exact (join_services_cell _ _ Hy)].
  - intros (l & Hin & Hne & Hstr).
    unfold transform_for_postgres, update_column.
    rewrite get_extract_dock. simpl.
    assert (J : map_result join_services s = Raise TypeError).
    { apply (map_result_raises _ _ (VList l)); [exact Hin | |].
      - destruct l as [| a l]; [contradiction |].
        unfold join_services. rewrite (str_join_not_strings _ _ Hstr).
        reflexivity.
      - intros a e. apply join_services_raises. }
    destruct (get_column "dock" df); rewrite Hs, J; reflexivity.
Qed.

Lemma services_join_rule_witness :
  (exists df' out,
     transform services_frame = Ok df' /\
     get_column "services" df' = Some out /\
     nth_error out 0 = Some (VStr "fuel,repair")) /\
  transform mixed_services_frame = Raise TypeError.
Proof.
  split.
  - assert (E : exists d, transform services_frame = Ok d)
      by (eexists; reflexivity).
    destruct E as (d & E).
    destruct (proj1 (services_join_rule parse_decimal parse_iso_date epoch_ns
                       services_frame _ eq_refl) d E)
      as (out & G & _ & Hcells).
    destruct (Hcells 0%nat _ eq_refl) as (y & Hy & Hjoin & _).
    exists d, out. split; [exact E |]. split; [exact G |].
    rewrite Hy. f_equal.
    apply (Hjoin ["fuel"; "repair"]); [reflexivity | discriminate].
  - apply (proj2 (services_join_rule parse_decimal parse_iso_date epoch_ns
                    mixed_services_frame _ eq_refl)).
    exists [VStr "fuel"; VNone].
    split; [left; reflexivity |]. split; [discriminate | reflexivity].
Defined.

(** With the reference grammars: a joined list, an empty list and a missing
    value. *)
Example services_example :
  transform [("services", [VList [VStr "fuel"; VStr "repair"]; VList []; VNaN])]
  = Ok [("services", [VStr "fuel,repair"; VStr ""; VStr ""])].
Proof. reflexivity. Qed.

(** ** The boolean rule *)

Lemma get_transform_is_emergency
  (parse_number : string -> option Q)
  (parse_datetime : string -> option instant)
  (epoch_datetime : Q -> option Z) df df' :
  transform_for_postgres parse_number parse_datetime epoch_datetime df
    = Ok df' ->
  get_column "is_emergency" df'
  = option_map (map (fun x => VBool (truthy x)))
      (get_column "is_emergency" df).
Proof.
  intros H.
  rewrite (get_transform_plain _ _ _ "is_emergency" df df' H) by reflexivity.
  rewrite get_coerce_and_fill. simpl. rewrite get_extract_dock. simpl.
  destruct (get_column "dock" df); reflexivity.
Qed.

(** Every cell of the output's [is_emergency] column is a boolean, and a
    [None] cell has become [False]. *)
Lemma is_emergency_is_boolean
  (parse_number : string -> option Q)
  (parse_datetime : string -> option instant)
  (epoch_datetime : Q -> option Z) df df' s s' :
  transform_for_postgres parse_number parse_datetime epoch_datetime df
    = Ok df' ->
  get_column "is_emergency" df = Some s ->
  get_column "is_emergency" df' = Some s' ->
  Forall (fun y => is_bool y = true) s' /\
  forall i, nth_error s i = Some VNone -> nth_error s' i = Some (VBool false).
Proof.
  intros H Hs Hs'.
  rewrite (get_transform_is_emergency _ _ _ _ _ H), Hs in Hs'.
  injection Hs' as <-. split.
  - apply Forall_map. apply Forall_forall. reflexivity.
  - intros i Hi. rewrite (nth_error_map_some _ _ _ _ Hi). reflexivity.
Qed.

(** C3, the failing input.  A [NaN] in [is_emergency] is a missing value,
    and it comes out [True]: [astype(bool)] has made it a boolean before
    [fillna] could give it the default [False].  [None] comes out [False]. *)
Theorem C3_nan_flag_becomes_true :
  get_column "is_emergency" emergency_frame = Some [VBool true; VNaN; VNone] /\
  isna VNaN = true /\
  transform emergency_frame
  = Ok [("is_emergency", [VBool true; VBool true; VBool false])].
Proof. repeat split. Qed.

(** ** Running the transformer on its own output *)

Lemma convert_column_fixed f df c :
  (forall s, get_column c df = Some s -> Forall (fun x => f x = x) s) ->
  convert_column f df c = df.
Proof.
  intros H. unfold convert_column.
  destruct (get_column c df) as [s |] eqn:E; [| reflexivity].
  rewrite (map_fixed f s (H s eq_refl)). apply set_column_same. exact E.
Qed.

Lemma update_column_fixed f df c :
  (forall s, get_column c df = Some s -> f s = Ok s) ->
  update_column c f df = Ok df.
Proof.
  intros H. unfold update_column.
  destruct (get_column c df) as [s |] eqn:E; [| reflexivity].
  rewrite (H s eq_refl). simpl. f_equal. apply set_column_same. exact E.
Qed.

Lemma assign_column_fixed g df c :
  (forall s, get_column c df = Some s -> g s = s) ->
  assign_column g df c = df.
Proof.
  intros H. unfold assign_column.
  destruct (get_column c df) as [s |] eqn:E; [| reflexivity].
  rewrite (H s eq_refl). apply set_column_same. exact E.
Qed.

Section Idempotence.

Variable parse_number : string -> option Q.
Variable parse_datetime : string -> option instant.
Variable epoch_datetime : Q -> option Z.

Local Abbreviation tfp :=
  (transform_for_postgres parse_number parse_datetime epoch_datetime).
Local Abbreviation num := (to_numeric_cell parse_number).
Local Abbreviation datetime_cell :=
  (to_datetime_cell parse_datetime epoch_datetime).
Local Abbreviation datetime := (to_datetime parse_datetime epoch_datetime).
Local Abbreviation date := (to_date parse_datetime epoch_datetime).

Lemma to_numeric_cell_shape x :
  match num x with VNum _ | VNaN => true | _ => false end = true.
Proof.
  destruct x; simpl; try reflexivity.
  destruct (parse_number s); reflexivity.
Qed.

(** A column [pd.to_numeric] has coerced is of one kind. *)
Lemma to_numeric_series_shape s :
  numeric_series (to_numeric_series parse_number s) = true.
Proof.
  unfold numeric_series, to_numeric_series.
  destruct (is_datetime_series s).
  - apply orb_true_intro. right. rewrite forallb_forall.
    intros y Hy. apply in_map_iff in Hy as (x & <- & _).
    destruct x; reflexivity.
  - destruct (forallb is_bool s) eqn:Eb.
    + rewrite Eb. reflexivity.
    + apply orb_true_intro. right. rewrite forallb_forall.
      intros y Hy. apply in_map_iff in Hy as (x & <- & _).
      apply to_numeric_cell_shape.
Qed.

Lemma numeric_series_cells s :
  numeric_series s = true ->
  Forall (fun x => match x with VBool _ | VNum _ | VNaN => true | _ => false
                   end = true) s.
Proof.
  unfold numeric_series. intros H. apply Forall_forall. intros x Hx.
  apply orb_true_elim in H as [H | H]; rewrite forallb_forall in H;
    specialize (H x Hx); destruct x; try discriminate H; reflexivity.
Qed.

(** And [pd.to_numeric] leaves such a column as it is. *)
Lemma to_numeric_series_fixed s :
  numeric_series s = true -> to_numeric_series parse_number s = s.
Proof.
  intros H. unfold to_numeric_series.
  assert (D : is_datetime_series s = false).
  { destruct s as [| x s]; [reflexivity |].
    pose proof (numeric_series_cells _ H) as K.
    apply Forall_inv in K. destruct x; try discriminate K; reflexivity. }
  rewrite D. destruct (forallb is_bool s) eqn:Eb; [reflexivity |].
  unfold numeric_series in H. rewrite Eb in H. simpl in H.
  apply map_fixed. apply Forall_forall. intros x Hx.
  rewrite forallb_forall in H. specialize (H x Hx).
  destruct x; try discriminate H; reflexivity.
Qed.

Lemma to_datetime_cell_shape x y :
  datetime_cell x = Ok y ->
  match y with VTimestamp _ | VNaT => true | _ => false end = true.
Proof.
  destruct x; simpl; intros H; try discriminate;
    try (injection H as <-; reflexivity).
  - destruct (epoch_datetime q); [injection H as <-; reflexivity |
                                  discriminate].
  - destruct (parse_datetime s) as [[| ns] |];
      [injection H as <-; reflexivity .. | discriminate].
Qed.

Lemma to_date_cell_shape x y :
  datetime_cell x = Ok y ->
  match dt_date y with VDate _ | VNaT => true | _ => false end = true.
Proof.
  intros H. pose proof (to_datetime_cell_shape _ _ H) as S.
  destruct y; try discriminate; reflexivity.
Qed.

Lemma to_datetime_fixed s :
  Forall (fun x => match x with VTimestamp _ | VNaT => true | _ => false end
                   = true) s ->
  datetime s = Ok s.
Proof.
  intros H. apply map_result_fixed.
  eapply Forall_impl; [| exact H].
  intros x Hx. destruct x; try discriminate; reflexivity.
Qed.

Lemma to_date_fixed s :
  Forall (fun x => match x with VDate _ | VNaT => true | _ => false end
                   = true) s ->
  date s = Ok s.
Proof.
  unfold to_date, to_datetime.
  induction 1 as [| x s Hx _ IH]; [reflexivity |].
  simpl. destruct x; try discriminate.
  - simpl. destruct (map_result datetime_cell s) as [ts |]; simpl in *;
      [| discriminate].
    injection IH as IH. rewrite IH. reflexivity.
  - simpl. destruct (map_result datetime_cell s) as [ts |]; simpl in *;
      [| discriminate].
    injection IH as IH. rewrite IH.
    rewrite Z.div_mul by discriminate. reflexivity.
Qed.

(** What the transformer produces is normalized. *)
Lemma transform_output_normalized df df' :
  tfp df = Ok df' -> normalized df'.
Proof.
  intros H. split; [eapply get_transform_dock; eauto |].
  split.
  2:{ intros c s Hc Hs.
      rewrite (get_transform_numeric _ _ _ _ _ _ H Hc) in Hs.
      destruct (get_column c df) as [s0 |]; simpl in Hs;
        [injection Hs as <- | discriminate].
      apply to_numeric_series_shape. }
  intros c s Hs.
  destruct (transform_inv _ _ _ _ _ H) as (d1 & d2 & d3 & H1 & H2 & H3 & ->).
  rewrite get_coerce_and_fill in Hs.
  pose proof (get_raising_steps _ _ c _ _ _ _ H1 H2 H3) as G.
  unfold normal_cell, numeric_columns. revert Hs.
  destruct (String.eqb_spec c "is_emergency") as [-> | N1].
  { intros Hs. destruct (get_column _ d3); simpl in Hs;
      [injection Hs as <- | discriminate].
    apply Forall_map, Forall_forall. reflexivity. }
  destruct (String.eqb_spec c "services") as [-> | N2].
  { intros Hs. simpl in G. rewrite G in Hs.
    destruct (get_column "services" df) as [s0 |]; simpl in Hs;
      [| discriminate].
    destruct (map_result join_services s0) as [out |] eqn:J; simpl in Hs;
      [injection Hs as <- | discriminate].
    apply Forall_map. eapply map_result_Forall; [exact J |].
    intros x y Hxy. destruct (join_services_is_str _ _ Hxy) as [t ->].
    reflexivity. }
  destruct (String.eqb_spec c "dock_level") as [-> | N3].
  { intros _. apply Forall_forall. reflexivity. }
  destruct (String.eqb_spec c "dock_bay") as [-> | N4].
  { intros _. apply Forall_forall. reflexivity. }
  cbn [orb]. intros Hs.
  destruct (existsb (String.eqb c)
              (decimal_columns ++ float_columns ++ int_columns)).
  { destruct (get_column _ d3) as [s0 |]; simpl in Hs;
      [injection Hs as <- | discriminate].
    apply numeric_series_cells, to_numeric_series_shape. }
  rewrite G in Hs.
  destruct (String.eqb c "arrival_date").
  { unfold converted, to_date, to_datetime in Hs.
    destruct (get_column c df) as [s0 |]; [| discriminate].
    destruct (map_result datetime_cell s0) as [ts |] eqn:J; simpl in Hs;
      [injection Hs as <- | discriminate].
    apply Forall_map. eapply map_result_Forall; [exact J |].
    intros x y. apply to_date_cell_shape. }
  destruct (String.eqb c "visited_at").
  { unfold converted, to_datetime in Hs.
    destruct (get_column c df) as [s0 |]; [| discriminate].
    destruct (map_result datetime_cell s0) as [ts |] eqn:J; simpl in Hs;
      [injection Hs as <- | discriminate].
    eapply map_result_Forall; [exact J |].
    intros x y. apply to_datetime_cell_shape. }
  apply Forall_forall. reflexivity.
Qed.

Lemma join_services_of_strings s :
  Forall (fun x => match x with VStr _ => true | _ => false end = true) s ->
  map_result join_services s = Ok (map (fun _ => VStr "") s).
Proof.
  induction 1 as [| x s Hx _ IH]; [reflexivity |].
  simpl. destruct x; try discriminate. simpl. rewrite IH. reflexivity.
Qed.

(** On already-normalized input the transformer returns, and changes
    nothing but the services column, which it blanks. *)
Lemma transform_on_normalized d :
  normalized d -> tfp d = Ok (blank_services d).
Proof.
  intros (Hd & Hn & Hk). unfold transform_for_postgres.
  assert (E0 : extract_dock d = d)
    by (unfold extract_dock; rewrite Hd; reflexivity).
  rewrite E0.
  assert (E1 : update_column "services" (map_result join_services) d
               = Ok (blank_services d)).
  { unfold update_column, blank_services, convert_column.
    destruct (get_column "services" d) as [s |] eqn:Es; [| reflexivity].
    rewrite (join_services_of_strings s (Hn _ _ Es)). reflexivity. }
  rewrite E1. cbn [bind].
  set (b := blank_services d).
  assert (Hb : forall c s, String.eqb c "services" = false ->
               get_column c b = Some s ->
               Forall (fun x => normal_cell c x = true) s).
  { intros c s Ec Hs. unfold b, blank_services in Hs.
    rewrite get_convert_column, Ec in Hs. eauto. }
  assert (Hs : forall s, get_column "services" b = Some s ->
               Forall (fun x => fill_cell (VStr "") x = x) s).
  { intros s Hs. unfold b, blank_services in Hs.
    rewrite get_convert_column in Hs. simpl in Hs.
    destruct (get_column "services" d); simpl in Hs;
      [injection Hs as <- | discriminate].
    apply Forall_map, Forall_forall. reflexivity. }
  assert (E2 : update_column "visited_at" datetime b = Ok b).
  { apply update_column_fixed. intros s Hv. apply to_datetime_fixed.
    exact (Hb "visited_at" s eq_refl Hv). }
  rewrite E2. cbn [bind].
  assert (E3 : update_column "arrival_date" date b = Ok b).
  { apply update_column_fixed. intros s Hv. apply to_date_fixed.
    exact (Hb "arrival_date" s eq_refl Hv). }
  rewrite E3. cbn [bind]. f_equal.
  assert (Hnum : forall c, In c numeric_columns ->
                 assign_column (to_numeric_series parse_number) b c = b).
  { intros c Hc. apply assign_column_fixed. intros s Hv.
    assert (Ec : String.eqb c "services" = false)
      by (simpl in Hc; intuition subst; reflexivity).
    unfold b, blank_services in Hv.
    rewrite get_convert_column, Ec in Hv.
    apply to_numeric_series_fixed. exact (Hk c s Hc Hv). }
  unfold to_numeric, astype_bool, fillna. simpl fold_left.
  rewrite !Hnum by (simpl; auto 10).
  rewrite (convert_column_fixed _ b "is_emergency").
  2:{ intros s Hv. eapply Forall_impl; [| exact (Hb "is_emergency" s eq_refl Hv)].
      intros x Hx. destruct x; try discriminate; reflexivity. }
  change (fillna_column "dock_bay" VNone b)
    with (convert_column (fill_cell VNone) b "dock_bay").
  rewrite (convert_column_fixed _ b "dock_bay").
  2:{ intros s Hv. apply Forall_forall. intros x _. apply fill_none_cell. }
  change (fillna_column "dock_level" VNone b)
    with (convert_column (fill_cell VNone) b "dock_level").
  rewrite (convert_column_fixed _ b "dock_level").
  2:{ intros s Hv. apply Forall_forall. intros x _. apply fill_none_cell. }
  change (fillna_column "services" (VStr "") b)
    with (convert_column (fill_cell (VStr "")) b "services").
  rewrite (convert_column_fixed _ b "services") by exact Hs.
  change (fillna_column "is_emergency" (VBool false) b)
    with (convert_column (fill_cell (VBool false)) b "is_emergency").
  apply convert_column_fixed.
  intros s Hv.
  eapply Forall_impl; [| exact (Hb "is_emergency" s eq_refl Hv)].
  intros x Hx. destruct x; try discriminate; reflexivity.
Qed.

Lemma blank_services_fixed d :
  (forall s, get_column "services" d = Some s ->
     Forall (fun x => x = VStr "") s) ->
  blank_services d = d.
Proof.
  intros H. apply convert_column_fixed. intros s Hs.
  eapply Forall_impl; [| exact (H s Hs)]. intros x ->. reflexivity.
Qed.

End Idempotence.

(** C2, as amended.  Running the transformer on a frame it has produced
    returns that frame with every cell of the [services] column replaced by
    the empty string, and nothing else changed; so the second run returns an
    equal frame when the first output has no [services] column or only empty
    strings in it. *)
Theorem C2_second_run_blanks_services
  (parse_number : string -> option Q)
  (parse_datetime : string -> option instant)
  (epoch_datetime : Q -> option Z)
  (df df' : DataFrame) :
  transform_for_postgres parse_number parse_datetime epoch_datetime df
    = Ok df' ->
  transform_for_postgres parse_number parse_datetime epoch_datetime df'
    = Ok (blank_services df') /\
  ((forall s, get_column "services" df' = Some s ->
      Forall (fun x => x = VStr "") s) ->
   transform_for_postgres parse_number parse_datetime epoch_datetime df'
     = Ok df').
Proof.
  intros H.
  pose proof (transform_on_normalized parse_number parse_datetime
                epoch_datetime df'
                (transform_output_normalized _ _ _ _ _ H)) as E.
  split; [exact E |].
  intros Hs. rewrite E. f_equal. apply blank_services_fixed. exact Hs.
Qed.

Lemma C2_second_run_blanks_services_witness :
  transform services_frame = Ok joined_services_frame /\
  transform joined_services_frame = Ok (blank_services joined_services_frame).
Proof.
  assert (H : transform services_frame = Ok joined_services_frame)
    by reflexivity.
  split; [exact H |].
  exact (proj1 (C2_second_run_blanks_services parse_decimal parse_iso_date
                  epoch_ns services_frame joined_services_frame H)).
Defined.

(** C2 as stated fails: the frame [joined_services_frame] is produced by the
    transformer, has no [dock] column and no list in [services], and a second
    run turns its ["fuel,repair"] into the empty string. *)
Lemma C2_counterexample :
  transform services_frame = Ok joined_services_frame /\
  transform joined_services_frame = Ok [("services", [VStr ""])] /\
  ~ (forall df df', transform df = Ok df' -> transform df' = Ok df').
Proof.
  split; [reflexivity |]. split; [reflexivity |].
  intros K. specialize (K services_frame joined_services_frame eq_refl).
  discriminate K.
Qed.

(** ** The validator *)

Lemma Qeq_bool_comm p q : Qeq_bool p q = Qeq_bool q p.
Proof.
  destruct (Qeq_bool p q) eqn:E1, (Qeq_bool q p) eqn:E2; try reflexivity.
  - apply Qeq_bool_iff in E1. symmetry in E1. apply Qeq_bool_iff in E1.
    congruence.
  - apply Qeq_bool_iff in E2. symmetry in E2. apply Qeq_bool_iff in E2.
    congruence.
Qed.

Lemma py_eqb_sym x y : py_eqb x y = py_eqb y x.
Proof.
  destruct x, y; simpl; try reflexivity;
    first [ apply Qeq_bool_comm | apply String.eqb_sym | apply Z.eqb_sym
          | now destruct b, b0 ].
Qed.

Lemma any_cons b marks : any (b :: marks) = b || any marks.
Proof. reflexivity. Qed.

Lemma duplicated_from_spec seen s :
  any (duplicated_from seen s) = true <->
  (exists j y x, nth_error s j = Some y /\ In x seen /\ key_eqb x y = true)
  \/ has_repeated s.
Proof.
  revert seen. induction s as [| a s IH]; intros seen.
  - split; [discriminate |].
    intros [(j & y & x & Hj & _) | (i & j & x & y & _ & Hi & _)];
      [destruct j | destruct i]; discriminate.
  - cbn [duplicated_from]. rewrite any_cons, orb_true_iff, IH. split.
    + intros [Hex | [(j & y & x & Hj & [<- | Hin] & Hxy) | Hdup]].
      * apply existsb_exists in Hex as (x & Hin & Hax).
        left. exists O, a, x. auto.
      * right. exists O, (S j), a, y. repeat split; auto. lia.
      * left. exists (S j), y, x. auto.
      * right. destruct Hdup as (i & j & x & y & Hij & Hi & Hj & Hxy).
        exists (S i), (S j), x, y. repeat split; auto. lia.
    + intros [(j & y & x & Hj & Hin & Hxy) | (i & j & x & y & Hij & Hi & Hj & Hxy)].
      * destruct j as [| j]; simpl in Hj.
        -- injection Hj as <-. left. apply existsb_exists.
           exists x. auto.
        -- right. left. exists j, y, x. simpl. auto.
      * destruct j as [| j]; [lia |]. simpl in Hj.
        destruct i as [| i]; simpl in Hi.
        -- injection Hi as <-. right. left. exists j, y, a. simpl. auto.
        -- right. right. exists i, j, x, y. repeat split; auto. lia.
Qed.

Lemma duplicated_spec s :
  any (duplicated s) = true <-> has_repeated s.
Proof.
  unfold duplicated. rewrite duplicated_from_spec. split; [| auto].
  intros [(j & y & x & _ & [] & _) | Hd]. exact Hd.
Qed.

(** On cells that can be hashed, the comparison of [Series.duplicated] is
    the equality of keys. *)
Lemma key_eqb_hashable a b :
  hashable a = true -> key_eqb a b = py_eqb a b.
Proof.
  destruct a; try discriminate; intros _; destruct b; reflexivity.
Qed.

Lemma has_repeated_hashable s :
  Forall (fun x => hashable x = true) s ->
  (has_repeated s <-> has_duplicate s).
Proof.
  intros H. rewrite Forall_forall in H.
  split; intros (i & j & x & y & Hij & Hi & Hj & Hxy);
    exists i, j, x, y; repeat split; auto;
    [rewrite <- key_eqb_hashable | rewrite key_eqb_hashable]; auto;
    apply H; eapply nth_error_In; exact Hi.
Qed.

Lemma compare_series_ok op bound s :
  forallb comparable s = true ->
  exists marks, compare_series op bound s = Ok marks.
Proof.
  unfold compare_series.
  induction s as [| x s IH]; simpl; intros H; [eauto |].
  apply andb_true_iff in H as [Hx Hs]. destruct (IH Hs) as (marks & ->).
  unfold compare_cell at 1. unfold comparable in Hx.
  destruct (isna x); [simpl; eauto |].
  destruct (as_number x); [simpl; eauto | discriminate].
Qed.

Lemma range_check_ok c lo hi msg df :
  column_ok comparable c df = true ->
  exists w, range_check c lo hi msg df = Ok w.
Proof.
  unfold column_ok, range_check, getitem. rewrite has_column_get.
  destruct (get_column c df) as [s |]; [| eauto].
  intros H. cbn [bind]. unfold outside_range.
  destruct (compare_series_ok Qlt_bool lo s H) as (below & ->).
  destruct (compare_series_ok Qgt_bool hi s H) as (above & ->).
  simpl. destruct (any below); simpl; eauto.
Qed.

Lemma filter_nil {A : Type} (f : A -> bool) l :
  (forall x, In x l -> f x = false) -> filter f l = [].
Proof.
  induction l as [| a l IH]; intros H; [reflexivity |].
  simpl. rewrite (H a (or_introl eq_refl)). apply IH.
  intros x Hx. apply H. right. exact Hx.
Qed.


Lemma no_repeat_by_marks s :
  any (duplicated s) = false -> ~ has_repeated s.
Proof. intros Hm Hd. apply duplicated_spec in Hd. congruence. Qed.

Lemma no_duplicate_by_marks s :
  Forall (fun x => hashable x = true) s ->
  any (duplicated s) = false -> ~ has_duplicate s.
Proof.
  intros Hh Hm Hd. apply (has_repeated_hashable s Hh) in Hd.
  exact (no_repeat_by_marks s Hm Hd).
Qed.




(** The soft range checks only log: 20000 fuel units and station 42 pass. *)
Example validate_soft_ranges :
  validate_data valid_frame
  = Ok (true,
        [(WARNING, "Found fuel_units outside expected range [0, 10000]");
         (WARNING, "Found station_id outside expected range [1000, 9999]");
         (INFO, "Data validation completed successfully")]).
Proof. reflexivity. Qed.

(** ** The tracker *)

Lemma py_eqb_trans x y z :
  py_eqb x y = true -> py_eqb y z = true -> py_eqb x z = true.
Proof.
  destruct x, y; simpl; try discriminate; destruct z; simpl;
    try discriminate; try reflexivity; intros H1 H2;
    repeat match goal with
    | b : bool |- _ => destruct b
    end; simpl in *; try discriminate; try reflexivity;
    repeat match goal with
    | H : Qeq_bool _ _ = true |- _ => apply Qeq_bool_iff in H
    | H : String.eqb _ _ = true |- _ => apply String.eqb_eq in H; subst
    | H : Z.eqb _ _ = true |- _ => apply Z.eqb_eq in H; subst
    end;
    try (apply Qeq_bool_iff); try assumption;
    try (apply String.eqb_refl); try (apply Z.eqb_refl);
    try (eapply Qeq_trans; eassumption);
    try (exfalso;
         match goal with
         | Ha : (?a == ?q)%Q, Hb : (?q == ?b)%Q |- _ =>
             pose proof (Qeq_trans _ _ _ Ha Hb) as K; discriminate K
         end).
Qed.

Lemma set_member_add x acc f :
  set_member f (if set_member x acc then acc else acc ++ [x]) = true <->
  set_member f acc = true \/ py_eqb f x = true.
Proof.
  unfold set_member. destruct (existsb (py_eqb x) acc) eqn:E.
  - split; [auto |]. intros [H | H]; [exact H |].
    apply existsb_exists in E as (a & Ha & Hxa).
    apply existsb_exists. exists a. split; [exact Ha |].
    eapply py_eqb_trans; eauto.
  - rewrite existsb_app. simpl. rewrite orb_false_r, orb_true_iff. tauto.
Qed.

Lemma first_fields_spec acc rows :
  Forall has_filename rows ->
  exists s,
    first_fields acc rows = Ok s /\
    forall f, set_member f s = true <->
      set_member f acc = true \/
      exists r x, In r rows /\ nth_error r 0 = Some x /\ py_eqb f x = true.
Proof.
  intros H. revert acc.
  induction H as [| r rows (x & Hx & Hh) _ IH]; intros acc.
  - exists acc. split; [reflexivity |]. intros f. split; [auto |].
    intros [Hf | (r & x & [] & _)]. exact Hf.
  - destruct r as [| x' r]; [discriminate |]. injection Hx as ->.
    simpl. unfold set_add. rewrite Hh. cbn [bind].
    destruct (IH (if set_member x acc then acc else acc ++ [x]))
      as (s & E & Hs).
    exists s. split; [exact E |]. intros f.
    rewrite Hs, set_member_add. split.
    + intros [[Hf | Hf] | (r' & y & Hin & Hy & Hfy)].
      * auto.
      * right. exists (x :: r), x. simpl. auto.
      * right. exists r', y. simpl. auto.
    + intros [Hf | (r' & y & [<- | Hin] & Hy & Hfy)].
      * auto.
      * simpl in Hy. injection Hy as <-. auto.
      * right. exists r', y. auto.
Qed.

(** C9.  Whatever the collaborator does, [get_processed_files] returns a
    set and raises nothing.  When the query raises, the set is empty.  When
    the query returns rows that each have a filename in first position, the
    set holds exactly those filenames. *)
Theorem C9_get_processed_files (hook : PostgresHook) :
  exists s,
    get_processed_files hook = Ok s /\
    (forall e, get_records hook processed_files_query = Raise e -> s = []) /\
    (forall rows,
       get_records hook processed_files_query = Ok rows ->
       Forall has_filename rows ->
       forall f, set_member f s = true <->
         exists r x, In r rows /\ nth_error r 0 = Some x /\
                     py_eqb f x = true).
Proof.
  unfold get_processed_files. fold processed_files_query.
  destruct (get_records hook processed_files_query) as [rows | e] eqn:Q;
    cbn [bind].
  - destruct (first_fields [] rows) as [s | e] eqn:F.
    + exists s. split; [reflexivity |]. split; [discriminate |].
      intros rows' E Hwf. injection E as <-.
      destruct (first_fields_spec [] rows Hwf) as (s' & F' & Hs).
      rewrite F in F'. injection F' as <-.
      intros f. rewrite Hs. split; [| auto].
      intros [Hf | Hf]; [discriminate Hf | exact Hf].
    + exists []. split; [reflexivity |]. split; [reflexivity |].
      intros rows' E Hwf. injection E as <-.
      destruct (first_fields_spec [] rows Hwf) as (s' & F' & _).
      congruence.
  - exists []. split; [reflexivity |]. split; [reflexivity |]. discriminate.
Qed.

Lemma C9_get_processed_files_witness :
  (exists s,
     get_processed_files failing_hook = Ok s /\ s = []) /\
  (exists s,
     get_processed_files answering_hook = Ok s /\
     set_member (VStr "b.parquet") s = true).
Proof.
  split.
  - destruct (C9_get_processed_files failing_hook) as (s & E & Hf & _).
    exists s. split; [exact E |]. exact (Hf OperationalError eq_refl).
  - destruct (C9_get_processed_files answering_hook) as (s & E & _ & Hr).
    exists s. split; [exact E |].
    apply (Hr _ eq_refl).
    + repeat constructor; eexists; split; reflexivity.
    + exists [VStr "b.parquet"], (VStr "b.parquet").
      split; [simpl; auto |]. split; reflexivity.
Defined.

Example get_processed_files_example :
  get_processed_files answering_hook
  = Ok [VStr "a.parquet"; VStr "b.parquet"] /\
  get_processed_files failing_hook = Ok [] /\
  get_processed_files {| get_records := fun _ => Ok [[VStr "a.parquet"]; []] |}
  = Ok [].
Proof. repeat split. Qed.

(** ** The transformer on objects: the input is left alone *)

Lemma length_update_nth {A : Type} n (a : A) l :
  List.length (Heap.update_nth n a l) = List.length l.
Proof.
  revert n. induction l as [| x l IH]; intros [| n]; simpl; auto.
Qed.

Lemma nth_error_update_nth_same {A : Type} n (a : A) l :
  (n < List.length l)%nat -> nth_error (Heap.update_nth n a l) n = Some a.
Proof.
  revert n. induction l as [| x l IH]; intros [| n]; simpl; intros H;
    try lia; [reflexivity |].
  apply IH. lia.
Qed.

Lemma nth_error_update_nth_other {A : Type} n m (a : A) l :
  m <> n -> nth_error (Heap.update_nth n a l) m = nth_error l m.
Proof.
  revert n m. induction l as [| x l IH]; intros [| n] [| m] H; simpl;
    try reflexivity; try congruence.
  apply IH. congruence.
Qed.

Lemma preserves_refl h : Heap.preserves h h.
Proof. split; auto. Qed.

Lemma preserves_alloc h0 h df :
  Heap.preserves h0 h -> Heap.preserves h0 (h ++ [df]).
Proof.
  intros [Hl Hn]. split.
  - rewrite length_app. simpl. lia.
  - intros l Hlt. rewrite nth_error_app1 by lia. auto.
Qed.

Lemma fresh_at_alloc h0 h df :
  Heap.preserves h0 h -> Heap.fresh_at h0 (h ++ [df]) (List.length h) df.
Proof.
  intros H. split; [apply preserves_alloc; exact H |].
  split; [apply H |].
  rewrite nth_error_app2, Nat.sub_diag by lia. reflexivity.
Qed.

Lemma deref_at h r df :
  nth_error h r = Some df -> Heap.deref r h = (Ok df, h).
Proof. unfold Heap.deref. intros ->. reflexivity. Qed.

Lemma contains_at h r df c :
  nth_error h r = Some df ->
  Heap.contains r c h = (Ok (has_column c df), h).
Proof.
  intros H. unfold Heap.contains, Heap.mbind. rewrite (deref_at _ _ _ H).
  reflexivity.
Qed.

Lemma getitem_at h r df c :
  nth_error h r = Some df -> Heap.getitem r c h = (getitem c df, h).
Proof.
  intros H. unfold Heap.getitem, Heap.mbind. rewrite (deref_at _ _ _ H).
  reflexivity.
Qed.

Lemma setitem_at h0 h r df c s :
  Heap.fresh_at h0 h r df ->
  exists h',
    Heap.setitem r c s h = (Ok tt, h') /\
    Heap.fresh_at h0 h' r (set_column c s df).
Proof.
  intros ([Hl Hn] & Hr & Hd).
  exists (Heap.update_nth r (set_column c s df) h). split.
  - unfold Heap.setitem, Heap.mbind. rewrite (deref_at _ _ _ Hd).
    reflexivity.
  - assert (r < List.length h)%nat by (apply nth_error_Some; congruence).
    split; [split |].
    + rewrite length_update_nth. exact Hl.
    + intros l Hlt. rewrite nth_error_update_nth_other by lia. auto.
    + split; [exact Hr |]. apply nth_error_update_nth_same. assumption.
Qed.

Lemma copy_at h r df :
  nth_error h r = Some df ->
  Heap.copy r h = (Ok (List.length h), h ++ [df]).
Proof.
  intros H. unfold Heap.copy, Heap.mbind. rewrite (deref_at _ _ _ H).
  reflexivity.
Qed.

Lemma fillna_at h r df fills :
  nth_error h r = Some df ->
  Heap.fillna r fills h = (Ok (List.length h), h ++ [fillna fills df]).
Proof.
  intros H. unfold Heap.fillna, Heap.mbind. rewrite (deref_at _ _ _ H).
  reflexivity.
Qed.

Lemma drop_at h r df c :
  nth_error h r = Some df -> has_column c df = true ->
  Heap.drop r c h = (Ok (List.length h), h ++ [drop_column c df]).
Proof.
  intros H Hc. unfold Heap.drop, Heap.mbind. rewrite (deref_at _ _ _ H), Hc.
  reflexivity.
Qed.

(** [convert_in_place] does to the object what [update_column] does to the
    frame, and touches nothing older than the object. *)
Lemma convert_in_place_at h0 h r df f c :
  Heap.fresh_at h0 h r df ->
  match update_column c f df with
  | Ok df' =>
      exists h', Heap.convert_in_place r f c h = (Ok tt, h') /\
                 Heap.fresh_at h0 h' r df'
  | Raise e =>
      exists h', Heap.convert_in_place r f c h = (Raise e, h') /\
                 Heap.preserves h0 h'
  end.
Proof.
  intros Hf. pose proof Hf as (Hp & Hr & Hd).
  unfold Heap.convert_in_place, Heap.mbind, update_column.
  rewrite (contains_at _ _ _ c Hd), has_column_get.
  destruct (get_column c df) as [s |] eqn:E.
  - rewrite (getitem_at _ _ _ c Hd). unfold getitem. rewrite E.
    unfold Heap.lift. destruct (f s) as [s' | e]; cbn [bind].
    + apply setitem_at. exact Hf.
    + exists h. auto.
  - exists h. auto.
Qed.

Lemma for_each_assign_at h0 g cols : forall h r df,
  Heap.fresh_at h0 h r df ->
  exists h',
    Heap.for_each cols
      (Heap.convert_in_place r (fun s => Ok (g s))) h = (Ok tt, h') /\
    Heap.fresh_at h0 h' r (fold_left (assign_column g) cols df).
Proof.
  induction cols as [| c cols IH]; intros h r df Hf.
  - exists h. auto.
  - pose proof (convert_in_place_at h0 h r df (fun s => Ok (g s)) c Hf)
      as K.
    assert (U : update_column c (fun s => Ok (g s)) df
                = Ok (assign_column g df c)).
    { unfold update_column, assign_column.
      destruct (get_column c df); reflexivity. }
    rewrite U in K. destruct K as (h1 & E1 & F1).
    destruct (IH h1 r _ F1) as (h2 & E2 & F2).
    exists h2. split; [| exact F2].
    simpl. unfold Heap.mbind. rewrite E1. exact E2.
Qed.

Lemma for_each_convert_at h0 g cols h r df :
  Heap.fresh_at h0 h r df ->
  exists h',
    Heap.for_each cols
      (Heap.convert_in_place r (fun s => Ok (map g s))) h = (Ok tt, h') /\
    Heap.fresh_at h0 h' r (fold_left (convert_column g) cols df).
Proof. exact (for_each_assign_at h0 (map g) cols h r df). Qed.

Section ObjectLevel.

Variable parse_number : string -> option Q.
Variable parse_datetime : string -> option instant.
Variable epoch_datetime : Q -> option Z.

Local Abbreviation num := (to_numeric_cell parse_number).
Local Abbreviation datetime := (to_datetime parse_datetime epoch_datetime).
Local Abbreviation date := (to_date parse_datetime epoch_datetime).

(** The rules after the dock rule, run on an object made after [h0]. *)
Lemma typed_rules_at h0 h r d :
  Heap.fresh_at h0 h r d ->
  exists res h',
    Heap.typed_rules parse_number parse_datetime epoch_datetime r h
      = (res, h') /\
    Heap.preserves h0 h' /\
    match res with
    | Ok r' =>
        (List.length h0 <= r')%nat /\
        exists d',
          nth_error h' r' = Some d' /\
          (let* d1 := update_column "services" (map_result join_services) d in
           let* d2 := update_column "visited_at" datetime d1 in
           let* d3 := update_column "arrival_date" date d2 in
           Ok (coerce_and_fill parse_number d3)) = Ok d'
    | Raise e =>
        (let* d1 := update_column "services" (map_result join_services) d in
         let* d2 := update_column "visited_at" datetime d1 in
         let* d3 := update_column "arrival_date" date d2 in
         Ok (coerce_and_fill parse_number d3)) = Raise e
    end.
Proof.
  intros F. unfold Heap.typed_rules. cbv beta delta [Heap.mbind].
  pose proof (convert_in_place_at h0 h r d (map_result join_services)
                "services" F) as K1.
  destruct (update_column "services" _ d) as [d1 | e];
    destruct K1 as (h1 & E1 & F1); rewrite E1; cbn [bind];
    [| exists (Raise e), h1; auto].
  pose proof (convert_in_place_at h0 h1 r d1 datetime "visited_at" F1)
    as K2.
  destruct (update_column "visited_at" _ d1) as [d2 | e];
    destruct K2 as (h2 & E2 & F2); rewrite E2; cbn [bind];
    [| exists (Raise e), h2; auto].
  pose proof (convert_in_place_at h0 h2 r d2 date "arrival_date" F2) as K3.
  destruct (update_column "arrival_date" _ d2) as [d3 | e];
    destruct K3 as (h3 & E3 & F3); rewrite E3; cbn [bind];
    [| exists (Raise e), h3; auto].
  destruct (for_each_assign_at h0 (to_numeric_series parse_number)
              decimal_columns h3 r d3 F3) as (h4 & E4 & F4).
  rewrite E4.
  destruct (for_each_assign_at h0 (to_numeric_series parse_number)
              float_columns h4 r _ F4) as (h5 & E5 & F5).
  rewrite E5.
  destruct (for_each_assign_at h0 (to_numeric_series parse_number)
              int_columns h5 r _ F5) as (h6 & E6 & F6).
  rewrite E6.
  destruct (for_each_convert_at h0 (fun x => VBool (truthy x)) bool_columns
              h6 r _ F6) as (h7 & E7 & F7).
  rewrite E7.
  destruct F7 as (P7 & L7 & N7).
  rewrite (fillna_at _ _ _ fill_defaults N7).
  eexists (Ok _), _. split; [reflexivity |].
  split; [apply preserves_alloc; exact P7 |].
  split; [destruct P7; lia |].
  eexists. split; [| reflexivity].
  rewrite nth_error_app2, Nat.sub_diag by lia. reflexivity.
Qed.

End ObjectLevel.

Lemma mbind_ok {A B : Type} (m : Heap.M A) (k : A -> Heap.M B) h a h1 :
  m h = (Ok a, h1) -> Heap.mbind m k h = k a h1.
Proof. unfold Heap.mbind. intros ->. reflexivity. Qed.

(** The dock rule on an object made after [h0]: two assignments in place,
    then a new object without the struct. *)
Lemma dock_rule_at h0 h r d dock :
  Heap.fresh_at h0 h r d ->
  get_column "dock" d = Some dock ->
  exists r' h',
    Heap.mbind (Heap.getitem r "dock") (fun dock =>
    Heap.mbind (Heap.setitem r "dock_bay" (map (dock_field "bay") dock))
      (fun _ =>
    Heap.mbind (Heap.getitem r "dock") (fun dock =>
    Heap.mbind (Heap.setitem r "dock_level" (map (dock_field "level") dock))
      (fun _ => Heap.drop r "dock")))) h = (Ok r', h') /\
    Heap.fresh_at h0 h' r' (extract_dock d).
Proof.
  intros F Hd. pose proof F as (_ & _ & N).
  rewrite (mbind_ok _ _ h dock h).
  2:{ rewrite (getitem_at _ _ _ "dock" N). unfold getitem. rewrite Hd.
      reflexivity. }
  destruct (setitem_at h0 h r d "dock_bay" (map (dock_field "bay") dock) F)
    as (h1 & E1 & F1).
  rewrite (mbind_ok _ _ h tt h1 E1).
  pose proof F1 as (_ & _ & N1).
  assert (Hd1 : get_column "dock"
                  (set_column "dock_bay" (map (dock_field "bay") dock) d)
                = Some dock)
    by (rewrite get_set_column; exact Hd).
  rewrite (mbind_ok _ _ h1 dock h1).
  2:{ rewrite (getitem_at _ _ _ "dock" N1). unfold getitem. rewrite Hd1.
      reflexivity. }
  destruct (setitem_at h0 h1 r _ "dock_level"
              (map (dock_field "level") dock) F1) as (h2 & E2 & F2).
  rewrite (mbind_ok _ _ h1 tt h2 E2).
  pose proof F2 as (P2 & _ & N2).
  rewrite (drop_at _ _ _ "dock" N2).
  2:{ rewrite has_column_get, get_set_column. simpl. rewrite Hd1.
      reflexivity. }
  eexists _, _. split; [reflexivity |].
  unfold extract_dock. rewrite Hd.
  apply fresh_at_alloc. exact P2.
Qed.

(** C8.  Run on the object [r] of a store [h], the transformer leaves [r]
    and every other object of [h] as they were; the reference it returns
    names an object that was not in [h], so it is not the input, and that
    object holds the transformed frame.  It raises exactly when the
    transformer on frames does. *)
Theorem C8_input_not_mutated
  (parse_number : string -> option Q)
  (parse_datetime : string -> option instant)
  (epoch_datetime : Q -> option Z)
  (h : Heap.heap) (r : Heap.ref) (df : DataFrame) :
  nth_error h r = Some df ->
  exists res h',
    Heap.transform_for_postgres parse_number parse_datetime epoch_datetime r h
      = (res, h') /\
    nth_error h' r = Some df /\
    (forall l, (l < List.length h)%nat -> nth_error h' l = nth_error h l) /\
    match res with
    | Ok r' =>
        r' <> r /\ (List.length h <= r')%nat /\
        exists df',
          nth_error h' r' = Some df' /\
          transform_for_postgres parse_number parse_datetime epoch_datetime df
            = Ok df'
    | Raise e =>
        transform_for_postgres parse_number parse_datetime epoch_datetime df
          = Raise e
    end.
Proof.
  intros Hd.
  assert (Hr : (r < List.length h)%nat) by (apply nth_error_Some; congruence).
  assert (F1 : Heap.fresh_at h (h ++ [df]) (List.length h) df)
    by (apply fresh_at_alloc, preserves_refl).
  pose proof F1 as (_ & _ & N1).
  assert (K : exists r2 h2,
             Heap.fresh_at h h2 r2 (extract_dock df) /\
             Heap.transform_for_postgres parse_number parse_datetime
               epoch_datetime r h
             = Heap.typed_rules parse_number parse_datetime epoch_datetime
                 r2 h2).
  { unfold Heap.transform_for_postgres.
    rewrite (mbind_ok _ _ h _ _ (copy_at h r df Hd)).
    rewrite (mbind_ok _ _ _ _ _ (contains_at _ _ _ "dock" N1)).
    rewrite has_column_get.
    destruct (get_column "dock" df) as [dock |] eqn:Ed.
    - destruct (dock_rule_at h _ _ _ dock F1 Ed) as (r2 & h2 & E2 & F2).
      rewrite (mbind_ok _ _ _ _ _ E2).
      exists r2, h2. split; [exact F2 | reflexivity].
    - exists (List.length h), (h ++ [df]). split; [| reflexivity].
      unfold extract_dock. rewrite Ed. exact F1. }
  destruct K as (r2 & h2 & F2 & K).
  destruct (typed_rules_at parse_number parse_datetime epoch_datetime
              h h2 r2 _ F2) as (res & h' & E & P & R).
  exists res, h'. split; [rewrite K; exact E |].
  destruct P as [Pl Pn].
  split; [rewrite (Pn r Hr); exact Hd |].
  split; [exact Pn |].
  destruct res as [r' | e].
  - destruct R as (Hle & d' & Hn & Hp).
    split; [lia |]. split; [exact Hle |]. exists d'. split; [exact Hn |].
    exact Hp.
  - exact R.
Qed.

Lemma C8_input_not_mutated_witness :
  nth_error [docked_frame] 0 = Some docked_frame /\
  exists res h',
    Heap.transform_for_postgres parse_decimal parse_iso_date epoch_ns
      0%nat [docked_frame] = (res, h') /\
    nth_error h' 0 = Some docked_frame.
Proof.
  assert (H : nth_error [docked_frame] 0 = Some docked_frame) by reflexivity.
  split; [exact H |].
  destruct (C8_input_not_mutated parse_decimal parse_iso_date epoch_ns
              [docked_frame] 0%nat docked_frame H)
    as (res & h' & E & Hin & _).
  exists res, h'. split; [exact E | exact Hin].
Defined.

(** On a store holding one frame with a dock column: the working copy is
    object 1, [drop] makes object 2, [fillna] makes object 3, which is
    returned; object 0, the input, still has its dock column. *)
Example object_level_example :
  exists h',
    Heap.transform_for_postgres parse_decimal parse_iso_date epoch_ns
      0%nat [docked_frame] = (Ok 3%nat, h') /\
    List.length h' = 4%nat /\
    nth_error h' 0 = Some docked_frame /\
    option_map (get_column "dock") (nth_error h' 3) = Some None.
Proof. eexists. repeat split. Qed.


(** * Further properties of the code *)

(** ** Rows and labels through the transformer *)

Lemma rectangular_get n df c s :
  rectangular n df -> get_column c df = Some s -> List.length s = n.
Proof.
  unfold rectangular. induction 1 as [| [c' s'] df Hc _ IH]; simpl;
    [discriminate |].
  destruct (String.eqb c c'); [intros E; injection E as <-; exact Hc | exact IH].
Qed.

Lemma rectangular_set n df c s :
  rectangular n df -> List.length s = n -> rectangular n (set_column c s df).
Proof.
  unfold rectangular. intros H Hs.
  induction H as [| [c' s'] df Hc Ht IH]; simpl.
  - constructor; [exact Hs | constructor].
  - destruct (String.eqb c c'); constructor; auto.
Qed.

Lemma rectangular_drop n df c :
  rectangular n df -> rectangular n (drop_column c df).
Proof.
  unfold rectangular, drop_column. intros H.
  apply Forall_forall. intros cs Hin. apply filter_In in Hin as [Hin _].
  revert cs Hin. apply Forall_forall. exact H.
Qed.

Lemma rectangular_convert n f df c :
  rectangular n df -> rectangular n (convert_column f df c).
Proof.
  intros H. unfold convert_column.
  destruct (get_column c df) as [s |] eqn:E; [| exact H].
  apply rectangular_set; [exact H |].
  rewrite length_map. eapply rectangular_get; eauto.
Qed.

Lemma rectangular_fold_convert n f cols : forall df,
  rectangular n df -> rectangular n (fold_left (convert_column f) cols df).
Proof.
  induction cols as [| c cols IH]; intros df H; simpl; [exact H |].
  apply IH, rectangular_convert, H.
Qed.

Lemma rectangular_fold_assign n g cols :
  (forall s, List.length (g s) = List.length s) ->
  forall df,
  rectangular n df -> rectangular n (fold_left (assign_column g) cols df).
Proof.
  intros Hg. induction cols as [| c cols IH]; intros df H; simpl; [exact H |].
  apply IH. unfold assign_column.
  destruct (get_column c df) as [s |] eqn:E; [| exact H].
  apply rectangular_set; [exact H |].
  rewrite Hg. eapply rectangular_get; eauto.
Qed.

Lemma rectangular_fillna n fills : forall df,
  rectangular n df -> rectangular n (fillna fills df).
Proof.
  unfold fillna.
  induction fills as [| [c v] fills IH]; intros df H; simpl; [exact H |].
  apply IH. exact (rectangular_convert n (fill_cell v) df c H).
Qed.

Lemma rectangular_update n f df df' c :
  (forall s s', f s = Ok s' -> List.length s' = List.length s) ->
  update_column c f df = Ok df' ->
  rectangular n df -> rectangular n df'.
Proof.
  unfold update_column. intros Hf H Hr.
  destruct (get_column c df) as [s |] eqn:E;
    [| injection H as <-; exact Hr].
  destruct (f s) as [s' |] eqn:Es; simpl in H; [| discriminate].
  injection H as <-. apply rectangular_set; [exact Hr |].
  rewrite (Hf _ _ Es). eapply rectangular_get; eauto.
Qed.

Lemma rectangular_extract_dock n df :
  rectangular n df -> rectangular n (extract_dock df).
Proof.
  intros H. unfold extract_dock.
  destruct (get_column "dock" df) as [dock |] eqn:E; [| exact H].
  pose proof (rectangular_get _ _ _ _ H E) as L.
  apply rectangular_drop.
  repeat apply rectangular_set; try exact H; rewrite length_map; exact L.
Qed.

Lemma rectangular_nrows n df :
  rectangular n df -> df <> [] -> nrows df = n.
Proof.
  intros H Hne. destruct df as [| [c s] df]; [congruence |].
  inversion H; subst. reflexivity.
Qed.

(** X1.  The transformer keeps the rows: from a frame whose columns all have
    [n] rows it makes a frame whose columns all have [n] rows. *)
Theorem transform_keeps_row_count
  (parse_number : string -> option Q)
  (parse_datetime : string -> option instant)
  (epoch_datetime : Q -> option Z)
  (n : nat) (df df' : DataFrame) :
  rectangular n df ->
  transform_for_postgres parse_number parse_datetime epoch_datetime df
    = Ok df' ->
  rectangular n df' /\ (df' <> [] -> nrows df' = n).
Proof.
  intros Hr H.
  destruct (transform_inv _ _ _ _ _ H) as (d1 & d2 & d3 & H1 & H2 & H3 & ->).
  assert (R : rectangular n (coerce_and_fill parse_number d3)).
  { unfold coerce_and_fill, to_numeric, astype_bool.
    apply rectangular_fillna. repeat first [ apply rectangular_fold_convert
                 | apply rectangular_fold_assign;
                   [apply to_numeric_series_length |] ].
    eapply rectangular_update; [| exact H3 |].
    { intros s s' E. unfold to_date in E.
      apply bind_ok_inv in E as (ts & Ets & E). injection E as <-.
      rewrite length_map. eapply map_result_length; exact Ets. }
    eapply rectangular_update; [| exact H2 |].
    { intros s s'. apply map_result_length. }
    eapply rectangular_update; [| exact H1 |].
    { intros s s'. apply map_result_length. }
    apply rectangular_extract_dock. exact Hr. }
  split; [exact R |]. apply rectangular_nrows. exact R.
Qed.

Lemma transform_keeps_row_count_witness :
  rectangular 3 docked_frame /\
  exists df', transform docked_frame = Ok df' /\ rectangular 3 df'.
Proof.
  assert (Hr : rectangular 3 docked_frame) by (repeat constructor).
  split; [exact Hr |]. eexists. split; [reflexivity |].
  exact (proj1 (transform_keeps_row_count parse_decimal parse_iso_date
                  epoch_ns 3 docked_frame _ Hr eq_refl)).
Defined.

Lemma columns_set_column c s df :
  columns (set_column c s df) = add_label c (columns df).
Proof.
  unfold add_label, columns.
  induction df as [| [c' s'] df IH]; simpl; [reflexivity |].
  destruct (String.eqb c c'); simpl; [reflexivity |].
  rewrite IH. destruct (existsb (String.eqb c) (map fst df)); reflexivity.
Qed.

Lemma columns_drop_column c df :
  columns (drop_column c df)
  = filter (fun c' => negb (String.eqb c c')) (columns df).
Proof.
  unfold columns, drop_column.
  induction df as [| [c' s'] df IH]; simpl; [reflexivity |].
  destruct (String.eqb c c'); simpl; rewrite IH; reflexivity.
Qed.

Lemma add_label_present c df s :
  get_column c df = Some s -> add_label c (columns df) = columns df.
Proof.
  intros E. unfold add_label. fold (has_column c df).
  rewrite has_column_get, E. reflexivity.
Qed.

Lemma columns_convert_column f df c :
  columns (convert_column f df c) = columns df.
Proof.
  unfold convert_column. destruct (get_column c df) as [s |] eqn:E;
    [| reflexivity].
  rewrite columns_set_column. eapply add_label_present; eauto.
Qed.

Lemma columns_fold_convert f cols : forall df,
  columns (fold_left (convert_column f) cols df) = columns df.
Proof.
  induction cols as [| c cols IH]; intros df; simpl; [reflexivity |].
  rewrite IH. apply columns_convert_column.
Qed.

Lemma columns_fold_assign g cols : forall df,
  columns (fold_left (assign_column g) cols df) = columns df.
Proof.
  induction cols as [| c cols IH]; intros df; simpl; [reflexivity |].
  rewrite IH. unfold assign_column.
  destruct (get_column c df) as [s |] eqn:E; [| reflexivity].
  rewrite columns_set_column. eapply add_label_present; eauto.
Qed.

Lemma columns_fillna fills : forall df, columns (fillna fills df) = columns df.
Proof.
  unfold fillna.
  induction fills as [| [c v] fills IH]; intros df; simpl; [reflexivity |].
  rewrite IH. exact (columns_convert_column (fill_cell v) df c).
Qed.

Lemma columns_update_column c f df df' :
  update_column c f df = Ok df' -> columns df' = columns df.
Proof.
  unfold update_column. destruct (get_column c df) as [s |] eqn:E.
  - destruct (f s) as [s' |]; simpl; intros H; [| discriminate].
    injection H as <-. rewrite columns_set_column.
    eapply add_label_present; eauto.
  - intros H. injection H as <-. reflexivity.
Qed.

(** X2.  The labels of the output, in order: those of the input, except
    that a [dock] column is removed and [dock_bay] and [dock_level] are put
    last when the input has a [dock] column and does not have them yet. *)
Theorem transform_output_labels
  (parse_number : string -> option Q)
  (parse_datetime : string -> option instant)
  (epoch_datetime : Q -> option Z)
  (df df' : DataFrame) :
  transform_for_postgres parse_number parse_datetime epoch_datetime df
    = Ok df' ->
  columns df' =
  if has_column "dock" df
  then filter (fun c => negb (String.eqb "dock" c))
         (add_label "dock_level" (add_label "dock_bay" (columns df)))
  else columns df.
Proof.
  intros H.
  destruct (transform_inv _ _ _ _ _ H) as (d1 & d2 & d3 & H1 & H2 & H3 & ->).
  unfold coerce_and_fill, to_numeric, astype_bool.
  rewrite columns_fillna, !columns_fold_convert, !columns_fold_assign.
  rewrite (columns_update_column _ _ _ _ H3),
    (columns_update_column _ _ _ _ H2), (columns_update_column _ _ _ _ H1).
  rewrite has_column_get. unfold extract_dock.
  destruct (get_column "dock" df); [| reflexivity].
  rewrite columns_drop_column, !columns_set_column. reflexivity.
Qed.

Lemma transform_output_labels_witness :
  transform docked_frame
  = Ok [("transaction_id", [VStr "t1"; VStr "t2"; VStr "t3"]);
        ("services", [VStr "fuel,repair"; VStr ""; VStr ""]);
        ("dock_bay", [VStr "A"; VNone; VStr "B"]);
        ("dock_level", [VNum 2; VNone; VNone])] /\
  ["transaction_id"; "services"; "dock_bay"; "dock_level"]
  = filter (fun c => negb (String.eqb "dock" c))
      (add_label "dock_level" (add_label "dock_bay" (columns docked_frame))).
Proof.
  split; [reflexivity |].
  exact (transform_output_labels parse_decimal parse_iso_date epoch_ns
           docked_frame _ eq_refl).
Defined.

(** ** When the transformer returns, and what it returns *)

Lemma column_ok_pointwise p p' c df :
  (forall x, p x = p' x) -> column_ok p c df = column_ok p' c df.
Proof.
  intros H. unfold column_ok. destruct (get_column c df) as [s |];
    [| reflexivity].
  induction s as [| x s IH]; simpl; [reflexivity |]. rewrite H, IH.
  reflexivity.
Qed.

Lemma joinable_services_cell_ok x : joinable x = services_cell_ok x.
Proof.
  unfold joinable, services_cell_ok.
  destruct x as [ | | | | | | l | | | ]; try reflexivity.
  destruct l as [| y l]; [reflexivity |].
  unfold join_services.
  destruct (all_strings (y :: l)) eqn:E.
  - destruct (all_strings_map _ E) as [strs ->].
    rewrite str_join_strings. reflexivity.
  - rewrite (str_join_not_strings _ _ E). reflexivity.
Qed.

Lemma datetime_like_date_cell_ok parse_datetime epoch_datetime x :
  datetime_like parse_datetime epoch_datetime x
  = date_cell_ok parse_datetime epoch_datetime x.
Proof.
  unfold datetime_like, date_cell_ok. destruct x; simpl; try reflexivity.
  - destruct (epoch_datetime q); reflexivity.
  - destruct (parse_datetime s); reflexivity.
Qed.

Lemma map_result_join_raises s e :
  map_result join_services s = Raise e -> e = TypeError.
Proof.
  revert e. induction s as [| x s IH]; intros e M; [discriminate M |].
  simpl in M. destruct (join_services x) as [y | e'] eqn:Jx.
  - cbn [bind] in M.
    destruct (map_result join_services s) as [ys | e''];
      [discriminate M |].
    cbn [bind] in M. injection M as <-. eapply IH. reflexivity.
  - cbn [bind] in M. injection M as <-.
    eapply join_services_raises. exact Jx.
Qed.

(** X3.  On a frame with no dock column and no column of the date and
    boolean rules, the transformer returns exactly when no services cell is
    a list with an element that is not a string, on every pandas release;
    otherwise it raises [TypeError].  No numeric column and no column
    without a rule can make it raise. *)
Theorem transform_returns_iff_services_join
  (parse_number : string -> option Q)
  (parse_datetime : string -> option instant)
  (epoch_datetime : Q -> option Z)
  (df : DataFrame) :
  (forall c,
     In c ["dock"; "dock_bay"; "dock_level"; "visited_at"; "arrival_date";
           "is_emergency"] ->
     get_column c df = None) ->
  ((exists df',
      transform_for_postgres parse_number parse_datetime epoch_datetime df
        = Ok df' /\
      Pandas2.transform_for_postgres parse_number parse_datetime
        epoch_datetime df = Ok df') <->
   column_ok services_cell_ok "services" df = true) /\
  (column_ok services_cell_ok "services" df = false ->
   transform_for_postgres parse_number parse_datetime epoch_datetime df
     = Raise TypeError /\
   Pandas2.transform_for_postgres parse_number parse_datetime epoch_datetime
     df = Raise TypeError).
Proof.
  intros Hn.
  rewrite <- (column_ok_pointwise _ _ "services" df joinable_services_cell_ok).
  pose proof (transform_is_ok parse_number parse_datetime epoch_datetime df)
    as E.
  assert (N : forall c p,
              In c ["dock"; "dock_bay"; "dock_level"; "visited_at";
                    "arrival_date"; "is_emergency"] ->
              column_ok p c df = true).
  { intros c p Hc. unfold column_ok. rewrite (Hn c Hc). reflexivity. }
  rewrite (N "visited_at"), (N "arrival_date"), !andb_true_r in E
    by (simpl; tauto).
  assert (D : has_dock_columns df = false).
  { unfold has_dock_columns. rewrite !has_column_get.
    rewrite (Hn "dock"), (Hn "dock_bay"), (Hn "dock_level");
      simpl; tauto. }
  pose proof (pandas2_transform parse_number parse_datetime epoch_datetime df)
    as P.
  rewrite D in P.
  split; [split |].
  - intros (df' & H & _). rewrite H in E. symmetry. exact E.
  - intros J. rewrite J in E.
    destruct (transform_for_postgres _ _ _ df) as [df' | e];
      [| discriminate E].
    exists df'. split; [reflexivity | exact P].
  - intros J. rewrite J in E.
    assert (R : transform_for_postgres parse_number parse_datetime
                  epoch_datetime df = Raise TypeError).
    { clear E P. unfold transform_for_postgres.
      assert (E0 : extract_dock df = df)
        by (unfold extract_dock; rewrite (Hn "dock"); simpl; tauto).
      rewrite E0.
      pose proof (is_ok_update_map "services" join_services df) as O.
      fold joinable in O. rewrite J in O.
      destruct (update_column "services" (map_result join_services) df)
        as [d1 | e] eqn:U; [discriminate O |].
      cbn [bind]. f_equal.
      unfold update_column in U.
      destruct (get_column "services" df) as [s |]; [| discriminate U].
      destruct (map_result join_services s) as [out | e'] eqn:M;
        cbn [bind] in U; [discriminate U |].
      injection U as <-. eapply map_result_join_raises. exact M. }
    split; [exact R |]. rewrite P, R. reflexivity.
Qed.

Lemma transform_returns_iff_services_join_witness :
  (exists df',
     transform services_frame = Ok df' /\
     Pandas2.transform services_frame = Ok df') /\
  transform mixed_services_frame = Raise TypeError.
Proof.
  assert (H1 : forall c,
             In c ["dock"; "dock_bay"; "dock_level"; "visited_at";
                   "arrival_date"; "is_emergency"] ->
             get_column c services_frame = None).
  { intros c Hin. simpl in Hin.
    repeat (destruct Hin as [<- | Hin]; [reflexivity |]). destruct Hin. }
  assert (H2 : forall c,
             In c ["dock"; "dock_bay"; "dock_level"; "visited_at";
                   "arrival_date"; "is_emergency"] ->
             get_column c mixed_services_frame = None).
  { intros c Hin. simpl in Hin.
    repeat (destruct Hin as [<- | Hin]; [reflexivity |]). destruct Hin. }
  split.
  - exact (proj2 (proj1 (transform_returns_iff_services_join parse_decimal
                           parse_iso_date epoch_ns services_frame H1))
             eq_refl).
  - exact (proj1 (proj2 (transform_returns_iff_services_join parse_decimal
                           parse_iso_date epoch_ns mixed_services_frame H2)
                    eq_refl)).
Defined.

(** With the reference grammars, ["yesterday"] in [visited_at] stops the
    transformer, while ["abc"] in a numeric column would not. *)
Example unparsable_date_raises :
  transform bad_date_frame = Raise ValueError /\
  exists df', transform (drop_column "visited_at" bad_date_frame) = Ok df'.
Proof. split; [reflexivity | eexists; reflexivity]. Qed.

(** X4.  What the transformer returns is typed by column: there is no
    [dock] column, every services cell is a string, every cell of a numeric
    column is a number, a boolean or NaN, every [is_emergency] cell is a
    boolean, [visited_at] holds timestamps or NaT and [arrival_date] dates
    or NaT. *)
Theorem transform_output_is_typed
  (parse_number : string -> option Q)
  (parse_datetime : string -> option instant)
  (epoch_datetime : Q -> option Z)
  (df df' : DataFrame) :
  transform_for_postgres parse_number parse_datetime epoch_datetime df
    = Ok df' ->
  get_column "dock" df' = None /\
  forall c s x, get_column c df' = Some s -> In x s ->
    (c = "services" -> exists t, x = VStr t) /\
    (In c numeric_columns ->
       (exists q, x = VNum q) \/ (exists b, x = VBool b) \/ x = VNaN) /\
    (c = "is_emergency" -> exists b, x = VBool b) /\
    (c = "visited_at" -> (exists ns, x = VTimestamp ns) \/ x = VNaT) /\
    (c = "arrival_date" -> (exists d, x = VDate d) \/ x = VNaT).
Proof.
  intros H.
  destruct (transform_output_normalized _ _ _ _ _ H) as (Hd & Hn & _).
  split; [exact Hd |].
  intros c s x Hs Hx.
  pose proof (proj1 (Forall_forall _ _) (Hn c s Hs) x Hx) as N.
  repeat split.
  - intros ->. simpl in N. destruct x; try discriminate. eauto.
  - intros Hc.
    assert (N' : match x with VBool _ | VNum _ | VNaN => true | _ => false end
                 = true)
      by (simpl in Hc; intuition subst; exact N).
    destruct x; try discriminate; eauto.
  - intros ->. simpl in N. destruct x; try discriminate. eauto.
  - intros ->. simpl in N. destruct x; try discriminate; eauto.
  - intros ->. simpl in N. destruct x; try discriminate; eauto.
Qed.

Lemma transform_output_is_typed_witness :
  exists df' s,
    transform raw_batch_frame = Ok df' /\
    get_column "dock" df' = None /\
    get_column "services" df' = Some s /\
    (forall x, In x s -> exists t, x = VStr t).
Proof.
  assert (E : exists out, transform raw_batch_frame = Ok out)
    by (eexists; reflexivity).
  destruct E as (out & E).
  destruct (transform_output_is_typed parse_decimal parse_iso_date epoch_ns
              raw_batch_frame out E) as (Hd & Hcells).
  destruct (get_column "services" out) as [s |] eqn:G.
  - exists out, s. split; [exact E |]. split; [exact Hd |].
    split; [exact G |].
    intros x Hx. exact (proj1 (Hcells "services" s x G Hx) eq_refl).
  - exfalso. revert G. injection E as <-. discriminate.
Defined.

(** ** The date rules and the boolean rule, cell by cell *)

Lemma get_transform_dates
  (parse_number : string -> option Q)
  (parse_datetime : string -> option instant)
  (epoch_datetime : Q -> option Z) df df' :
  transform_for_postgres parse_number parse_datetime epoch_datetime df
    = Ok df' ->
  get_column "visited_at" df'
  = converted (to_datetime parse_datetime epoch_datetime)
      (get_column "visited_at" df) /\
  get_column "arrival_date" df'
  = converted (to_date parse_datetime epoch_datetime)
      (get_column "arrival_date" df).
Proof.
  intros H.
  destruct (transform_inv _ _ _ _ _ H) as (d1 & d2 & d3 & H1 & H2 & H3 & ->).
  rewrite !get_coerce_and_fill. simpl.
  rewrite (get_raising_steps _ _ "visited_at" _ _ _ _ H1 H2 H3).
  rewrite (get_raising_steps _ _ "arrival_date" _ _ _ _ H1 H2 H3).
  split; reflexivity.
Qed.


Lemma converted_present f s out' :
  converted f (Some s) = out' ->
  (exists y, f s = Ok y) -> exists out, out' = Some out /\ f s = Ok out.
Proof.
  unfold converted. intros <- (y & ->). eauto.
Qed.

(** X5.  The [visited_at] rule, when the transformer returns: the column
    keeps its rows; a missing cell becomes NaT, a timestamp is kept, a date
    becomes its midnight, and a string of the date grammar becomes the
    instant it denotes. *)
Theorem visited_at_rule
  (parse_number : string -> option Q)
  (parse_datetime : string -> option instant)
  (epoch_datetime : Q -> option Z)
  (df df' : DataFrame) (s : Series) :
  transform_for_postgres parse_number parse_datetime epoch_datetime df
    = Ok df' ->
  get_column "visited_at" df = Some s ->
  exists out,
    get_column "visited_at" df' = Some out /\
    List.length out = List.length s /\
    forall i x, nth_error s i = Some x ->
      exists y, nth_error out i = Some y /\
        (isna x = true -> y = VNaT) /\
        (forall ns, x = VTimestamp ns -> y = VTimestamp ns) /\
        (forall d, x = VDate d -> y = VTimestamp (d * ns_per_day)) /\
        (forall t i', x = VStr t -> parse_datetime t = Some i' ->
           y = value_of_instant i').
Proof.
  intros H Hs.
  destruct (get_transform_dates _ _ _ _ _ H) as [G _].
  rewrite Hs in G.
  pose proof (transform_output_normalized _ _ _ _ _ H) as _.
  unfold converted in G.
  destruct (to_datetime parse_datetime epoch_datetime s) as [out |] eqn:E.
  - exists out. split; [exact G |].
    split; [exact (map_result_length _ _ _ E) |].
    intros i x Hx.
    destruct (map_result_nth _ _ _ _ _ E Hx) as (y & Hy & Hn).
    exists y. split; [exact Hn |].
    repeat split.
    + intros Hna. destruct x; try discriminate; simpl in Hy; congruence.
    + intros ns ->. simpl in Hy. congruence.
    + intros d ->. simpl in Hy. congruence.
    + intros t i' -> Hp. simpl in Hy. rewrite Hp in Hy. congruence.
  - exfalso.
    destruct (transform_inv _ _ _ _ _ H) as (d1 & d2 & d3 & H1 & H2 & H3 & _).
    pose proof (get_update_column "visited_at" _ _ _ _ H1) as G1.
    simpl in G1. rewrite get_extract_dock in G1. simpl in G1.
    assert (G1' : get_column "visited_at" d1 = Some s)
      by (rewrite G1; destruct (get_column "dock" df); exact Hs).
    unfold update_column in H2. rewrite G1', E in H2. discriminate H2.
Qed.

Lemma visited_at_rule_witness :
  get_column "visited_at" dated_frame
  = Some [VStr "2024-03-01"; VNone; VDate 1] /\
  exists df' out,
    transform dated_frame = Ok df' /\
    get_column "visited_at" df' = Some out /\
    List.length out = 3%nat.
Proof.
  split; [reflexivity |].
  eexists.
  destruct (visited_at_rule parse_decimal parse_iso_date epoch_ns
              dated_frame _ _ eq_refl eq_refl) as (out & G & L & _).
  exists out. split; [reflexivity |]. split; [exact G | exact L].
Defined.

(** X6.  The [arrival_date] rule, when the transformer returns: the
    column keeps its rows, a missing cell becomes NaT, and a date comes back
    as the same date. *)
Theorem arrival_date_rule
  (parse_number : string -> option Q)
  (parse_datetime : string -> option instant)
  (epoch_datetime : Q -> option Z)
  (df df' : DataFrame) (s : Series) :
  transform_for_postgres parse_number parse_datetime epoch_datetime df
    = Ok df' ->
  get_column "arrival_date" df = Some s ->
  exists out,
    get_column "arrival_date" df' = Some out /\
    List.length out = List.length s /\
    forall i x, nth_error s i = Some x ->
      exists y, nth_error out i = Some y /\
        (isna x = true -> y = VNaT) /\
        (forall d, x = VDate d -> y = VDate d).
Proof.
  intros H Hs.
  destruct (get_transform_dates _ _ _ _ _ H) as [_ G].
  rewrite Hs in G. unfold converted in G.
  destruct (to_date parse_datetime epoch_datetime s) as [out |] eqn:E.
  - unfold to_date in E. apply bind_ok_inv in E as (ts & Ets & E).
    injection E as <-.
    exists (map dt_date ts). split; [exact G |].
    split; [rewrite length_map; exact (map_result_length _ _ _ Ets) |].
    intros i x Hx.
    destruct (map_result_nth _ _ _ _ _ Ets Hx) as (y & Hy & Hn).
    exists (dt_date y). split; [apply nth_error_map_some; exact Hn |].
    split.
    + intros Hna. destruct x; try discriminate; simpl in Hy;
        injection Hy as <-; reflexivity.
    + intros d ->. simpl in Hy. injection Hy as <-. simpl.
      rewrite Z.div_mul by discriminate. reflexivity.
  - exfalso.
    destruct (transform_inv _ _ _ _ _ H) as (d1 & d2 & d3 & H1 & H2 & H3 & _).
    pose proof (get_update_column "arrival_date" _ _ _ _ H1) as G1.
    pose proof (get_update_column "arrival_date" _ _ _ _ H2) as G2.
    simpl in G1, G2. rewrite get_extract_dock in G1. simpl in G1.
    assert (G2' : get_column "arrival_date" d2 = Some s)
      by (rewrite G2, G1; destruct (get_column "dock" df); exact Hs).
    unfold update_column in H3. rewrite G2', E in H3. discriminate H3.
Qed.

Lemma arrival_date_rule_witness :
  get_column "arrival_date" dated_frame
  = Some [VTimestamp 86400000000001; VNaN; VStr "1970-01-02"] /\
  exists df' out,
    transform dated_frame = Ok df' /\
    get_column "arrival_date" df' = Some out /\
    List.length out = 3%nat /\
    nth_error out 1 = Some VNaT.
Proof.
  split; [reflexivity |].
  assert (E : exists d, transform dated_frame = Ok d)
    by (eexists; reflexivity).
  destruct E as (d & E).
  destruct (arrival_date_rule parse_decimal parse_iso_date epoch_ns
              dated_frame d _ E eq_refl) as (out & G & L & Hcells).
  destruct (Hcells 1%nat VNaN eq_refl) as (y & Hy & Hna & _).
  exists d, out. split; [exact E |]. split; [exact G |]. split; [exact L |].
  rewrite Hy. f_equal. exact (Hna eq_refl).
Defined.

Example date_rules_example :
  transform dated_frame
  = Ok [("visited_at",
         [VTimestamp 1709251200000000000; VNaT; VTimestamp 86400000000000]);
        ("arrival_date", [VDate 1; VNaT; VDate 1]);
        ("is_emergency", [VBool true; VBool false; VBool false])].
Proof. reflexivity. Qed.

(** X7.  The boolean rule is Python truthiness, when the transformer
    returns: in [is_emergency] every non-empty string comes out True,
    ["False"] included, the empty string comes out False, and a number
    comes out True exactly when it is not zero. *)
Theorem is_emergency_truthiness
  (parse_number : string -> option Q)
  (parse_datetime : string -> option instant)
  (epoch_datetime : Q -> option Z)
  (df df' : DataFrame) (s : Series) :
  transform_for_postgres parse_number parse_datetime epoch_datetime df
    = Ok df' ->
  get_column "is_emergency" df = Some s ->
  exists out,
    get_column "is_emergency" df' = Some out /\
    List.length out = List.length s /\
    forall i x, nth_error s i = Some x ->
      exists b, nth_error out i = Some (VBool b) /\
        (forall t, x = VStr t -> (b = true <-> t <> "")) /\
        (forall q, x = VNum q -> (b = true <-> ~ (q == 0)%Q)) /\
        (forall b', x = VBool b' -> b = b').
Proof.
  intros H Hs.
  exists (map (fun x => VBool (truthy x)) s).
  rewrite (get_transform_is_emergency _ _ _ _ _ H), Hs.
  split; [reflexivity |]. split; [apply length_map |].
  intros i x Hx. exists (truthy x).
  split; [exact (nth_error_map_some (fun x => VBool (truthy x)) _ _ _ Hx) |].
  split; [| split].
  - intros t ->. simpl. split.
    + intros E ->. discriminate E.
    + intros Hne. destruct (String.eqb_spec t ""); [contradiction | reflexivity].
  - intros q ->. simpl. split.
    + intros E Hq. apply Qeq_bool_iff in Hq. rewrite Hq in E. discriminate E.
    + intros Hne. destruct (Qeq_bool q 0) eqn:Eq; [| reflexivity].
      apply Qeq_bool_iff in Eq. contradiction.
  - intros b' ->. reflexivity.
Qed.

Lemma is_emergency_truthiness_witness :
  get_column "is_emergency" dated_frame
  = Some [VStr "False"; VNum 0; VStr ""] /\
  exists df' out,
    transform dated_frame = Ok df' /\
    get_column "is_emergency" df' = Some out /\
    List.length out = 3%nat.
Proof.
  split; [reflexivity |].
  eexists.
  destruct (is_emergency_truthiness parse_decimal parse_iso_date epoch_ns
              dated_frame _ _ eq_refl eq_refl) as (out & G & L & _).
  exists out. split; [reflexivity |]. split; [exact G | exact L].
Defined.

(** ** The defaults of [fillna] *)



(** ** More on the validator *)

Lemma required_all_present df :
  filter (fun col => negb (has_column col df)) required_columns = [] <->
  forall c, In c required_columns -> get_column c df <> None.
Proof.
  split.
  - intros F c Hc Hn.
    assert (Hin : In c (filter (fun col => negb (has_column col df))
                          required_columns)).
    { apply filter_In. split; [exact Hc |].
      rewrite has_column_get, Hn. reflexivity. }
    rewrite F in Hin. exact Hin.
  - intros H. apply filter_nil. intros c Hc. rewrite has_column_get.
    specialize (H c Hc). destruct (get_column c df); [reflexivity | congruence].
Qed.

Lemma required_missing_dec df :
  (exists c, In c required_columns /\ get_column c df = None) \/
  (forall c, In c required_columns -> get_column c df <> None).
Proof.
  destruct (filter (fun col => negb (has_column col df)) required_columns)
    as [| c l] eqn:F.
  - right. apply required_all_present. exact F.
  - left. exists c.
    assert (Hin : In c (filter (fun col => negb (has_column col df))
                          required_columns))
      by (rewrite F; left; reflexivity).
    apply filter_In in Hin as [Hc Hn]. split; [exact Hc |].
    rewrite has_column_get in Hn. destruct (get_column c df);
      [discriminate | reflexivity].
Qed.

(** On a frame whose transaction ids are hashable and whose range-checked
    columns hold numbers or missing values, the validator returns, and
    returns false exactly on a missing required column or a repeated id. *)
Lemma validate_data_verdict df :
  column_ok hashable "transaction_id" df = true ->
  column_ok comparable "fuel_units" df = true ->
  column_ok comparable "station_id" df = true ->
  exists b lg,
    validate_data df = Ok (b, lg) /\
    (b = false <->
     (exists c, In c required_columns /\ get_column c df = None) \/
     (exists ids, get_column "transaction_id" df = Some ids /\
                  has_duplicate ids)).
Proof.
  intros Hh Hf Hst. unfold validate_data.
  destruct (required_missing_dec df) as [Hm | Hall].
  - destruct (filter _ required_columns) as [| c l] eqn:F.
    + exfalso. destruct Hm as (c & Hc & Hn).
      exact (proj1 (required_all_present df) F c Hc Hn).
    + eexists false, _. split; [reflexivity |]. split; auto.
  - rewrite (proj2 (required_all_present df) Hall).
    destruct (get_column "transaction_id" df) as [ids |] eqn:Hids.
    2:{ exfalso. apply (Hall "transaction_id"); [simpl; auto | exact Hids]. }
    unfold getitem. rewrite Hids. cbn [bind]. cbv zeta.
    assert (Hh' : Forall (fun x => hashable x = true) ids).
    { unfold column_ok in Hh. rewrite Hids in Hh.
      apply Forall_forall. apply forallb_forall. exact Hh. }
    pose proof (duplicated_spec ids) as Hm.
    rewrite (has_repeated_hashable ids Hh') in Hm.
    destruct (any (duplicated ids)) eqn:E.
    + eexists false, _. split; [reflexivity |]. split; [| reflexivity].
      intros _. right. exists ids. split; [reflexivity |].
      apply Hm. reflexivity.
    + destruct (range_check_ok "fuel_units" 0 10000
                  "Found fuel_units outside expected range [0, 10000]"
                  df Hf) as (w1 & ->).
      destruct (range_check_ok "station_id" 1000 9999
                  "Found station_id outside expected range [1000, 9999]"
                  df Hst) as (w2 & ->).
      cbn [bind]. eexists true, _. split; [reflexivity |].
      split; [discriminate |].
      intros [(c & Hc & Hn) | (ids' & Hi & Hd)].
      * exfalso. exact (Hall c Hc Hn).
      * injection Hi as <-. apply Hm in Hd. congruence.
Qed.

Lemma compare_series_raises op bound s e :
  compare_series op bound s = Raise e -> e = TypeError.
Proof.
  unfold compare_series.
  induction s as [| x s IH]; simpl; [discriminate |].
  unfold compare_cell at 1.
  destruct (isna x); [| destruct (as_number x)]; simpl;
    try (destruct (map_result _ s); simpl; [discriminate |];
         intros K; injection K as <-; apply IH; reflexivity).
  congruence.
Qed.

Lemma range_check_raises c lo hi msg df e :
  range_check c lo hi msg df = Raise e -> e = TypeError.
Proof.
  unfold range_check, getitem. rewrite has_column_get.
  destruct (get_column c df) as [s |]; [| discriminate].
  cbn [bind]. unfold outside_range.
  destruct (compare_series Qlt_bool lo s) as [below |] eqn:E1; cbn [bind].
  - destruct (any below); cbn [bind]; [discriminate |].
    destruct (compare_series Qgt_bool hi s) as [above |] eqn:E2; cbn [bind];
      [discriminate |].
    intros K. injection K as <-. eapply compare_series_raises; eauto.
  - intros K. injection K as <-. eapply compare_series_raises; eauto.
Qed.

(** X9.  The validator never fails on a missing label, and the check for
    repeated ids never fails: the only exception it can raise is [TypeError],
    and it comes from the comparison of a [fuel_units] or [station_id] cell
    that is neither a number nor missing with a bound. *)
Theorem validate_raises_only_type_error (df : DataFrame) (e : exn) :
  validate_data df = Raise e ->
  e = TypeError /\
  (column_ok comparable "fuel_units" df = false \/
   column_ok comparable "station_id" df = false).
Proof.
  unfold validate_data.
  destruct (filter _ required_columns) as [| c l] eqn:F; [| discriminate].
  pose proof (proj1 (required_all_present df) F "transaction_id") as Hid.
  unfold getitem.
  destruct (get_column "transaction_id" df) as [ids |];
    [| exfalso; apply Hid; [simpl; auto | reflexivity]].
  cbn [bind]. cbv zeta.
  destruct (any (duplicated ids)); [discriminate |].
  destruct (column_ok comparable "fuel_units" df) eqn:Cf.
  - destruct (range_check_ok "fuel_units" 0 10000
                "Found fuel_units outside expected range [0, 10000]"
                df Cf) as (w1 & ->).
    cbn [bind].
    destruct (column_ok comparable "station_id" df) eqn:Cs.
    + destruct (range_check_ok "station_id" 1000 9999
                  "Found station_id outside expected range [1000, 9999]"
                  df Cs) as (w2 & ->).
      discriminate.
    + destruct (range_check "station_id" _ _ _ df) as [w2 |] eqn:R2;
        cbn [bind]; [discriminate |].
      intros K. injection K as <-.
      split; [eapply range_check_raises; exact R2 | right; reflexivity].
  - destruct (range_check "fuel_units" _ _ _ df) as [w1 |] eqn:R1; cbn [bind].
    + destruct (range_check "station_id" _ _ _ df) as [w2 |] eqn:R2;
        cbn [bind]; [discriminate |].
      intros K. injection K as <-.
      split; [eapply range_check_raises; exact R2 | left; reflexivity].
    + intros K. injection K as <-.
      split; [eapply range_check_raises; exact R1 | left; reflexivity].
Qed.

Lemma validate_raises_only_type_error_witness :
  validate_data text_station_frame = Raise TypeError /\
  (column_ok comparable "fuel_units" text_station_frame = false \/
   column_ok comparable "station_id" text_station_frame = false).
Proof.
  split; [reflexivity |].
  exact (proj2 (validate_raises_only_type_error text_station_frame TypeError
                  eq_refl)).
Defined.

Lemma Qlt_bool_iff a b : Qlt_bool a b = true <-> (a < b)%Q.
Proof.
  unfold Qlt_bool. rewrite negb_true_iff. split.
  - intros E. apply Qnot_le_lt. intros H. apply Qle_bool_iff in H. congruence.
  - intros H. destruct (Qle_bool b a) eqn:E; [| reflexivity].
    apply Qle_bool_iff in E. exfalso. exact (Qlt_not_le _ _ H E).
Qed.

Lemma Qgt_bool_iff a b : Qgt_bool a b = true <-> (b < a)%Q.
Proof.
  unfold Qgt_bool. rewrite negb_true_iff. split.
  - intros E. apply Qnot_le_lt. intros H. apply Qle_bool_iff in H. congruence.
  - intros H. destruct (Qle_bool a b) eqn:E; [| reflexivity].
    apply Qle_bool_iff in E. exfalso. exact (Qlt_not_le _ _ H E).
Qed.

Lemma compare_series_any op bound s marks :
  compare_series op bound s = Ok marks ->
  (any marks = true <->
   exists x q, In x s /\ as_number x = Some q /\ op q bound = true).
Proof.
  unfold compare_series. revert marks.
  induction s as [| x s IH]; simpl; intros marks H.
  - injection H as <-. split; [discriminate |].
    intros (x & q & [] & _).
  - destruct (compare_cell op bound x) as [b |] eqn:Ex; simpl in H;
      [| discriminate].
    destruct (map_result (compare_cell op bound) s) as [ms |]; simpl in H;
      [| discriminate].
    injection H as <-. rewrite any_cons, orb_true_iff, (IH ms eq_refl).
    unfold compare_cell in Ex. split.
    + intros [Hb | (y & q & Hy & Hq & Ho)].
      * subst b. exists x.
        destruct (isna x); [discriminate |].
        destruct (as_number x) as [q |]; [| discriminate].
        injection Ex as Ex. exists q. auto.
      * exists y, q. auto.
    + intros (y & q & [<- | Hy] & Hq & Ho).
      * left. rewrite Hq in Ex.
        destruct (isna x) eqn:Ena.
        -- destruct x; discriminate.
        -- congruence.
      * right. exists y, q. auto.
Qed.

Lemma outside_range_spec lo hi s b :
  outside_range lo hi s = Ok b -> (b = true <-> out_of_range lo hi s).
Proof.
  unfold outside_range, out_of_range.
  destruct (compare_series Qlt_bool lo s) as [below |] eqn:E1; cbn [bind];
    [| discriminate].
  pose proof (compare_series_any _ _ _ _ E1) as B.
  destruct (any below) eqn:Ab.
  - intros K. injection K as <-. split; [| reflexivity]. intros _.
    destruct (proj1 B eq_refl) as (x & q & Hx & Hq & Ho).
    exists x, q. split; [exact Hx |]. split; [exact Hq |].
    left. apply Qlt_bool_iff. exact Ho.
  - destruct (compare_series Qgt_bool hi s) as [above |] eqn:E2; cbn [bind];
      [| discriminate].
    pose proof (compare_series_any _ _ _ _ E2) as A.
    intros K. injection K as <-. rewrite A. split.
    + intros (x & q & Hx & Hq & Ho). exists x, q.
      split; [exact Hx |]. split; [exact Hq |]. right.
      apply Qgt_bool_iff. exact Ho.
    + intros (x & q & Hx & Hq & [Hlt | Hgt]).
      * exfalso. assert (K : false = true); [| discriminate K].
        apply B. exists x, q. split; [exact Hx |]. split; [exact Hq |].
        apply Qlt_bool_iff. exact Hlt.
      * exists x, q. split; [exact Hx |]. split; [exact Hq |].
        apply Qgt_bool_iff. exact Hgt.
Qed.

Lemma range_check_spec c lo hi msg df w :
  range_check c lo hi msg df = Ok w ->
  (w = [(WARNING, msg)] \/ w = []) /\
  (w = [(WARNING, msg)] <->
   exists s, get_column c df = Some s /\ out_of_range lo hi s).
Proof.
  unfold range_check, getitem. rewrite has_column_get.
  destruct (get_column c df) as [s |].
  - cbn [bind].
    destruct (outside_range lo hi s) as [b |] eqn:E; cbn [bind];
      [| discriminate].
    pose proof (outside_range_spec _ _ _ _ E) as O.
    intros K. injection K as <-. destruct b.
    + split; [auto |]. split; [| reflexivity]. intros _.
      exists s. split; [reflexivity |]. apply O. reflexivity.
    + split; [auto |]. split; [discriminate |].
      intros (s' & Hs & Ho). injection Hs as <-. apply O in Ho. discriminate.
  - intros K. injection K as <-. split; [auto |]. split; [discriminate |].
    intros (s & Hs & _). discriminate.
Qed.

(** X10.  When the validator accepts a frame, its log tells the soft
    violations exactly: it holds the [fuel_units] warning if and only if some
    [fuel_units] cell is a number below 0 or above 10000, and the
    [station_id] warning if and only if some [station_id] cell is a number
    below 1000 or above 9999.  Missing values warn about nothing. *)
Theorem validate_warnings_exact (df : DataFrame) (lg : log) :
  validate_data df = Ok (true, lg) ->
  (In fuel_units_warning lg <->
   exists s, get_column "fuel_units" df = Some s /\ out_of_range 0 10000 s) /\
  (In station_id_warning lg <->
   exists s, get_column "station_id" df = Some s /\ out_of_range 1000 9999 s).
Proof.
  unfold validate_data.
  destruct (filter _ required_columns) as [| c l]; [| discriminate].
  destruct (getitem "transaction_id" df) as [ids |]; cbn [bind];
    [| discriminate].
  cbv zeta. destruct (any (duplicated ids)); [discriminate |].
  destruct (range_check "fuel_units" _ _ _ df) as [w1 |] eqn:R1; cbn [bind];
    [| discriminate].
  destruct (range_check "station_id" _ _ _ df) as [w2 |] eqn:R2; cbn [bind];
    [| discriminate].
  intros K. injection K as <-.
  destruct (range_check_spec _ _ _ _ _ _ R1) as [S1 W1].
  destruct (range_check_spec _ _ _ _ _ _ R2) as [S2 W2].
  unfold fuel_units_warning, station_id_warning. split.
  - rewrite <- W1. destruct S1 as [-> | ->], S2 as [-> | ->]; simpl;
      split; intros H; try reflexivity; try discriminate; auto;
      repeat (destruct H as [H | H]; try discriminate H; try contradiction).
  - rewrite <- W2. destruct S1 as [-> | ->], S2 as [-> | ->]; simpl;
      split; intros H; try reflexivity; try discriminate; auto;
      repeat (destruct H as [H | H]; try discriminate H; try contradiction).
Qed.

Lemma validate_warnings_exact_witness :
  (exists lg, validate_data valid_frame = Ok (true, lg) /\
              In fuel_units_warning lg) /\
  exists s, get_column "fuel_units" valid_frame = Some s /\
            out_of_range 0 10000 s.
Proof.
  assert (H : validate_data valid_frame
              = Ok (true, [fuel_units_warning; station_id_warning;
                           (INFO, "Data validation completed successfully")]))
    by reflexivity.
  split.
  - eexists. split; [exact H | left; reflexivity].
  - apply (proj1 (validate_warnings_exact valid_frame _ H)).
    left. reflexivity.
Defined.

(** ** Validating what the transformer returns *)

Lemma numeric_cells_of_output
  (parse_number : string -> option Q)
  (parse_datetime : string -> option instant)
  (epoch_datetime : Q -> option Z) c s df df' :
  transform_for_postgres parse_number parse_datetime epoch_datetime df
    = Ok df' ->
  get_column c df' = Some s -> In c numeric_columns ->
  forall x, In x s ->
    (exists q, x = VNum q) \/ (exists b, x = VBool b) \/ x = VNaN.
Proof.
  intros H Hs Hc x Hx.
  destruct (transform_output_normalized _ _ _ _ _ H) as (_ & Hn & _).
  pose proof (proj1 (Forall_forall _ _) (Hn c s Hs) x Hx) as N.
  assert (N' : match x with VBool _ | VNum _ | VNaN => true | _ => false end
               = true)
    by (simpl in Hc; intuition subst; exact N).
  destruct x; try discriminate; eauto.
Qed.

Section TransformThenValidate.

Variable parse_number : string -> option Q.
Variable parse_datetime : string -> option instant.
Variable epoch_datetime : Q -> option Z.

Local Abbreviation tfp :=
  (transform_for_postgres parse_number parse_datetime epoch_datetime).

Lemma transform_keeps_plain_column c df df' :
  tfp df = Ok df' ->
  c = "transaction_id" \/ c = "ship_name" \/ c = "fuel_type" ->
  get_column c df' = get_column c df.
Proof.
  intros H Hc.
  rewrite (get_transform_other _ _ _ c df df' H);
    [| unfold rule_columns; simpl; intuition (subst; discriminate)].
  intuition subst; reflexivity.
Qed.

Lemma transform_keeps_required_presence df df' c :
  tfp df = Ok df' -> In c required_columns ->
  (get_column c df' = None <-> get_column c df = None).
Proof.
  intros H Hc. simpl in Hc.
  destruct Hc as [<- | [<- | [<- | [<- | [<- | []]]]]].
  - rewrite (transform_keeps_plain_column _ df df' H); tauto.
  - rewrite (get_transform_numeric _ _ _ "station_id" df df' H)
      by (simpl; auto 10).
    destruct (get_column "station_id" df); simpl; split; intros K;
      try discriminate K; reflexivity.
  - rewrite (transform_keeps_plain_column _ df df' H); tauto.
  - rewrite (transform_keeps_plain_column _ df df' H); tauto.
  - destruct (get_transform_dates _ _ _ _ _ H) as [G _]. rewrite G.
    destruct (get_column "visited_at" df) as [s |] eqn:Es;
      [| split; reflexivity].
    split; [| discriminate]. intros K. exfalso.
    pose proof (transform_is_ok parse_number parse_datetime epoch_datetime df)
      as O.
    rewrite H in O. simpl in O. symmetry in O.
    apply andb_true_iff in O as [O _]. apply andb_true_iff in O as [_ O].
    unfold column_ok in O. rewrite Es in O.
    unfold datetime_like in O. rewrite <- map_result_is_ok in O.
    unfold converted, to_datetime in K.
    destruct (map_result _ s); [discriminate K | discriminate O].
Qed.

Lemma transform_output_comparable c df df' :
  tfp df = Ok df' -> In c numeric_columns ->
  column_ok comparable c df' = true.
Proof.
  intros H Hc. unfold column_ok.
  destruct (get_column c df') as [s |] eqn:Es; [| reflexivity].
  apply forallb_forall. intros x Hx.
  destruct (numeric_cells_of_output _ _ _ c s df df' H Es Hc x Hx)
    as [[q ->] | [[b ->] | ->]]; reflexivity.
Qed.

End TransformThenValidate.

(** X11.  Validation after transformation cannot fail on the range checks:
    for a frame with hashable transaction ids that the transformer accepts,
    the validator returns on the transformed frame, and it returns false
    exactly when the raw frame lacks a required column or repeats a
    transaction id.  The transformer neither adds nor removes a required
    column and leaves the ids alone. *)
Theorem validate_after_transform
  (parse_number : string -> option Q)
  (parse_datetime : string -> option instant)
  (epoch_datetime : Q -> option Z)
  (df df' : DataFrame) :
  transform_for_postgres parse_number parse_datetime epoch_datetime df
    = Ok df' ->
  column_ok hashable "transaction_id" df = true ->
  exists b lg,
    validate_data df' = Ok (b, lg) /\
    (b = false <->
     (exists c, In c required_columns /\ get_column c df = None) \/
     (exists ids, get_column "transaction_id" df = Some ids /\
                  has_duplicate ids)).
Proof.
  intros H Hh.
  pose proof (transform_keeps_plain_column _ _ _ "transaction_id" df df' H
                (or_introl eq_refl)) as Gid.
  destruct (validate_data_verdict df') as (b & lg & E & Hb).
  - rewrite (column_ok_ext _ _ df' df Gid). exact Hh.
  - apply (transform_output_comparable _ _ _ _ df df' H). simpl. auto 10.
  - apply (transform_output_comparable _ _ _ _ df df' H). simpl. auto 10.
  - exists b, lg. split; [exact E |]. rewrite Hb, Gid. split.
    + intros [(c & Hc & Hn) | Hd]; [left | right; exact Hd].
      exists c. split; [exact Hc |].
      apply (transform_keeps_required_presence _ _ _ df df' c H Hc). exact Hn.
    + intros [(c & Hc & Hn) | Hd]; [left | right; exact Hd].
      exists c. split; [exact Hc |].
      apply (transform_keeps_required_presence _ _ _ df df' c H Hc). exact Hn.
Qed.

Lemma validate_after_transform_witness :
  column_ok hashable "transaction_id" raw_batch_frame = true /\
  exists df' b lg,
    transform raw_batch_frame = Ok df' /\ validate_data df' = Ok (b, lg).
Proof.
  split; [reflexivity |]. eexists.
  destruct (validate_after_transform parse_decimal parse_iso_date epoch_ns
              raw_batch_frame _ eq_refl eq_refl) as (b & lg & E & _).
  exists b, lg. split; [reflexivity | exact E].
Defined.

(** Three raw rows with a repeated id: the transformer returns three rows,
    the validator rejects them. *)
Example end_to_end_example :
  exists df',
    transform raw_batch_frame = Ok df' /\
    nrows df' = 3%nat /\
    get_column "station_id" df' = Some [VNum 1001; VNaN; VNum 1003] /\
    validate_data df'
    = Ok (false, [(ERROR, "Found duplicate transaction IDs")]).
Proof. eexists. repeat split. Qed.

(** ** More on the tracker *)

Lemma has_duplicate_snoc acc x :
  ~ has_duplicate acc -> set_member x acc = false ->
  ~ has_duplicate (acc ++ [x]).
Proof.
  intros Hn Hx (i & j & a & b & Hij & Hi & Hj & Hab).
  assert (Hjl : (j < List.length (acc ++ [x]))%nat)
    by (apply nth_error_Some; congruence).
  rewrite length_app in Hjl. simpl in Hjl.
  destruct (Nat.eq_dec j (List.length acc)) as [-> | Hne].
  - rewrite nth_error_app2, Nat.sub_diag in Hj by lia. injection Hj as <-.
    rewrite nth_error_app1 in Hi by lia.
    assert (K : set_member x acc = true); [| congruence].
    apply existsb_exists. exists a. split; [eapply nth_error_In; eauto |].
    rewrite py_eqb_sym. exact Hab.
  - apply Hn. exists i, j, a, b.
    rewrite nth_error_app1 in Hi by lia.
    rewrite nth_error_app1 in Hj by lia. auto.
Qed.

Lemma first_fields_no_duplicate rows : forall acc s,
  ~ has_duplicate acc -> first_fields acc rows = Ok s -> ~ has_duplicate s.
Proof.
  induction rows as [| r rows IH]; intros acc s Hn; simpl.
  - intros E. injection E as <-. exact Hn.
  - destruct (first_field r) as [x |]; cbn [bind]; [| discriminate].
    unfold set_add. destruct (hashable x); cbn [bind]; [| discriminate].
    apply IH. destruct (set_member x acc) eqn:E; [exact Hn |].
    apply has_duplicate_snoc; assumption.
Qed.

(** X12.  What [get_processed_files] returns is a set: no filename is in it
    twice, however often the rows repeat it. *)
Theorem processed_files_are_distinct (hook : PostgresHook) (s : pyset) :
  get_processed_files hook = Ok s -> ~ has_duplicate s.
Proof.
  assert (N : ~ has_duplicate []).
  { intros (i & j & a & b & _ & Hi & _). destruct i; discriminate. }
  unfold get_processed_files.
  destruct (get_records hook _) as [rows |]; cbn [bind].
  - destruct (first_fields [] rows) as [s' |] eqn:F; intros E;
      injection E as <-; [| exact N].
    eapply first_fields_no_duplicate; eauto.
  - intros E. injection E as <-. exact N.
Qed.

Lemma processed_files_are_distinct_witness :
  get_processed_files answering_hook
  = Ok [VStr "a.parquet"; VStr "b.parquet"] /\
  ~ has_duplicate [VStr "a.parquet"; VStr "b.parquet"].
Proof.
  split; [reflexivity |].
  exact (processed_files_are_distinct answering_hook _ eq_refl).
Defined.

Lemma first_fields_bad_row rows : forall acc r,
  In r rows ->
  (r = [] \/ exists x rest, r = x :: rest /\ hashable x = false) ->
  exists e, first_fields acc rows = Raise e.
Proof.
  induction rows as [| r' rows IH]; intros acc r Hin Hbad; [contradiction |].
  simpl. destruct (first_field r') as [x |] eqn:Ef; cbn [bind]; [| eauto].
  unfold set_add. destruct (hashable x) eqn:Eh; cbn [bind]; [| eauto].
  destruct Hin as [-> | Hin]; [| eapply IH; eauto].
  exfalso. destruct Hbad as [-> | (y & rest & -> & Hy)]; simpl in Ef.
  - discriminate.
  - injection Ef as <-. congruence.
Qed.

(** X13.  One malformed row hides every file: when the rows the collaborator
    returns include a row without fields, or one whose first field cannot be
    hashed, [get_processed_files] returns the empty set, not the filenames
    of the other rows. *)
Theorem malformed_row_empties_the_set
  (hook : PostgresHook) (rows : list record) (r : record) :
  get_records hook processed_files_query = Ok rows ->
  In r rows ->
  (r = [] \/ exists x rest, r = x :: rest /\ hashable x = false) ->
  get_processed_files hook = Ok [].
Proof.
  intros Q Hin Hbad. unfold get_processed_files.
  fold processed_files_query. rewrite Q. cbn [bind].
  destruct (first_fields_bad_row rows [] r Hin Hbad) as (e & ->).
  reflexivity.
Qed.

Lemma malformed_row_empties_the_set_witness :
  get_records ragged_hook processed_files_query
  = Ok [[VStr "a.parquet"]; []; [VStr "b.parquet"]] /\
  get_processed_files ragged_hook = Ok [].
Proof.
  split; [reflexivity |].
  apply (malformed_row_empties_the_set ragged_hook _ [] eq_refl).
  - right. left. reflexivity.
  - left. reflexivity.
Defined.

(** ** Marking a file, then asking *)

Section MarkAndAsk.

Variable db : Type.
Variable hook : StoreHook db.
Variable files : db -> list string.
Hypothesis contract : insert_or_ignore hook files.

Lemma set_member_filenames x (l : list string) :
  (exists r y, In r (map (fun f => [VStr f]) l) /\ nth_error r 0 = Some y /\
               py_eqb (VStr x) y = true) <-> In x l.
Proof.
  split.
  - intros (r & y & Hr & Hy & E). apply in_map_iff in Hr as (f & <- & Hf).
    simpl in Hy. injection Hy as <-. simpl in E.
    apply String.eqb_eq in E. subst. exact Hf.
  - intros Hx. exists [VStr x], (VStr x).
    split; [apply in_map_iff; eauto |]. split; [reflexivity |].
    simpl. apply String.eqb_refl.
Qed.

Lemma has_filename_rows (l : list string) :
  Forall has_filename (map (fun f => [VStr f]) l).
Proof.
  apply Forall_map, Forall_forall. intros f _. exists (VStr f).
  split; reflexivity.
Qed.

(** What the tracker answers in state [s]: the recorded filenames. *)
Lemma processed_files_in_state s :
  exists set,
    get_processed_files (hook_at hook s) = Ok set /\
    forall g, set_member (VStr g) set = true <-> In g (files s).
Proof.
  destruct contract as [Hsel _].
  unfold get_processed_files, hook_at. simpl. fold processed_files_query.
  rewrite Hsel. cbn [bind].
  destruct (first_fields_spec [] _ (has_filename_rows (files s)))
    as (set & -> & Hset).
  exists set. split; [reflexivity |]. intros g.
  rewrite Hset, set_member_filenames. simpl. split; [| auto].
  intros [K | K]; [discriminate K | exact K].
Qed.

Lemma mark_in_state s f t :
  exists s',
    mark_file_processed hook f t s = (Ok tt, s') /\
    files s' = if existsb (String.eqb f) (files s) then files s
               else files s ++ [f].
Proof.
  destruct contract as [_ Hins].
  destruct (Hins s f t) as (s' & E & Hf).
  exists s'. split; [| exact Hf].
  unfold mark_file_processed. rewrite E. reflexivity.
Qed.

Lemma files_after_mark s f l :
  l = (if existsb (String.eqb f) (files s) then files s else files s ++ [f]) ->
  forall g, In g l <-> g = f \/ In g (files s).
Proof.
  intros -> g. destruct (existsb (String.eqb f) (files s)) eqn:E.
  - split; [auto |]. intros [-> | H]; [| exact H].
    apply existsb_exists in E as (x & Hx & Ex).
    apply String.eqb_eq in Ex. subst. exact Hx.
  - rewrite in_app_iff. simpl. split; intros H; intuition.
Qed.

End MarkAndAsk.

Lemma table_store_contract : insert_or_ignore table_store (map fst).
Proof.
  split.
  - intros s. unfold table_store. cbn [store_records].
    rewrite String.eqb_refl, map_map. reflexivity.
  - intros s f t. unfold table_store. cbn [store_run].
    rewrite String.eqb_refl.
    eexists. split; [reflexivity |].
    destruct (existsb (String.eqb f) (map fst s)); [reflexivity |].
    rewrite map_app. reflexivity.
Qed.

(** X14.  On a store that honours the two statements of the tracker,
    marking a file succeeds, and afterwards [get_processed_files] holds
    that file, every file it held before, and nothing else. *)
Theorem mark_then_get
  (db : Type) (hook : StoreHook db) (files : db -> list string)
  (s : db) (f : string) (now : value) :
  insert_or_ignore hook files ->
  exists s' set,
    mark_file_processed hook f now s = (Ok tt, s') /\
    get_processed_files (hook_at hook s') = Ok set /\
    forall g, set_member (VStr g) set = true <-> g = f \/ In g (files s).
Proof.
  intros C.
  destruct (mark_in_state db hook files C s f now) as (s' & E & Hf).
  destruct (processed_files_in_state db hook files C s') as (set & G & Hset).
  exists s', set. split; [exact E |]. split; [exact G |].
  intros g. rewrite Hset. exact (files_after_mark db files s f _ Hf g).
Qed.

Lemma mark_then_get_witness :
  insert_or_ignore table_store (map fst) /\
  exists s' set,
    mark_file_processed table_store "b.parquet" (VTimestamp 7)
      [("a.parquet", VTimestamp 1)] = (Ok tt, s') /\
    get_processed_files (hook_at table_store s') = Ok set.
Proof.
  split; [exact table_store_contract |].
  destruct (mark_then_get _ table_store (map fst)
              [("a.parquet", VTimestamp 1)] "b.parquet" (VTimestamp 7)
              table_store_contract) as (s' & set & E & G & _).
  exists s', set. split; [exact E | exact G].
Defined.

(** X15.  Marking is idempotent on such a store: marking a file that is
    already marked succeeds again, whatever the clock says, and leaves the
    recorded filenames, and so the answer of [get_processed_files], as they
    were. *)
Theorem mark_twice_is_mark_once
  (db : Type) (hook : StoreHook db) (files : db -> list string)
  (s : db) (f : string) (now later : value) :
  insert_or_ignore hook files ->
  exists s1 s2,
    mark_file_processed hook f now s = (Ok tt, s1) /\
    mark_file_processed hook f later s1 = (Ok tt, s2) /\
    files s2 = files s1 /\
    get_processed_files (hook_at hook s2)
    = get_processed_files (hook_at hook s1).
Proof.
  intros C.
  destruct (mark_in_state db hook files C s f now) as (s1 & E1 & Hf1).
  destruct (mark_in_state db hook files C s1 f later) as (s2 & E2 & Hf2).
  exists s1, s2. split; [exact E1 |]. split; [exact E2 |].
  assert (Hin : existsb (String.eqb f) (files s1) = true).
  { apply existsb_exists. exists f. split; [| apply String.eqb_refl].
    apply (files_after_mark db files s f _ Hf1). left. reflexivity. }
  rewrite Hin in Hf2. split; [exact Hf2 |].
  destruct C as [Hsel _].
  unfold get_processed_files, hook_at. simpl. fold processed_files_query.
  rewrite !Hsel, Hf2. reflexivity.
Qed.

Lemma mark_twice_is_mark_once_witness :
  insert_or_ignore table_store (map fst) /\
  exists s1 s2,
    mark_file_processed table_store "a.parquet" (VTimestamp 1) [] = (Ok tt, s1)
    /\ mark_file_processed table_store "a.parquet" (VTimestamp 2) s1
       = (Ok tt, s2)
    /\ map fst s2 = map fst s1.
Proof.
  split; [exact table_store_contract |].
  destruct (mark_twice_is_mark_once _ table_store (map fst) []
              "a.parquet" (VTimestamp 1) (VTimestamp 2)
              table_store_contract) as (s1 & s2 & E1 & E2 & Hf & _).
  exists s1, s2. split; [exact E1 |]. split; [exact E2 | exact Hf].
Defined.

Example mark_example :
  mark_file_processed table_store "a.parquet" (VTimestamp 2)
    [("a.parquet", VTimestamp 1)]
  = (Ok tt, [("a.parquet", VTimestamp 1)]) /\
  mark_file_processed table_store "b.parquet" (VTimestamp 2)
    [("a.parquet", VTimestamp 1)]
  = (Ok tt, [("a.parquet", VTimestamp 1); ("b.parquet", VTimestamp 2)]).
Proof. split; reflexivity. Qed.

(** ** The loader *)

Lemma values_length n df :
  rectangular n df -> df <> [] -> List.length (values df) = n.
Proof.
  intros H Hne. unfold values.
  rewrite length_map, length_seq. apply rectangular_nrows; assumption.
Qed.

Lemma values_nth n df i :
  rectangular n df -> df <> [] -> (i < n)%nat ->
  nth_error (values df) i = Some (row_at df i).
Proof.
  intros H Hne Hi. unfold values.
  rewrite nth_error_map, (rectangular_nrows n df H Hne).
  rewrite nth_error_seq. destruct (Nat.ltb_spec i n); [reflexivity | lia].
Qed.

(** X16.  What the loader hands to [insert_rows] for a frame of [n] rows:
    the frame's labels as target fields and [n] tuples as wide as the
    labels.  The collaborator's outcome, an exception included, is the
    loader's outcome. *)
Theorem insert_dataframe_rows
  (self : PostgreSQLLoader) (df : DataFrame) (batch_size n : nat) :
  rectangular n df -> df <> [] ->
  exists rows,
    insert_dataframe self df batch_size
    = insert_rows (loader_hook self) (table_name self) rows (columns df)
        batch_size /\
    List.length rows = n /\
    (forall row, In row rows ->
       List.length row = List.length (columns df)).
Proof.
  intros Hr Hne. exists (values df). split; [| split].
  - unfold insert_dataframe. cbv zeta.
    destruct (insert_rows _ _ _ _ _) as [[] | e]; reflexivity.
  - apply values_length; assumption.
  - intros row Hin. unfold values in Hin.
    apply in_map_iff in Hin as (i & <- & _).
    unfold row_at, columns. rewrite !length_map. reflexivity.
Qed.

Lemma insert_dataframe_rows_witness :
  rectangular 2 valid_frame /\ valid_frame <> [] /\
  exists rows,
    insert_dataframe fuel_loader valid_frame default_batch_size
    = insert_rows (loader_hook fuel_loader) (table_name fuel_loader) rows
        (columns valid_frame) default_batch_size /\
    List.length rows = 2%nat.
Proof.
  assert (Hr : rectangular 2 valid_frame) by (repeat constructor).
  assert (Hne : valid_frame <> []) by discriminate.
  split; [exact Hr |]. split; [exact Hne |].
  destruct (insert_dataframe_rows fuel_loader valid_frame default_batch_size
              2 Hr Hne) as (rows & E & L & _).
  exists rows. split; [exact E | exact L].
Defined.

Lemma add_label_In c l : In c (add_label c l).
Proof.
  unfold add_label. destruct (existsb (String.eqb c) l) eqn:E.
  - apply existsb_exists in E as (x & Hx & Ex).
    apply String.eqb_eq in Ex. subst. exact Hx.
  - apply in_or_app. right. left. reflexivity.
Qed.

Lemma transform_keeps_rows_shared
  (parse_number : string -> option Q)
  (parse_datetime : string -> option instant)
  (epoch_datetime : Q -> option Z)
  (n : nat) (df df' : DataFrame) :
  rectangular n df ->
  transform_for_postgres parse_number parse_datetime epoch_datetime df
    = Ok df' ->
  rectangular n df'.
Proof.
  intros Hr H.
  destruct (transform_inv _ _ _ _ _ H) as (d1 & d2 & d3 & H1 & H2 & H3 & ->).
  unfold coerce_and_fill, to_numeric, astype_bool.
  apply rectangular_fillna. repeat first [ apply rectangular_fold_convert
                 | apply rectangular_fold_assign;
                   [apply to_numeric_series_length |] ].
  eapply rectangular_update; [| exact H3 |].
  { intros s s' E. unfold to_date in E.
    apply bind_ok_inv in E as (ts & Ets & E). injection E as <-.
    rewrite length_map. eapply map_result_length; exact Ets. }
  eapply rectangular_update; [| exact H2 |].
  { intros s s'. apply map_result_length. }
  eapply rectangular_update; [| exact H1 |].
  { intros s s'. apply map_result_length. }
  apply rectangular_extract_dock. exact Hr.
Qed.

Lemma labels_of_output
  (parse_number : string -> option Q)
  (parse_datetime : string -> option instant)
  (epoch_datetime : Q -> option Z)
  (df df' : DataFrame) :
  transform_for_postgres parse_number parse_datetime epoch_datetime df
    = Ok df' ->
  columns df' =
  if has_column "dock" df
  then filter (fun c => negb (String.eqb "dock" c))
         (add_label "dock_level" (add_label "dock_bay" (columns df)))
  else columns df.
Proof.
  intros H.
  destruct (transform_inv _ _ _ _ _ H) as (d1 & d2 & d3 & H1 & H2 & H3 & ->).
  unfold coerce_and_fill, to_numeric, astype_bool.
  rewrite columns_fillna, !columns_fold_convert, !columns_fold_assign.
  rewrite (columns_update_column _ _ _ _ H3),
    (columns_update_column _ _ _ _ H2), (columns_update_column _ _ _ _ H1).
  rewrite has_column_get. unfold extract_dock.
  destruct (get_column "dock" df); [| reflexivity].
  rewrite columns_drop_column, !columns_set_column. reflexivity.
Qed.

(** X17.  Loading a transformed frame: from a raw frame of [n] rows, with at
    least one column, the loader hands [insert_rows] exactly [n] tuples, and
    [dock] is never among the target fields. *)
Theorem load_after_transform
  (parse_number : string -> option Q)
  (parse_datetime : string -> option instant)
  (epoch_datetime : Q -> option Z)
  (n : nat) (df df' : DataFrame) :
  rectangular n df -> df <> [] ->
  transform_for_postgres parse_number parse_datetime epoch_datetime df
    = Ok df' ->
  List.length (values df') = n /\ ~ In "dock" (columns df').
Proof.
  intros Hr Hne H.
  pose proof (labels_of_output _ _ _ _ _ H) as L.
  pose proof (transform_keeps_rows_shared _ _ _ n df df' Hr H) as R.
  split.
  - apply values_length; [exact R |].
    intros ->. change (columns []) with (@nil string) in L.
    destruct (has_column "dock" df).
    + assert (K : In "dock_level"
                    (filter (fun c => negb (String.eqb "dock" c))
                       (add_label "dock_level"
                          (add_label "dock_bay" (columns df))))).
      { apply filter_In. split; [apply add_label_In | reflexivity]. }
      rewrite <- L in K. exact K.
    + destruct df as [| [c s] d]; [congruence |].
      unfold columns in L. simpl map in L. discriminate L.
  - intros Hin. unfold columns in Hin.
    apply in_map_iff in Hin as ([c s] & Hc & Hin). simpl in Hc. subst c.
    assert (G : get_column "dock" df' <> None).
    { clear -Hin. induction df' as [| [c' s'] d IH]; [contradiction |].
      cbn [get_column].
      destruct (String.eqb_spec "dock" c') as [E | E]; [discriminate |].
      destruct Hin as [K | Hin]; [congruence | auto]. }
    apply G. eapply get_transform_dock; eauto.
Qed.

Lemma load_after_transform_witness :
  rectangular 3 raw_batch_frame /\ raw_batch_frame <> [] /\
  exists df',
    transform raw_batch_frame = Ok df' /\
    List.length (values df') = 3%nat.
Proof.
  assert (Hr : rectangular 3 raw_batch_frame) by (repeat constructor).
  assert (Hne : raw_batch_frame <> []) by discriminate.
  split; [exact Hr |]. split; [exact Hne |].
  eexists. split; [reflexivity |].
  exact (proj1 (load_after_transform parse_decimal parse_iso_date epoch_ns
                  3 raw_batch_frame _ Hr Hne eq_refl)).
Defined.
